(** * PyNetScanner: the probing core, embedded and verified

    Shallow embedding of
      - [network/host_discovery.py]  (CIDR expansion, host discovery),
      - [network/port_scanner.py]    (single port probe, range and
                                      common-port scans),
      - [network_utils.py]           (ICMP ping with TCP fallback).

    Python [str] values are modelled as [string]; a character is a code
    point below 256.  Python [int] is [Z].  A call that may raise is a
    value of [completion]; the outside world (sockets, the ping
    programs, the thread pool's completion order, the clock) is an
    explicit oracle argument, and what a function does to the world is
    the list of events it returns. *)

From Stdlib Require Import ZArith List String Ascii Bool Lia.
From Stdlib Require Import Permutation Sorted DecimalString.
Import ListNotations.

Local Open Scope string_scope.
Local Open Scope Z_scope.

(** ** Outcome of a call that may raise *)

(** [Raised msg] stands for an exception that is an instance of
    [Exception]; [msg] is what [str(e)] gives. *)
Inductive completion (A : Type) : Type :=
| Returned (a : A)
| Raised (msg : string).
Arguments Returned {A} a.
Arguments Raised {A} msg.

Definition bind {A B} (c : completion A) (k : A -> completion B) : completion B :=
  match c with
  | Returned a => k a
  | Raised msg => Raised msg
  end.

Declare Scope py_scope.
Delimit Scope py_scope with py.
Notation "x <- c ;; k" := (bind c (fun x => k))
  (at level 100, c at next level, right associativity) : py_scope.

(** ** Python string primitives *)

Module PyStr.

(** [s.split(sep)] for a one-character separator. *)
Fixpoint split (sep : ascii) (s : string) : list string :=
  match s with
  | EmptyString => [EmptyString]
  | String c rest =>
      if Ascii.eqb c sep then EmptyString :: split sep rest
      else match split sep rest with
           | [] => [String c EmptyString]
           | w :: ws => String c w :: ws
           end
  end.

(** Membership of a character in a string. *)
Fixpoint mem (c : ascii) (s : string) : bool :=
  match s with
  | EmptyString => false
  | String c' rest => Ascii.eqb c' c || mem c rest
  end.

(** The characters with [str.isspace()] true, among code points below
    256: what [str.strip()] removes. *)
Definition is_space (c : ascii) : bool :=
  let n := nat_of_ascii c in
  ((9 <=? n) && (n <=? 13))%nat || ((28 <=? n) && (n <=? 32))%nat
  || (n =? 133)%nat || (n =? 160)%nat.

(** The white space [int()] skips at both ends of a text: the six
    characters of C's [isspace], and U+0085 and U+00A0, which the
    conversion of a text that is not ASCII turns into a space first.
    The separators U+001C to U+001F are white space for [str.strip()]
    but not for [int()]. *)
Definition int_space (c : ascii) : bool :=
  let n := nat_of_ascii c in
  ((9 <=? n) && (n <=? 13))%nat || (n =? 32)%nat
  || (n =? 133)%nat || (n =? 160)%nat.

Definition digit_value (c : ascii) : option Z :=
  let n := nat_of_ascii c in
  if ((48 <=? n) && (n <=? 57))%nat then Some (Z.of_nat n - 48) else None.

Fixpoint lstrip (s : string) : string :=
  match s with
  | String c rest => if is_space c then lstrip rest else s
  | EmptyString => EmptyString
  end.

(** A text of nothing but white space. *)
Fixpoint all_space (s : string) : bool :=
  match s with
  | EmptyString => true
  | String c rest => is_space c && all_space rest
  end.

Fixpoint int_lstrip (s : string) : string :=
  match s with
  | String c rest => if int_space c then int_lstrip rest else s
  | EmptyString => EmptyString
  end.

Fixpoint int_all_space (s : string) : bool :=
  match s with
  | EmptyString => true
  | String c rest => int_space c && int_all_space rest
  end.

(** Digits of a decimal literal after its first digit: a digit, or one
    underscore followed by a digit; then optional white space to the end.
    [acc] is the value read so far. *)
Fixpoint digits_tail (acc : Z) (s : string) : option Z :=
  match s with
  | EmptyString => Some acc
  | String c rest =>
      match digit_value c with
      | Some d => digits_tail (10 * acc + d) rest
      | None =>
          if Ascii.eqb c "_"%char then
            match rest with
            | String c' rest' =>
                match digit_value c' with
                | Some d => digits_tail (10 * acc + d) rest'
                | None => None
                end
            | EmptyString => None
            end
          else if int_all_space s then Some acc else None
      end
  end.

Definition unsigned_literal (s : string) : option Z :=
  match s with
  | String c rest =>
      match digit_value c with
      | Some d => digits_tail d rest
      | None => None
      end
  | EmptyString => None
  end.

(** Number of digit characters of a text. *)
Fixpoint digit_count (s : string) : Z :=
  match s with
  | EmptyString => 0
  | String c rest =>
      match digit_value c with
      | Some _ => 1 + digit_count rest
      | None => digit_count rest
      end
  end.

(** The longest literal [int()] converts: [sys.int_info.default_max_str_digits]. *)
Definition max_str_digits : Z := 4300.

(** [int(s)] in base 10: [None] stands for [ValueError], which a text
    that is no literal raises, and a literal of more than
    [max_str_digits] digits as well. *)
Definition int (s : string) : option Z :=
  if digit_count s >? max_str_digits then None
  else
    match int_lstrip s with
    | String "+"%char rest => unsigned_literal rest
    | String "-"%char rest => option_map Z.opp (unsigned_literal rest)
    | t => unsigned_literal t
    end.

(** [str(n)] for an integer. *)
Definition str (n : Z) : string := NilZero.string_of_int (Z.to_int n).

End PyStr.

(** The four octets of a 32-bit value, most significant first, and the
    dotted text of four numbers. *)
Module Quad.

Definition octets (x : Z) : list Z :=
  [ Z.land (Z.shiftr x 24) 255; Z.land (Z.shiftr x 16) 255;
    Z.land (Z.shiftr x 8) 255; Z.land x 255 ].

Definition dotted (a b c d : Z) : string :=
  PyStr.str a ++ "." ++ PyStr.str b ++ "." ++ PyStr.str c ++ "." ++ PyStr.str d.

End Quad.

(** ** Work partitioner for address ranges: [host_discovery.py] *)

Module HostRange.

Local Open Scope py_scope.

(** [a, b = l]: unpacking needs exactly two values. *)
Definition unpack2 (l : list string) : completion (string * string) :=
  match l with
  | [a; b] => Returned (a, b)
  | _ => Raised "not enough or too many values to unpack (expected 2)"
  end.

Definition int (s : string) : completion Z :=
  match PyStr.int s with
  | Some z => Returned z
  | None => Raised "invalid literal for int() with base 10"
  end.

(** [[int(p) for p in l]]: stops at the first element that is no integer. *)
Fixpoint ints (l : list string) : completion (list Z) :=
  match l with
  | [] => Returned []
  | s :: rest => z <- int s ;; zs <- ints rest ;; Returned (z :: zs)
  end.

(** [l[i]] for [i >= 0]. *)
Definition item (l : list Z) (i : nat) : completion Z :=
  match nth_error l i with
  | Some z => Returned z
  | None => Raised "list index out of range"
  end.

(** [a << n]: a negative shift count is a [ValueError], and a count
    that does not fit a machine word an [OverflowError].  Below that
    the result is the shifted integer; whether the interpreter finds
    the memory for a result of [n] bits is outside the model. *)
Definition lshift (a n : Z) : completion Z :=
  if n <? 0 then Raised "negative shift count"
  else if 2 ^ 63 <=? n then Raised "too many digits in integer"
  else Returned (Z.shiftl a n).

(** [range(lo, hi)] *)
Definition range (lo hi : Z) : list Z :=
  map (fun i => lo + Z.of_nat i) (seq 0 (Z.to_nat (hi - lo))).

(** The f-string of line 65: four octets of [ip_int], dotted. *)
Definition format_ip (ip_int : Z) : string :=
  PyStr.str (Z.land (Z.shiftr ip_int 24) 255) ++ "." ++
  PyStr.str (Z.land (Z.shiftr ip_int 16) 255) ++ "." ++
  PyStr.str (Z.land (Z.shiftr ip_int 8) 255) ++ "." ++
  PyStr.str (Z.land ip_int 255).

(** The body of the [try] block of [get_ip_range_from_cidr]. *)
Definition get_ip_range_from_cidr_try (cidr : string) : completion (list string) :=
  np <- unpack2 (PyStr.split "/" cidr) ;;
  let network := fst np in
  prefix <- int (snd np) ;;
  parts <- ints (PyStr.split "." network) ;;
  p0 <- item parts 0 ;;
  p1 <- item parts 1 ;;
  p2 <- item parts 2 ;;
  p3 <- item parts 3 ;;
  let base := Z.shiftl p0 24 + Z.shiftl p1 16 + Z.shiftl p2 8 + p3 in
  let host_bits := 32 - prefix in
  one_shifted <- lshift 1 host_bits ;;
  let num_hosts := one_shifted - 2 in
  let num_hosts := if num_hosts >? 254 then 254 else num_hosts in
  Returned (map (fun i => format_ip (base + i)) (range 1 (num_hosts + 1))).

(** [except Exception: return []] *)
Definition get_ip_range_from_cidr (cidr : string) : list string :=
  match get_ip_range_from_cidr_try cidr with
  | Returned ips => ips
  | Raised _ => []
  end.

(** The text [a.b.c.d/p] of a CIDR block, every number in decimal. *)
Definition cidr_text (a b c d p : Z) : string :=
  Quad.dotted a b c d ++ "/" ++ PyStr.str p.

(** The 32-bit value of the address [a.b.c.d]. *)
Definition base_of (a b c d : Z) : Z :=
  Z.shiftl a 24 + Z.shiftl b 16 + Z.shiftl c 8 + d.

End HostRange.

(** ** [list.sort(key=...)] *)

(** Python's sort is stable and compares keys with [<] only.  On keys
    that [<] orders as a strict weak order every stable sort returns the
    same list, so the sort is modelled by stable insertion. *)
Module PySort.

Section Stable.
Context {A K : Type}.
Variable ltb : K -> K -> bool.
Variable key : A -> K.

(** [x] goes before the first element whose key is not below its own:
    it came earlier in the input than everything already inserted. *)
Fixpoint insert (x : A) (l : list A) : list A :=
  match l with
  | [] => [x]
  | y :: rest =>
      if ltb (key y) (key x) then y :: insert x rest else x :: y :: rest
  end.

Fixpoint sort (l : list A) : list A :=
  match l with
  | [] => []
  | x :: rest => insert x (sort rest)
  end.
End Stable.

(** [<] on Python lists of integers: the first position that differs
    decides, a proper prefix is smaller. *)
Fixpoint list_lt (a b : list Z) : bool :=
  match a, b with
  | [], [] => false
  | [], _ :: _ => true
  | _ :: _, [] => false
  | x :: a', y :: b' => if x =? y then list_lt a' b' else x <? y
  end.

(** Keys are computed for every element before anything moves; a key
    function that raises leaves the list as it was. *)
Fixpoint keyed {A K} (key : A -> completion K) (l : list A) : completion (list (K * A)) :=
  match l with
  | [] => Returned []
  | x :: rest =>
      match key x with
      | Raised msg => Raised msg
      | Returned k =>
          match keyed key rest with
          | Raised msg => Raised msg
          | Returned ks => Returned ((k, x) :: ks)
          end
      end
  end.

Definition sort_try {A K} (ltb : K -> K -> bool) (key : A -> completion K)
    (l : list A) : completion (list A) :=
  match keyed key l with
  | Raised msg => Raised msg
  | Returned ks => Returned (map snd (sort ltb fst ks))
  end.

End PySort.

(** ** Sockets as seen by one probe *)

Module Sock.

(** The exception classes the handlers of the probes tell apart:
    [socket.timeout], [socket.gaierror], and any other [Exception] with
    its [str(e)]. *)
Inductive exn : Type :=
| Timeout
| GaiError
| OtherError (msg : string).

Inductive result (A : Type) : Type :=
| Ok (a : A)
| Exn (e : exn).
Arguments Ok {A} a.
Arguments Exn {A} e.

Section Calls.
Context {float : Type}.

(** The socket calls a probe makes. *)
Inductive call : Type :=
| SocketNew                                 (* socket.socket(AF_INET, SOCK_STREAM) *)
| SetTimeout (timeout : float)              (* sock.settimeout(timeout) *)
| ConnectEx (host : string) (port : Z)      (* sock.connect_ex((host, port)) *)
| Close.                                    (* sock.close() *)

(** What the outside answers to each call: the integer is the return
    value of [connect_ex] and is ignored for the other calls. *)
Definition world : Type := call -> result Z.

(** A computation over a mutable value of type [S] that makes socket
    calls: it ends normally or with an exception, leaves the value as
    mutated so far, and has made the listed calls, oldest first. *)
Definition io (S A : Type) : Type := S -> result A * S * list call.

Definition ret {S A} (a : A) : io S A := fun s => (Ok a, s, []).

Definition bind {S A B} (m : io S A) (k : A -> io S B) : io S B :=
  fun s =>
    match m s with
    | (Ok a, s', t) => let '(r, s'', t') := k a s' in (r, s'', (t ++ t')%list)
    | (Exn e, s', t) => (Exn e, s', t)
    end.

Definition do_call {S} (w : world) (c : call) : io S Z :=
  fun s => (w c, s, [c]).

Definition modify {S} (f : S -> S) : io S unit := fun s => (Ok tt, f s, []).

(** [try: body  except ... : handler]: the handler sees the value as
    the body left it. *)
Definition try_except {S A} (body : io S A) (handler : exn -> io S A) : io S A :=
  fun s =>
    match body s with
    | (Ok a, s', t) => (Ok a, s', t)
    | (Exn e, s', t) => let '(r, s'', t') := handler e s' in (r, s'', (t ++ t')%list)
    end.
End Calls.

Arguments call : clear implicits.
Arguments world : clear implicits.
Arguments io : clear implicits.

Definition is_close {float} (c : call float) : bool :=
  match c with Close => true | _ => false end.

Definition is_new {float} (c : call float) : bool :=
  match c with SocketNew => true | _ => false end.

End Sock.

Declare Scope io_scope.
Delimit Scope io_scope with io.
Notation "x <- c ;; k" := (Sock.bind c (fun x => k))
  (at level 100, c at next level, right associativity) : io_scope.
Notation "c ;;; k" := (Sock.bind c (fun _ => k))
  (at level 100, right associativity) : io_scope.

(** ** The thread pool *)

Module Pool.

(** [ThreadPoolExecutor(max_workers=n)] refuses a pool without workers. *)
Definition ThreadPoolExecutor (max_workers : Z) : completion unit :=
  if max_workers <=? 0 then Raised "max_workers must be greater than 0"
  else Returned tt.

(** [as_completed(fs)] hands out the futures of [fs] in the order in
    which they finish: some rearrangement of the submitted ones, chosen
    by the scheduler. *)
Definition scheduler : Type := forall A : Type, list A -> list A.

Definition fair (as_completed : scheduler) : Prop :=
  forall (A : Type) (l : list A), Permutation l (as_completed A l).

(** Two schedulers to run the model on. *)
Definition fifo : scheduler := fun _ l => l.
Definition lifo : scheduler := fun _ l => rev l.

End Pool.

(** ** Port probes and port scans: [network/port_scanner.py] *)

Module PortScanner.

(** Well-known ports and their services, in the order of the dict. *)
Definition COMMON_PORTS : list (Z * string) :=
  [ (20, "FTP-Data"); (21, "FTP"); (22, "SSH"); (23, "Telnet"); (25, "SMTP");
    (53, "DNS"); (80, "HTTP"); (110, "POP3"); (143, "IMAP"); (443, "HTTPS");
    (445, "SMB"); (993, "IMAPS"); (995, "POP3S"); (3306, "MySQL");
    (3389, "RDP"); (5432, "PostgreSQL"); (5900, "VNC"); (6379, "Redis");
    (8080, "HTTP-Proxy"); (8443, "HTTPS-Alt"); (27017, "MongoDB") ].

(** [d.get(k, default)] *)
Fixpoint get (d : list (Z * string)) (k : Z) (default : string) : string :=
  match d with
  | [] => default
  | (k', v) :: rest => if k' =? k then v else get rest k default
  end.

(** The dict every probe returns. *)
Record outcome : Type := {
  port : Z;
  status : string;
  service : string;
  error : option string
}.

Definition set_status (s : string) (r : outcome) : outcome :=
  {| port := port r; status := s; service := service r; error := error r |}.

Definition set_error (e : option string) (r : outcome) : outcome :=
  {| port := port r; status := status r; service := service r; error := e |}.

Section Probe.
Context {float : Type}.

Local Open Scope io_scope.

(** The [try] block of [scan_port], lines 56 to 66. *)
Definition scan_port_try (w : Sock.world float) (host : string) (port : Z)
    (timeout : float) : Sock.io float outcome unit :=
  Sock.do_call w Sock.SocketNew ;;;
  Sock.do_call w (Sock.SetTimeout timeout) ;;;
  connection_result <- Sock.do_call w (Sock.ConnectEx host port) ;;
  (if connection_result =? 0
   then Sock.modify (set_status "open")
   else Sock.modify (set_status "closed")) ;;;
  Sock.do_call w Sock.Close ;;;
  Sock.ret tt.

(** The three [except] clauses, lines 68 to 76. *)
Definition scan_port_except (e : Sock.exn) : Sock.io float outcome unit :=
  match e with
  | Sock.Timeout =>
      Sock.modify (set_status "filtered") ;;;
      Sock.modify (set_error (Some "Connection timed out"))
  | Sock.GaiError =>
      Sock.modify (set_status "error") ;;;
      Sock.modify (set_error (Some "Could not resolve hostname"))
  | Sock.OtherError msg =>
      Sock.modify (set_status "error") ;;;
      Sock.modify (set_error (Some msg))
  end.

(** [scan_port] with the socket calls it made. *)
Definition scan_port_run (w : Sock.world float) (host : string) (port : Z)
    (timeout : float) : outcome * list (Sock.call float) :=
  let result :=
    {| port := port; status := "closed";
       service := get COMMON_PORTS port "Unknown"; error := None |} in
  let '(_, result, calls) :=
    Sock.try_except (scan_port_try w host port timeout) scan_port_except result in
  (result, calls).

Definition scan_port (w : Sock.world float) (host : string) (port : Z)
    (timeout : float) : outcome :=
  fst (scan_port_run w host port timeout).

(** The dict built in the [except] branch of the collecting loops. *)
Definition error_outcome (port : Z) (msg : string) : outcome :=
  {| port := port; status := "error";
     service := get COMMON_PORTS port "Unknown"; error := Some msg |}.

(** The progress callback: called with [(scanned, total, result)], it
    returns or raises. *)
Definition callback_t : Type := Z -> Z -> outcome -> completion unit.

(** One turn of [for future in as_completed(future_to_port)]: the
    future carries what [future.result()] gives, [st] is
    [(results, scanned)]. *)
Definition collect (callback : option callback_t) (total : Z)
    (st : list outcome * Z) (entry : completion outcome * Z) : list outcome * Z :=
  let '(results, scanned) := st in
  let '(future, port) := entry in
  match future with
  | Returned result =>
      let results := (results ++ [result])%list in
      let scanned := scanned + 1 in
      match callback with
      | Some cb =>
          match cb scanned total result with
          | Returned _ => (results, scanned)
          | Raised msg => ((results ++ [error_outcome port msg])%list, scanned + 1)
          end
      | None => (results, scanned)
      end
  | Raised msg => ((results ++ [error_outcome port msg])%list, scanned + 1)
  end.

(** The pool part shared by both scans: submit one probe per port,
    collect in completion order, sort by port.  Returns the sorted
    results with the final value of [scanned]. *)
Definition run_scan (as_completed : Pool.scheduler)
    (probe : Z -> completion outcome) (ports : list Z) (total : Z)
    (callback : option callback_t) (max_workers : Z)
    : completion (list outcome * Z) :=
  match Pool.ThreadPoolExecutor max_workers with
  | Raised msg => Raised msg
  | Returned _ =>
      let future_to_port := map (fun port => (probe port, port)) ports in
      let '(results, scanned) :=
        fold_left (collect callback total)
                  (as_completed _ future_to_port) ([], 0) in
      Returned (PySort.sort Z.ltb port results, scanned)
  end.

(** [scan_port_range], with [probe] for what the module-level name
    [scan_port] is bound to when the pool calls it. *)
Definition scan_port_range_with (as_completed : Pool.scheduler)
    (probe : string -> Z -> float -> completion outcome)
    (host : string) (start_port end_port : Z)
    (callback : option callback_t) (timeout : float) (max_threads : Z)
    : completion (list outcome * Z) :=
  let total_ports := end_port - start_port + 1 in
  run_scan as_completed (fun port => probe host port timeout)
           (HostRange.range start_port (end_port + 1)) total_ports
           callback max_threads.

(** [scan_port_range] as the module defines it: the probe of the port
    [p] is [scan_port] in the world [net p] that this worker meets. *)
Definition scan_port_range_run (as_completed : Pool.scheduler)
    (net : Z -> Sock.world float)
    (host : string) (start_port end_port : Z)
    (callback : option callback_t) (timeout : float) (max_threads : Z)
    : completion (list outcome * Z) :=
  scan_port_range_with as_completed
    (fun h p t => Returned (scan_port (net p) h p t))
    host start_port end_port callback timeout max_threads.

Definition scan_port_range (as_completed : Pool.scheduler)
    (net : Z -> Sock.world float)
    (host : string) (start_port end_port : Z)
    (callback : option callback_t) (timeout : float) (max_threads : Z)
    : completion (list outcome) :=
  match scan_port_range_run as_completed net host start_port end_port
                            callback timeout max_threads with
  | Returned (results, _) => Returned results
  | Raised msg => Raised msg
  end.

(** [scan_common_ports]: the ports are the keys of [COMMON_PORTS], the
    pool has 50 workers. *)
Definition scan_common_ports_run (as_completed : Pool.scheduler)
    (net : Z -> Sock.world float) (host : string)
    (callback : option callback_t) (timeout : float)
    : completion (list outcome * Z) :=
  let ports := map fst COMMON_PORTS in
  let total := Z.of_nat (List.length ports) in
  run_scan as_completed (fun port => Returned (scan_port (net port) host port timeout))
           ports total callback 50.

Definition scan_common_ports (as_completed : Pool.scheduler)
    (net : Z -> Sock.world float) (host : string)
    (callback : option callback_t) (timeout : float)
    : completion (list outcome) :=
  match scan_common_ports_run as_completed net host callback timeout with
  | Returned (results, _) => Returned results
  | Raised msg => Raised msg
  end.
End Probe.

(** A callback that is absent or always returns. *)
Definition returns (callback : option callback_t) : Prop :=
  match callback with
  | None => True
  | Some cb => forall scanned total result, exists u, cb scanned total result = Returned u
  end.

(** The entry a unit leaves in the results when nothing else goes wrong:
    what its probe returned, or the error dict for what it raised. *)
Definition record_of (probe : Z -> completion outcome) (port : Z) : outcome :=
  match probe port with
  | Returned result => result
  | Raised msg => error_outcome port msg
  end.

(** The table of well-known ports as the specification lists it. *)
Definition spec_common_ports : list (Z * string) :=
  [ (21, "FTP"); (22, "SSH"); (23, "Telnet"); (25, "SMTP");
    (53, "DNS"); (80, "HTTP"); (110, "POP3"); (143, "IMAP"); (443, "HTTPS");
    (445, "SMB"); (993, "IMAPS"); (995, "POP3S"); (3306, "MySQL");
    (3389, "RDP"); (5432, "PostgreSQL"); (5900, "VNC"); (6379, "Redis");
    (8080, "HTTP-Proxy"); (8443, "HTTPS-Alt"); (27017, "MongoDB") ].

(** Worlds to run the model on.  [refusing]: [connect_ex] returns
    [ECONNREFUSED]; [accepting]: it returns 0; [unresolved]: the host
    name does not resolve and it raises [socket.gaierror]; [silent]:
    nothing answers within the timeout, and [connect_ex], which reports
    the errors of the connection attempt by their code, returns
    [EAGAIN]. *)
Definition refusing {float} : Sock.world float :=
  fun c => match c with Sock.ConnectEx _ _ => Sock.Ok 111 | _ => Sock.Ok 0 end.
Definition accepting {float} : Sock.world float := fun _ => Sock.Ok 0.
Definition unresolved {float} : Sock.world float :=
  fun c => match c with Sock.ConnectEx _ _ => Sock.Exn Sock.GaiError | _ => Sock.Ok 0 end.
Definition silent {float} : Sock.world float :=
  fun c => match c with Sock.ConnectEx _ _ => Sock.Ok 11 | _ => Sock.Ok 0 end.

(** A world in which [connect_ex] raises [socket.timeout]: what the
    first [except] clause of [scan_port] is written for. *)
Definition timeout_raised {float} : Sock.world float :=
  fun c => match c with Sock.ConnectEx _ _ => Sock.Exn Sock.Timeout | _ => Sock.Ok 0 end.

End PortScanner.

(** ** Liveness probe with fallback: [network_utils.py] *)

Module NetworkUtils.

Section Ping.
Context {float time : Type}.

(** Float arithmetic and formatting stay abstract:
    [(end_time - start_time).total_seconds() * 1000], [latency * 1000]
    and the format [:.2f]. *)
Variable elapsed_ms : time -> time -> float.
Variable times_1000 : float -> float.
Variable fmt_2f : float -> string.

(** What [from ping3 import ping; ping(ip, timeout=timeout)] does:
    returns [None], [False] or the delay in seconds, raises
    [PermissionError], or raises another exception. *)
Inductive ping3 : Type :=
| PingNone
| PingFalse
| PingSeconds (latency : float)
| PingPermissionError
| PingError (msg : string).

(** [(success, latency_ms, message)] *)
Definition reply : Type := bool * option float * string.

Local Open Scope io_scope.

Definition ports_to_try : list Z := [80; 443; 22].

(** [datetime.now()].  The clock is given by the two readings that the
    attempt on each port takes: [(start_time, end_time)]. *)
Definition now (reading : time) : Sock.io float unit time := Sock.ret reading.

(** The [try] block of one turn of the loop of [tcp_ping]:
    [Some r] when the turn executes [return r]. *)
Definition tcp_attempt (clock : Z -> time * time) (w : Sock.world float)
    (ip : string) (port : Z) (timeout : float) : Sock.io float unit (option reply) :=
  start_time <- now (fst (clock port)) ;;
  Sock.do_call w Sock.SocketNew ;;;
  Sock.do_call w (Sock.SetTimeout timeout) ;;;
  result <- Sock.do_call w (Sock.ConnectEx ip port) ;;
  end_time <- now (snd (clock port)) ;;
  Sock.do_call w Sock.Close ;;;
  let latency_ms := elapsed_ms start_time end_time in
  if result =? 0
  then Sock.ret (Some (true, Some latency_ms,
                       "Reply dari " ++ ip ++ " (TCP port " ++ PyStr.str port
                       ++ "): time=" ++ fmt_2f latency_ms ++ "ms"))
  else Sock.ret None.

(** The loop over the ports, with [except Exception: continue]. *)
Fixpoint tcp_ping_loop (clock : Z -> time * time) (net : Z -> Sock.world float)
    (ip : string) (timeout : float) (ports : list Z) : Sock.io float unit reply :=
  match ports with
  | [] => Sock.ret (false, None, "Host " ++ ip ++ " tidak merespons pada port umum")
  | port :: rest =>
      r <- Sock.try_except (tcp_attempt clock (net port) ip port timeout)
                           (fun _ => Sock.ret None) ;;
      match r with
      | Some answer => Sock.ret answer
      | None => tcp_ping_loop clock net ip timeout rest
      end
  end.

(** [tcp_ping] with the socket calls it made.  [net port] is the world
    met by the attempt on [port].  No exception leaves the loop. *)
Definition tcp_ping_run (clock : Z -> time * time) (net : Z -> Sock.world float)
    (ip : string) (timeout : float) : Sock.result reply * list (Sock.call float) :=
  let '(r, _, calls) := tcp_ping_loop clock net ip timeout ports_to_try tt in
  (r, calls).

Definition ping_host_run (icmp : string -> float -> ping3)
    (clock : Z -> time * time) (net : Z -> Sock.world float)
    (ip : string) (timeout : float) : Sock.result reply * list (Sock.call float) :=
  match icmp ip timeout with
  | PingNone => (Sock.Ok (false, None, "Request timeout untuk " ++ ip), [])
  | PingFalse => (Sock.Ok (false, None, "Host " ++ ip ++ " tidak dapat dijangkau"), [])
  | PingSeconds latency =>
      let latency_ms := times_1000 latency in
      (Sock.Ok (true, Some latency_ms,
                "Reply dari " ++ ip ++ ": time=" ++ fmt_2f latency_ms ++ "ms"), [])
  | PingPermissionError => tcp_ping_run clock net ip timeout
  | PingError msg => (Sock.Ok (false, None, "Error: " ++ msg), [])
  end.
End Ping.

(** The ports of the [connect_ex] calls in a list of calls, oldest first. *)
Fixpoint ports_tried {float} (calls : list (Sock.call float)) : list Z :=
  match calls with
  | [] => []
  | Sock.ConnectEx _ port :: rest => port :: ports_tried rest
  | _ :: rest => ports_tried rest
  end.

(** The attempt on [port] returns from [tcp_ping]: no call of the
    attempt raises and [connect_ex] returns 0. *)
Definition succeeds {float} (w : Sock.world float) (ip : string) (port : Z)
    (timeout : float) : bool :=
  match w Sock.SocketNew, w (Sock.SetTimeout timeout),
        w (Sock.ConnectEx ip port), w Sock.Close with
  | Sock.Ok _, Sock.Ok _, Sock.Ok 0, Sock.Ok _ => true
  | _, _, _, _ => false
  end.

(** The attempt on [port] gets as far as calling [connect_ex]. *)
Definition connects {float} (w : Sock.world float) (timeout : float) : bool :=
  match w Sock.SocketNew, w (Sock.SetTimeout timeout) with
  | Sock.Ok _, Sock.Ok _ => true
  | _, _ => false
  end.

(** The ports of [ports] up to and including the first that succeeds. *)
Fixpoint attempted {float} (net : Z -> Sock.world float) (ip : string)
    (timeout : float) (ports : list Z) : list Z :=
  match ports with
  | [] => []
  | port :: rest =>
      if succeeds (net port) ip port timeout then [port]
      else port :: attempted net ip timeout rest
  end.

End NetworkUtils.

(** ** Host discovery: [network/host_discovery.py] *)

Module HostDiscovery.

Record host_info : Type := {
  ip : string;
  hostname : option string;
  mac : option string;
  status : string
}.

(** The dict [discover_hosts] returns. *)
Record discovery : Type := {
  network : option string;
  hosts : list host_info;
  total_scanned : Z;
  total_found : Z;
  error : option string
}.

Definition set_network (n : option string) (r : discovery) : discovery :=
  {| network := n; hosts := hosts r; total_scanned := total_scanned r;
     total_found := total_found r; error := error r |}.
Definition set_hosts (h : list host_info) (r : discovery) : discovery :=
  {| network := network r; hosts := h; total_scanned := total_scanned r;
     total_found := total_found r; error := error r |}.
Definition set_total_scanned (n : Z) (r : discovery) : discovery :=
  {| network := network r; hosts := hosts r; total_scanned := n;
     total_found := total_found r; error := error r |}.
Definition set_total_found (n : Z) (r : discovery) : discovery :=
  {| network := network r; hosts := hosts r; total_scanned := total_scanned r;
     total_found := n; error := error r |}.
Definition set_error (e : option string) (r : discovery) : discovery :=
  {| network := network r; hosts := hosts r; total_scanned := total_scanned r;
     total_found := total_found r; error := e |}.

(** The collaborators of [discover_hosts].  [ping_host_quick ip] is what
    [future.result()] gives for the probe of [ip]; the three look-ups
    catch their own exceptions and answer [None] then. *)
Record collaborators : Type := {
  get_local_network_range : option string;
  ping_host_quick : string -> completion bool;
  get_hostname_for_ip : string -> option string;
  get_mac_from_arp : string -> option string
}.

(** The progress callback, called with [(scanned, total, (ip, is_up))]. *)
Definition callback_t : Type := Z -> Z -> string * bool -> completion unit.

(** The sort key of line 215. *)
Definition ip_key (h : host_info) : completion (list Z) :=
  HostRange.ints (PyStr.split "." (ip h)).

(** The 32-bit value of the address of an entry (0 when the address is
    no dotted quad). *)
Definition ip_value (h : host_info) : Z :=
  match ip_key h with
  | Returned [a; b; c; d] => HostRange.base_of a b c d
  | _ => 0
  end.

(** One turn of the collecting loop, lines 191 to 212; [st] is
    [(result, scanned)]. *)
Definition collect (env : collaborators) (callback : option callback_t) (total : Z)
    (st : discovery * Z) (entry : completion bool * string) : discovery * Z :=
  let '(result, scanned) := st in
  let '(future, ip) := entry in
  let scanned := scanned + 1 in
  match future with
  | Raised _ => (result, scanned)
  | Returned is_up =>
      let result :=
        if is_up then
          let host_info :=
            {| ip := ip; hostname := get_hostname_for_ip env ip;
               mac := get_mac_from_arp env ip; status := "up" |} in
          set_total_found (total_found result + 1)
            (set_hosts (hosts result ++ [host_info])%list result)
        else result in
      match callback with
      | Some cb =>
          match cb scanned total (ip, is_up) with
          | Returned _ => (result, scanned)
          | Raised _ => (result, scanned)
          end
      | None => (result, scanned)
      end
  end.

(** The outer [try] block, lines 168 to 215: how it ends, and the dict
    as it left it.  [Returned tt] covers the two early [return result]. *)
Definition discover_hosts_try (as_completed : Pool.scheduler) (env : collaborators)
    (network_range : option string) (callback : option callback_t)
    (max_threads : Z) (result : discovery) : completion unit * discovery :=
  let detected :=
    match network_range with
    | None => get_local_network_range env
    | Some n => Some n
    end in
  match detected with
  | None => (Returned tt, set_error (Some "Could not detect local network") result)
  | Some network_range =>
      let result := set_network (Some network_range) result in
      let ip_list := HostRange.get_ip_range_from_cidr network_range in
      match ip_list with
      | [] => (Returned tt, set_error (Some "Invalid network range") result)
      | _ :: _ =>
          let total := Z.of_nat (List.length ip_list) in
          let result := set_total_scanned total result in
          match Pool.ThreadPoolExecutor max_threads with
          | Raised msg => (Raised msg, result)
          | Returned _ =>
              let future_to_ip := map (fun ip => (ping_host_quick env ip, ip)) ip_list in
              let '(result, _) :=
                fold_left (collect env callback total)
                          (as_completed _ future_to_ip) (result, 0) in
              match PySort.sort_try PySort.list_lt ip_key (hosts result) with
              | Raised msg => (Raised msg, result)
              | Returned sorted => (Returned tt, set_hosts sorted result)
              end
          end
      end
  end.

(** [discover_hosts]: the handler of line 217 turns an exception of the
    block into the ['error'] entry, line 220 returns the dict. *)
Definition discover_hosts (as_completed : Pool.scheduler) (env : collaborators)
    (network_range : option string) (callback : option callback_t)
    (max_threads : Z) : completion discovery :=
  let result :=
    {| network := network_range; hosts := []; total_scanned := 0;
       total_found := 0; error := None |} in
  match discover_hosts_try as_completed env network_range callback max_threads result with
  | (Returned _, result) => Returned result
  | (Raised msg, result) => Returned (set_error (Some msg) result)
  end.

(** A network where exactly the listed addresses answer the ping, and
    nothing is known about names and hardware addresses. *)
Definition quiet_network (up : list string) : collaborators :=
  {| get_local_network_range := None;
     ping_host_quick := fun ip => Returned (existsb (String.eqb ip) up);
     get_hostname_for_ip := fun _ => None;
     get_mac_from_arp := fun _ => None |}.

End HostDiscovery.

(** ** Decision procedures used in the proofs *)

Module Decide.

(** [str n] reads back as [n] and holds neither a dot nor a slash. *)
Definition octet_ok (n : Z) : bool :=
  match PyStr.int (PyStr.str n) with
  | Some m => (m =? n) && negb (PyStr.mem "." (PyStr.str n))
              && negb (PyStr.mem "/" (PyStr.str n))
  | None => false
  end.

(** Strictly ascending integers. *)
Fixpoint increasing (l : list Z) : bool :=
  match l with
  | [] => true
  | x :: rest => forallb (fun y => x <? y) rest && increasing rest
  end.

End Decide.

(** A probe for the fault scenario: it raises on the port [bad] and is
    [scan_port] in a refusing world on every other port. *)
Definition faulty_probe (bad : Z) (msg : string) (host : string) (port : Z)
    (timeout : Z) : completion PortScanner.outcome :=
  if port =? bad then Raised msg
  else Returned (PortScanner.scan_port PortScanner.refusing host port timeout).

(** A host that refuses on port 80 and accepts on port 443, and a
    [ping] without the privilege it needs. *)
Definition web_host : Z -> Sock.world Z :=
  fun port => if port =? 80 then PortScanner.refusing else PortScanner.accepting.

Definition unprivileged_ping : string -> Z -> @NetworkUtils.ping3 Z :=
  fun _ _ => NetworkUtils.PingPermissionError.

(** A host entry with nothing known but its address. *)
Definition host_at (ip : string) : HostDiscovery.host_info :=
  {| HostDiscovery.ip := ip; HostDiscovery.hostname := None;
     HostDiscovery.mac := None; HostDiscovery.status := "up" |}.

(** ** The rest of [network/port_scanner.py] *)

Module PortReport.

(** [get_open_ports]: the results whose status is ['open']. *)
Definition get_open_ports (results : list PortScanner.outcome) : list PortScanner.outcome :=
  filter (fun r => String.eqb (PortScanner.status r) "open") results.

(** The probe of [port] finds it open: every socket call returns and
    [connect_ex] returns 0. *)
Definition accepts {float} (w : Sock.world float) (host : string) (port : Z)
    (timeout : float) : bool :=
  match w Sock.SocketNew, w (Sock.SetTimeout timeout),
        w (Sock.ConnectEx host port), w Sock.Close with
  | Sock.Ok _, Sock.Ok _, Sock.Ok code, Sock.Ok _ => code =? 0
  | _, _, _, _ => false
  end.

End PortReport.

(** ** The rest of [network/host_discovery.py] *)

Module LocalRange.

(** [l[i]] on a list of strings. *)
Definition item (l : list string) (i : nat) : completion string :=
  match nth_error l i with
  | Some s => Returned s
  | None => Raised "list index out of range"
  end.

(** The [try] block of [get_local_network_range].  [local_ip] is what
    the datagram socket gives as its own address, or the exception one
    of its calls raises. *)
Definition get_local_network_range_try (local_ip : completion string)
    : completion string :=
  (local_ip <- local_ip ;;
   let parts := PyStr.split "." local_ip in
   p0 <- item parts 0 ;;
   p1 <- item parts 1 ;;
   p2 <- item parts 2 ;;
   Returned (p0 ++ "." ++ p1 ++ "." ++ p2 ++ ".0/24"))%py.

(** [except Exception: return None] *)
Definition get_local_network_range (local_ip : completion string) : option string :=
  match get_local_network_range_try local_ip with
  | Returned network => Some network
  | Raised _ => None
  end.

(** [quick_discover]: the addresses of the hosts [discover_hosts] finds,
    called with its default callback and pool size. *)
Definition quick_discover (as_completed : Pool.scheduler)
    (env : HostDiscovery.collaborators) (network_range : option string)
    : completion (list string) :=
  match HostDiscovery.discover_hosts as_completed env network_range None 50 with
  | Returned result => Returned (map HostDiscovery.ip (HostDiscovery.hosts result))
  | Raised msg => Raised msg
  end.

(** The entry [discover_hosts] makes for an address that is up. *)
Definition host_of (env : HostDiscovery.collaborators) (ip : string)
    : HostDiscovery.host_info :=
  {| HostDiscovery.ip := ip;
     HostDiscovery.hostname := HostDiscovery.get_hostname_for_ip env ip;
     HostDiscovery.mac := HostDiscovery.get_mac_from_arp env ip;
     HostDiscovery.status := "up" |}.

(** The addresses of a list that answer the ping. *)
Definition answering (env : HostDiscovery.collaborators) (ips : list string) : list string :=
  filter (fun ip => match HostDiscovery.ping_host_quick env ip with
                    | Returned true => true
                    | _ => false
                    end) ips.

End LocalRange.

(** ** The rest of [network_utils.py] *)

Module LegacyScan.

(** The table of [network_utils.py]. *)
Definition COMMON_PORTS : list (Z * string) :=
  [ (20, "FTP-DATA"); (21, "FTP"); (22, "SSH"); (23, "Telnet"); (25, "SMTP");
    (53, "DNS"); (80, "HTTP"); (110, "POP3"); (143, "IMAP"); (443, "HTTPS");
    (445, "SMB"); (993, "IMAPS"); (995, "POP3S"); (3306, "MySQL");
    (3389, "RDP"); (5432, "PostgreSQL"); (8080, "HTTP-Proxy"); (8443, "HTTPS-Alt") ].

Section Legacy.
Context {float : Type}.

Local Open Scope io_scope.

(** The [try] block of [scan_port], lines 138 to 146. *)
Definition scan_port_try (w : Sock.world float) (ip : string) (port : Z)
    (timeout : float) : Sock.io float unit (Z * bool * string) :=
  Sock.do_call w Sock.SocketNew ;;;
  Sock.do_call w (Sock.SetTimeout timeout) ;;;
  result <- Sock.do_call w (Sock.ConnectEx ip port) ;;
  Sock.do_call w Sock.Close ;;;
  let is_open := result =? 0 in
  let service := PortScanner.get COMMON_PORTS port "Unknown" in
  Sock.ret (port, is_open, service).

(** [scan_port] with the socket calls it made:
    [except Exception: return (port, False, "Error")]. *)
Definition scan_port_run (w : Sock.world float) (ip : string) (port : Z)
    (timeout : float) : Sock.result (Z * bool * string) * list (Sock.call float) :=
  let '(r, _, calls) :=
    Sock.try_except (scan_port_try w ip port timeout)
                    (fun _ => Sock.ret (port, false, "Error")) tt in
  (r, calls).

Definition scan_port (w : Sock.world float) (ip : string) (port : Z)
    (timeout : float) : Z * bool * string :=
  match fst (scan_port_run w ip port timeout) with
  | Sock.Ok answer => answer
  | Sock.Exn _ => (port, false, "Error")
  end.

(** The progress callback, called with
    [(current, total, is_open, service)]. *)
Definition callback_t : Type := Z -> Z -> bool -> string -> completion unit.

(** What the workers share: [open_ports], [scanned_count[0]], and the
    calls of the callback so far, oldest first. *)
Record shared : Type := {
  open_ports : list (Z * string);
  scanned_count : Z;
  notified : list (Z * Z * bool * string)
}.

(** [scan_worker(port)]: the probe with the default timeout, then the
    block under the lock.  An exception of the callback ends the worker
    thread after the block has released the lock; the state is already
    updated. *)
Definition scan_worker (net : Z -> Sock.world float) (ip : string)
    (default_timeout : float) (callback : option callback_t) (total_ports : Z)
    (st : shared) (port : Z) : shared :=
  let '(port_num, is_open, service) := scan_port (net port) ip port default_timeout in
  let count := scanned_count st + 1 in
  let opened := if is_open then (open_ports st ++ [(port_num, service)])%list
                else open_ports st in
  match callback with
  | Some cb =>
      let args := (count, total_ports, is_open, if is_open then service else "") in
      match cb count total_ports is_open (if is_open then service else "") with
      | Returned _ => {| open_ports := opened; scanned_count := count;
                         notified := (notified st ++ [args])%list |}
      | Raised _ => {| open_ports := opened; scanned_count := count;
                       notified := (notified st ++ [args])%list |}
      end
  | None => {| open_ports := opened; scanned_count := count; notified := notified st |}
  end.

(** [scan_port_range], lines 151 to 203.  One thread per port; the
    blocks under the lock run one at a time, in the order [in_turn]
    gives the workers.  [others] is the number of threads alive that
    this call did not start: while it exceeds [max_threads] the loop of
    line 189 never ends, and [None] stands for that.  The result comes
    with the final state of what the workers share. *)
Definition scan_port_range_run (in_turn : Pool.scheduler)
    (net : Z -> Sock.world float) (others : Z) (default_timeout : float)
    (ip : string) (start_port end_port : Z)
    (callback : option callback_t) (max_threads : Z)
    : option (list (Z * string) * shared) :=
  let total_ports := end_port - start_port + 1 in
  let ports := HostRange.range start_port (end_port + 1) in
  match ports with
  | [] => Some ([], {| open_ports := []; scanned_count := 0; notified := [] |})
  | _ :: _ =>
      if others >? max_threads then None
      else
        let st := fold_left (scan_worker net ip default_timeout callback total_ports)
                            (in_turn _ ports)
                            {| open_ports := []; scanned_count := 0; notified := [] |} in
        Some (PySort.sort Z.ltb fst (open_ports st), st)
  end.

Definition scan_port_range (in_turn : Pool.scheduler)
    (net : Z -> Sock.world float) (others : Z) (default_timeout : float)
    (ip : string) (start_port end_port : Z)
    (callback : option callback_t) (max_threads : Z)
    : option (list (Z * string)) :=
  option_map fst (scan_port_range_run in_turn net others default_timeout ip
                    start_port end_port callback max_threads).
End Legacy.

(** [ip.strip()] with no argument. *)
Fixpoint rstrip (s : string) : string :=
  match s with
  | EmptyString => EmptyString
  | String c rest =>
      match rstrip rest with
      | EmptyString => if PyStr.is_space c then EmptyString else String c EmptyString
      | t => String c t
      end
  end.

Definition strip (s : string) : string := rstrip (PyStr.lstrip s).

(** What [socket.gethostbyname] does: it returns an address, raises
    [socket.error], or raises an exception of another class. *)
Inductive lookup : Type :=
| Address (a : string)
| SocketError (msg : string)
| OtherException (msg : string).

(** [validate_ip] with the names it asked the resolver for.  Only
    [socket.error] is caught. *)
Definition validate_ip_run (gethostbyname : string -> lookup)
    (ip : string) : completion bool * list string :=
  if (String.eqb ip "" || String.eqb (strip ip) "")%bool then (Returned false, [])
  else match gethostbyname ip with
       | Address _ => (Returned true, [ip])
       | SocketError _ => (Returned false, [ip])
       | OtherException msg => (Raised msg, [ip])
       end.

Definition validate_ip (gethostbyname : string -> lookup) (ip : string)
    : completion bool :=
  fst (validate_ip_run gethostbyname ip).

End LegacyScan.

(** Worlds and inputs the properties below are run on. *)
Module Samples.

(** A host on which only the SSH port accepts. *)
Definition ssh_host : Z -> Sock.world Z :=
  fun port => if port =? 22 then PortScanner.accepting else PortScanner.refusing.

(** Number of occurrences of a character in a string. *)
Fixpoint count (c : ascii) (s : string) : nat :=
  match s with
  | EmptyString => 0%nat
  | String c' rest => ((if Ascii.eqb c' c then 1 else 0) + count c rest)%nat
  end.

End Samples.

(** A [ping] that has the privilege it needs and gets an answer after
    three time units. *)
Definition privileged_ping : string -> Z -> @NetworkUtils.ping3 Z :=
  fun _ _ => NetworkUtils.PingSeconds 3.

(** The calls of one attempt of [tcp_ping] in which nothing raises. *)
Definition attempt_calls {float} (ip : string) (timeout : float) (port : Z)
    : list (Sock.call float) :=
  [Sock.SocketNew; Sock.SetTimeout timeout; Sock.ConnectEx ip port; Sock.Close].

(** ** The caller of the range scan: [gui/app.py], [_run_port_scan] *)

Module Gui.

(** What [_run_port_scan] does with the three entry fields: one of the
    three message boxes, or the scan it starts. *)
Inductive request : Type :=
| InputRequired
| InvalidInput
| InvalidRange
| Scan (target : string) (start_port end_port : Z).

(** [s or default] on strings. *)
Definition or_default (s default : string) : string :=
  if String.eqb s "" then default else s.

(** Lines 585 to 598. *)
Definition run_port_scan (scan_target port_start port_end : string) : request :=
  let target := LegacyScan.strip scan_target in
  if String.eqb target "" then InputRequired
  else
    match PyStr.int (or_default (LegacyScan.strip port_start) "1") with
    | None => InvalidInput
    | Some start_port =>
        match PyStr.int (or_default (LegacyScan.strip port_end) "1024") with
        | None => InvalidInput
        | Some end_port =>
            if ((start_port >? end_port) || (start_port <? 1) || (end_port >? 65535))%bool
            then InvalidRange
            else Scan target start_port end_port
        end
    end.

End Gui.

(** ** The block of an address *)

(** The block of prefix length [p] that holds the 32-bit value [x]: its
    network address has the host bits of [x] cleared, its broadcast
    address has them set. *)
Module Block.

Definition size (p : Z) : Z := 2 ^ (32 - p).

Definition network_of (x p : Z) : Z := x - x mod size p.

Definition broadcast_of (x p : Z) : Z := network_of x p + size p - 1.

(** The address as written is the network address of its block. *)
Definition aligned (x p : Z) : Prop := x mod size p = 0.

End Block.

(** Every socket call of a probe of [network_utils.py] returns. *)
Definition all_return {float} (w : Sock.world float) (ip : string) (port : Z)
    (timeout : float) : bool :=
  match w Sock.SocketNew, w (Sock.SetTimeout timeout),
        w (Sock.ConnectEx ip port), w Sock.Close with
  | Sock.Ok _, Sock.Ok _, Sock.Ok _, Sock.Ok _ => true
  | _, _, _, _ => false
  end.

(** * Properties *)

(** ** Evaluation checks *)

Example int_examples :
  PyStr.int "24" = Some 24 /\ PyStr.int " 0_8 " = Some 8 /\ PyStr.int "-1" = Some (-1)
  /\ PyStr.int "" = None /\ PyStr.int "1__0" = None /\ PyStr.int "24x" = None
  /\ PyStr.int "+ 1" = None /\ PyStr.int "_1" = None /\ PyStr.int "1_" = None.
Proof. repeat split; reflexivity. Qed.

(** The separator U+001C is white space for [strip] and not for [int];
    a literal of 4301 digits is refused. *)
Example int_limits :
  PyStr.int (String (ascii_of_nat 28) "30") = None
  /\ PyStr.lstrip (String (ascii_of_nat 28) "30") = "30"
  /\ PyStr.int (String (ascii_of_nat 160) "30") = Some 30
  /\ PyStr.int (String.concat "" (repeat "0" 4300)) = Some 0
  /\ PyStr.int (String.concat "" (repeat "0" 4301)) = None.
Proof. repeat split; vm_compute; reflexivity. Qed.

Example str_examples :
  PyStr.str 0 = "0" /\ PyStr.str 255 = "255" /\ PyStr.str (-7) = "-7".
Proof. repeat split; reflexivity. Qed.

Example split_examples :
  PyStr.split "/" "10.0.0.0/30" = ["10.0.0.0"; "30"]
  /\ PyStr.split "." "10.0.0.0" = ["10"; "0"; "0"; "0"]
  /\ PyStr.split "/" "" = [""] /\ PyStr.split "/" "a//" = ["a"; ""; ""].
Proof. repeat split; reflexivity. Qed.

Example cidr_slash30 :
  HostRange.get_ip_range_from_cidr "10.0.0.0/30" = ["10.0.0.1"; "10.0.0.2"].
Proof. reflexivity. Qed.

Example cidr_slash24_length :
  List.length (HostRange.get_ip_range_from_cidr "192.168.1.0/24") = 254%nat.
Proof. reflexivity. Qed.

Example cidr_slash8_capped :
  List.length (HostRange.get_ip_range_from_cidr "10.0.0.0/8") = 254%nat.
Proof. reflexivity. Qed.

Example cidr_rejected :
  HostRange.get_ip_range_from_cidr "10.0.0.0" = []
  /\ HostRange.get_ip_range_from_cidr "10.0.0/24" = []
  /\ HostRange.get_ip_range_from_cidr "10.0.0.x/24" = []
  /\ HostRange.get_ip_range_from_cidr "10.0.0.0/33" = []
  /\ HostRange.get_ip_range_from_cidr "10.0.0.0/24/1" = []
  /\ HostRange.get_ip_range_from_cidr "10.0.0.0/32" = []
  /\ HostRange.get_ip_range_from_cidr "10.0.0.0/31" = [].
Proof. repeat split; reflexivity. Qed.

Example cidr_accepted_oddities :
  List.length (HostRange.get_ip_range_from_cidr "10.0.0.0/-1") = 254%nat
  /\ HostRange.get_ip_range_from_cidr "10.0.0.5/30" = ["10.0.0.6"; "10.0.0.7"]
  /\ HostRange.get_ip_range_from_cidr "300.1.2.3.4/30" = ["44.1.2.4"; "44.1.2.5"]
  /\ HostRange.get_ip_range_from_cidr "255.255.255.255/30" = ["0.0.0.0"; "0.0.0.1"].
Proof. repeat split; reflexivity. Qed.

Example scan_20_25_closed :
  PortScanner.scan_port_range (float := Z) Pool.lifo (fun _ => PortScanner.refusing)
    "127.0.0.1" 20 25 None 1 100
  = Returned (map (fun ps => {| PortScanner.port := fst ps; PortScanner.status := "closed";
                                PortScanner.service := snd ps; PortScanner.error := None |})
                  [(20, "FTP-Data"); (21, "FTP"); (22, "SSH"); (23, "Telnet");
                   (24, "Unknown"); (25, "SMTP")]).
Proof. reflexivity. Qed.

Example scan_port_outcomes :
  PortScanner.status (PortScanner.scan_port (float := Z) PortScanner.accepting "h" 80 1) = "open"
  /\ PortScanner.status (PortScanner.scan_port (float := Z) PortScanner.refusing "h" 80 1) = "closed"
  /\ PortScanner.status (PortScanner.scan_port (float := Z) PortScanner.silent "h" 80 1) = "closed"
  /\ PortScanner.status (PortScanner.scan_port (float := Z) PortScanner.timeout_raised "h" 80 1) = "filtered"
  /\ PortScanner.status (PortScanner.scan_port (float := Z) PortScanner.unresolved "h" 80 1) = "error".
Proof. repeat split; reflexivity. Qed.

Example discover_slash30 :
  HostDiscovery.discover_hosts Pool.lifo (HostDiscovery.quiet_network ["10.0.0.2"; "10.0.0.1"])
    (Some "10.0.0.0/30") None 50
  = Returned {| HostDiscovery.network := Some "10.0.0.0/30";
                HostDiscovery.hosts :=
                  [ {| HostDiscovery.ip := "10.0.0.1"; HostDiscovery.hostname := None;
                       HostDiscovery.mac := None; HostDiscovery.status := "up" |};
                    {| HostDiscovery.ip := "10.0.0.2"; HostDiscovery.hostname := None;
                       HostDiscovery.mac := None; HostDiscovery.status := "up" |} ];
                HostDiscovery.total_scanned := 2;
                HostDiscovery.total_found := 2;
                HostDiscovery.error := None |}.
Proof. reflexivity. Qed.

(** ** Strings *)

Lemma mem_append (c : ascii) (s t : string) :
  PyStr.mem c (s ++ t) = PyStr.mem c s || PyStr.mem c t.
Proof.
  induction s as [|x s IH]; simpl; [reflexivity|].
  rewrite IH. now rewrite orb_assoc.
Qed.

Lemma split_nonempty (sep : ascii) (s : string) : PyStr.split sep s <> [].
Proof.
  destruct s as [|c s]; simpl; [discriminate|].
  destruct (Ascii.eqb c sep); [discriminate|].
  destruct (PyStr.split sep s); discriminate.
Qed.

(** A string without the separator is the first field. *)
Lemma split_append (sep : ascii) (s t : string) :
  PyStr.mem sep s = false ->
  PyStr.split sep (s ++ String sep t) = s :: PyStr.split sep t.
Proof.
  induction s as [|c s IH]; simpl; intros H.
  - now rewrite Ascii.eqb_refl.
  - apply orb_false_iff in H. destruct H as [Hc Hs].
    rewrite Hc, (IH Hs). reflexivity.
Qed.

Lemma split_whole (sep : ascii) (s : string) :
  PyStr.mem sep s = false -> PyStr.split sep s = [s].
Proof.
  induction s as [|c s IH]; simpl; intros H; [reflexivity|].
  apply orb_false_iff in H. destruct H as [Hc Hs].
  rewrite Hc, (IH Hs). reflexivity.
Qed.

Lemma range_In (lo hi n : Z) : lo <= n < hi -> In n (HostRange.range lo hi).
Proof.
  intros H. unfold HostRange.range. apply in_map_iff.
  exists (Z.to_nat (n - lo)). split; [lia|].
  apply in_seq. lia.
Qed.

Lemma range_In_inv (lo hi n : Z) : In n (HostRange.range lo hi) -> lo <= n < hi.
Proof.
  unfold HostRange.range. intros H. apply in_map_iff in H.
  destruct H as [i [<- Hi]]. apply in_seq in Hi. lia.
Qed.

Lemma range_length (lo hi : Z) :
  List.length (HostRange.range lo hi) = Z.to_nat (hi - lo).
Proof. unfold HostRange.range. now rewrite length_map, length_seq. Qed.

Lemma octets_checked : forallb Decide.octet_ok (HostRange.range 0 256) = true.
Proof. vm_compute. reflexivity. Qed.

Lemma octet_facts (n : Z) :
  0 <= n <= 255 ->
  PyStr.int (PyStr.str n) = Some n
  /\ PyStr.mem "." (PyStr.str n) = false
  /\ PyStr.mem "/" (PyStr.str n) = false.
Proof.
  intros H.
  assert (Hok : Decide.octet_ok n = true).
  { pose proof octets_checked as Hall. rewrite forallb_forall in Hall.
    apply Hall, range_In. lia. }
  unfold Decide.octet_ok in Hok.
  destruct (PyStr.int (PyStr.str n)) as [m|]; [|discriminate].
  apply andb_true_iff in Hok. destruct Hok as [Hok H3].
  apply andb_true_iff in Hok. destruct Hok as [H1 H2].
  apply Z.eqb_eq in H1. subst m.
  apply negb_true_iff in H2. apply negb_true_iff in H3. auto.
Qed.

Lemma string_append_assoc (s t u : string) : ((s ++ t) ++ u = s ++ (t ++ u))%string.
Proof. induction s as [|c s IH]; simpl; [reflexivity|]. now rewrite IH. Qed.

(** ** Dotted quads *)

Lemma dotted_no_slash (a b c d : Z) :
  0 <= a <= 255 -> 0 <= b <= 255 -> 0 <= c <= 255 -> 0 <= d <= 255 ->
  PyStr.mem "/" (Quad.dotted a b c d) = false.
Proof.
  intros Ha Hb Hc Hd. unfold Quad.dotted.
  destruct (octet_facts a Ha) as [_ [_ Sa]].
  destruct (octet_facts b Hb) as [_ [_ Sb]].
  destruct (octet_facts c Hc) as [_ [_ Sc]].
  destruct (octet_facts d Hd) as [_ [_ Sd]].
  repeat (rewrite mem_append; simpl).
  now rewrite Sa, Sb, Sc, Sd.
Qed.

Lemma dotted_split (a b c d : Z) :
  0 <= a <= 255 -> 0 <= b <= 255 -> 0 <= c <= 255 -> 0 <= d <= 255 ->
  PyStr.split "." (Quad.dotted a b c d)
  = [PyStr.str a; PyStr.str b; PyStr.str c; PyStr.str d].
Proof.
  intros Ha Hb Hc Hd. unfold Quad.dotted.
  destruct (octet_facts a Ha) as [_ [Da _]].
  destruct (octet_facts b Hb) as [_ [Db _]].
  destruct (octet_facts c Hc) as [_ [Dc _]].
  destruct (octet_facts d Hd) as [_ [Dd _]].
  change ("." ++ ?s)%string with (String "." s).
  simpl append.
  rewrite (split_append "." _ _ Da), (split_append "." _ _ Db),
          (split_append "." _ _ Dc), (split_whole "." _ Dd).
  reflexivity.
Qed.

Lemma dotted_ints (a b c d : Z) :
  0 <= a <= 255 -> 0 <= b <= 255 -> 0 <= c <= 255 -> 0 <= d <= 255 ->
  HostRange.ints (PyStr.split "." (Quad.dotted a b c d)) = Returned [a; b; c; d].
Proof.
  intros Ha Hb Hc Hd. rewrite dotted_split by assumption.
  destruct (octet_facts a Ha) as [Ia _].
  destruct (octet_facts b Hb) as [Ib _].
  destruct (octet_facts c Hc) as [Ic _].
  destruct (octet_facts d Hd) as [Id _].
  simpl. unfold HostRange.int. rewrite Ia, Ib, Ic, Id. reflexivity.
Qed.

Lemma land_255_range (x : Z) : 0 <= Z.land x 255 <= 255.
Proof.
  assert (E : Z.land x 255 = x mod 256).
  { change 255 with (Z.ones 8). now rewrite Z.land_ones by lia. }
  rewrite E. pose proof (Z.mod_pos_bound x 256). lia.
Qed.

Lemma format_ip_dotted (x : Z) :
  HostRange.format_ip x
  = Quad.dotted (Z.land (Z.shiftr x 24) 255) (Z.land (Z.shiftr x 16) 255)
                (Z.land (Z.shiftr x 8) 255) (Z.land x 255).
Proof. reflexivity. Qed.

(** The sort key of a formatted address is its list of octets. *)
Lemma format_ip_ints (x : Z) :
  HostRange.ints (PyStr.split "." (HostRange.format_ip x)) = Returned (Quad.octets x).
Proof.
  rewrite format_ip_dotted. apply dotted_ints; apply land_255_range.
Qed.

Lemma octets_value (x : Z) :
  Quad.octets x
  = [ (x / 2 ^ 24) mod 256; (x / 2 ^ 16) mod 256; (x / 2 ^ 8) mod 256; x mod 256 ].
Proof.
  unfold Quad.octets. change 255 with (Z.ones 8).
  rewrite !Z.land_ones, !Z.shiftr_div_pow2 by lia. reflexivity.
Qed.

Lemma octets_sum (x : Z) :
  x mod 2 ^ 32
  = (x / 2 ^ 24) mod 256 * 2 ^ 24 + (x / 2 ^ 16) mod 256 * 2 ^ 16
    + (x / 2 ^ 8) mod 256 * 2 ^ 8 + x mod 256.
Proof.
  replace (x / 2 ^ 24) with (x / 256 / 256 / 256)
    by (rewrite !Z.div_div by lia; reflexivity).
  replace (x / 2 ^ 16) with (x / 256 / 256)
    by (rewrite !Z.div_div by lia; reflexivity).
  change (2 ^ 8) with 256.
  pose proof (Z.div_mod x 256 ltac:(lia)) as E0.
  pose proof (Z.div_mod (x / 256) 256 ltac:(lia)) as E1.
  pose proof (Z.div_mod (x / 256 / 256) 256 ltac:(lia)) as E2.
  pose proof (Z.div_mod (x / 256 / 256 / 256) 256 ltac:(lia)) as E3.
  pose proof (Z.mod_pos_bound x 256 ltac:(lia)) as B0.
  pose proof (Z.mod_pos_bound (x / 256) 256 ltac:(lia)) as B1.
  pose proof (Z.mod_pos_bound (x / 256 / 256) 256 ltac:(lia)) as B2.
  pose proof (Z.mod_pos_bound (x / 256 / 256 / 256) 256 ltac:(lia)) as B3.
  symmetry. apply Z.mod_unique_pos with (q := x / 256 / 256 / 256 / 256); lia.
Qed.

(** Formatting loses nothing of the low 32 bits. *)
Lemma format_ip_inj (x y : Z) :
  HostRange.format_ip x = HostRange.format_ip y -> x mod 2 ^ 32 = y mod 2 ^ 32.
Proof.
  intros H.
  assert (E : Quad.octets x = Quad.octets y).
  { pose proof (format_ip_ints x) as Hx. rewrite H, format_ip_ints in Hx.
    congruence. }
  rewrite !octets_value in E.
  assert (E1 : (x / 2 ^ 24) mod 256 = (y / 2 ^ 24) mod 256) by congruence.
  assert (E2 : (x / 2 ^ 16) mod 256 = (y / 2 ^ 16) mod 256) by congruence.
  assert (E3 : (x / 2 ^ 8) mod 256 = (y / 2 ^ 8) mod 256) by congruence.
  assert (E4 : x mod 256 = y mod 256) by congruence.
  rewrite (octets_sum x), (octets_sum y), E1, E2, E3, E4. reflexivity.
Qed.

(** ** Address-range partitioning *)

Lemma range_nil (lo hi : Z) : hi <= lo -> HostRange.range lo hi = [].
Proof.
  intros H. unfold HostRange.range.
  replace (Z.to_nat (hi - lo)) with 0%nat by lia. reflexivity.
Qed.

(** What the [try] block computes on the text [a.b.c.d/p]. *)
Lemma cidr_text_try (a b c d p : Z) :
  0 <= a <= 255 -> 0 <= b <= 255 -> 0 <= c <= 255 -> 0 <= d <= 255 ->
  0 <= p <= 32 ->
  HostRange.get_ip_range_from_cidr_try (HostRange.cidr_text a b c d p)
  = Returned (map (fun i => HostRange.format_ip (HostRange.base_of a b c d + i))
                  (HostRange.range 1 (Z.min (2 ^ (32 - p) - 2) 254 + 1))).
Proof.
  intros Ha Hb Hc Hd Hp.
  assert (Hp' : 0 <= p <= 255) by lia.
  destruct (octet_facts p Hp') as [Ip [_ Sp]].
  unfold HostRange.get_ip_range_from_cidr_try, HostRange.cidr_text.
  change ("/" ++ PyStr.str p)%string with (String "/" (PyStr.str p)).
  rewrite (split_append "/" _ _ (dotted_no_slash a b c d Ha Hb Hc Hd)).
  rewrite (split_whole "/" _ Sp). cbn [HostRange.unpack2 bind fst snd].
  unfold HostRange.int at 1. rewrite Ip. cbn [bind].
  rewrite (dotted_ints a b c d Ha Hb Hc Hd). cbn [bind HostRange.item nth_error].
  unfold HostRange.lshift.
  destruct (Z.ltb_spec (32 - p) 0) as [Hneg|_]; [lia|].
  destruct (Z.leb_spec (2 ^ 63) (32 - p)) as [Hbig|_]; [lia|]. cbn [bind].
  rewrite Z.shiftl_1_l. unfold HostRange.base_of.
  destruct (Z.gtb_spec (2 ^ (32 - p) - 2) 254) as [Hbig|Hsmall].
  - rewrite Z.min_r by lia. reflexivity.
  - rewrite Z.min_l by lia. reflexivity.
Qed.

Lemma pow2_host_bits (p : Z) : 0 <= p <= 32 -> 1 <= 2 ^ (32 - p) <= 2 ^ 32.
Proof.
  intros H. split.
  - pose proof (Z.pow_pos_nonneg 2 (32 - p)). lia.
  - apply Z.pow_le_mono_r; lia.
Qed.

(** C1 (as amended).  For the text [a.b.c.d/p] with octets in 0..255 and
    [0 <= p <= 32], [get_ip_range_from_cidr] returns the dotted quads of
    [base + 1], ..., [base + n], where [base] is the integer value of
    the address and [n = max 0 (min (2^(32-p) - 2) 254)]; for [p <= 31]
    that count is [min (2^(32-p) - 2) 254].  When the address is the
    network address of its block, neither the network address nor the
    broadcast address of the block is in the list.  ["10.0.0.0/30"]
    yields exactly [["10.0.0.1"; "10.0.0.2"]]. *)
Theorem cidr_hosts_enumerated (a b c d p : Z) :
  0 <= a <= 255 -> 0 <= b <= 255 -> 0 <= c <= 255 -> 0 <= d <= 255 ->
  0 <= p <= 32 ->
  let base := HostRange.base_of a b c d in
  let ips := HostRange.get_ip_range_from_cidr (HostRange.cidr_text a b c d p) in
  let n := Z.max 0 (Z.min (2 ^ (32 - p) - 2) 254) in
  ips = map (fun i => HostRange.format_ip (base + i)) (HostRange.range 1 (n + 1))
  /\ Z.of_nat (List.length ips) = n
  /\ (p <= 31 -> Z.of_nat (List.length ips) = Z.min (2 ^ (32 - p) - 2) 254)
  /\ (Block.aligned base p ->
      ~ In (HostRange.format_ip (Block.network_of base p)) ips
      /\ ~ In (HostRange.format_ip (Block.broadcast_of base p)) ips)
  /\ HostRange.get_ip_range_from_cidr "10.0.0.0/30" = ["10.0.0.1"; "10.0.0.2"].
Proof.
  intros Ha Hb Hc Hd Hp base ips n.
  pose proof (pow2_host_bits p Hp) as Hpow.
  assert (Hips : ips = map (fun i => HostRange.format_ip (base + i))
                           (HostRange.range 1 (n + 1))).
  { subst ips. unfold HostRange.get_ip_range_from_cidr.
    rewrite (cidr_text_try a b c d p Ha Hb Hc Hd Hp). fold base. subst n.
    destruct (Z.le_gt_cases 0 (Z.min (2 ^ (32 - p) - 2) 254)) as [Hn|Hn].
    - now rewrite Z.max_r by lia.
    - rewrite Z.max_l by lia. now rewrite !range_nil by lia. }
  assert (Hlen : Z.of_nat (List.length ips) = n).
  { rewrite Hips, length_map, range_length. subst n. lia. }
  assert (Hmem : forall x, In (HostRange.format_ip x) ips ->
                 exists i, 1 <= i <= n /\ x mod 2 ^ 32 = (base + i) mod 2 ^ 32).
  { intros x Hx. rewrite Hips in Hx. apply in_map_iff in Hx.
    destruct Hx as [i [Hi Hr]]. apply range_In_inv in Hr.
    exists i. split; [lia|]. symmetry. now apply format_ip_inj. }
  assert (Hn : n <= 254 /\ n <= Z.max 0 (2 ^ (32 - p) - 2)) by (subst n; lia).
  split; [exact Hips|]. split; [exact Hlen|]. split.
  { intros Hp31. rewrite Hlen. subst n.
    assert (2 <= 2 ^ (32 - p)).
    { change 2 with (2 ^ 1) at 1. apply Z.pow_le_mono_r; lia. }
    lia. }
  split; [|reflexivity].
  intros Haligned. unfold Block.aligned in Haligned.
  unfold Block.broadcast_of, Block.network_of. rewrite Haligned, Z.sub_0_r.
  unfold Block.size in *. split.
  - intros Hin. destruct (Hmem _ Hin) as [i [Hi Hmod]].
    change (2 ^ 32) with 4294967296 in *.
    revert Hmod. clear Haligned. Z.div_mod_to_equations. lia.
  - intros Hin. destruct (Hmem _ Hin) as [i [Hi Hmod]].
    change (2 ^ 32) with 4294967296 in *.
    revert Hmod. clear Haligned.
    generalize dependent (2 ^ (32 - p)). intros P n Hips Hlen Hmem Hn HP Hi.
    Z.div_mod_to_equations. lia.
Qed.

(** At the block 10.0.0.0/30 of the scenario. *)
Lemma cidr_hosts_enumerated_witness :
  (0 <= 10 <= 255 /\ 0 <= 0 <= 255 /\ 0 <= 30 <= 32
   /\ Block.aligned (HostRange.base_of 10 0 0 0) 30)
  /\ HostRange.get_ip_range_from_cidr (HostRange.cidr_text 10 0 0 0 30)
     = map (fun i => HostRange.format_ip (HostRange.base_of 10 0 0 0 + i))
           (HostRange.range 1 (Z.max 0 (Z.min (2 ^ (32 - 30) - 2) 254) + 1))
  /\ ~ In (HostRange.format_ip (Block.broadcast_of (HostRange.base_of 10 0 0 0) 30))
          (HostRange.get_ip_range_from_cidr (HostRange.cidr_text 10 0 0 0 30)).
Proof.
  assert (Haligned : Block.aligned (HostRange.base_of 10 0 0 0) 30) by reflexivity.
  split; [split; [lia|split; [lia|split; [lia|exact Haligned]]]|].
  pose proof (cidr_hosts_enumerated 10 0 0 0 30
                ltac:(lia) ltac:(lia) ltac:(lia) ltac:(lia) ltac:(lia))
    as [H1 [_ [_ [H4 _]]]].
  split; [exact H1|exact (proj2 (H4 Haligned))].
Defined.

(** C1 as written fails twice.  For a /32 no address is listed, while
    [min (2^0 - 2) 254] is [-1].  And for an address that is not the
    network address of its block, here 10.0.0.5/30, the list holds the
    broadcast address 10.0.0.7 of the block. *)
Lemma cidr_hosts_claim_fails :
  Z.of_nat (List.length (HostRange.get_ip_range_from_cidr "10.0.0.0/32"))
  <> Z.min (2 ^ (32 - 32) - 2) 254
  /\ HostRange.get_ip_range_from_cidr (HostRange.cidr_text 10 0 0 5 30)
     = ["10.0.0.6"; "10.0.0.7"]
  /\ HostRange.format_ip (Block.broadcast_of (HostRange.base_of 10 0 0 5) 30) = "10.0.0.7"
  /\ In (HostRange.format_ip (Block.broadcast_of (HostRange.base_of 10 0 0 5) 30))
        (HostRange.get_ip_range_from_cidr (HostRange.cidr_text 10 0 0 5 30)).
Proof.
  split; [vm_compute; discriminate|].
  split; [reflexivity|]. split; [reflexivity|].
  right. left. reflexivity.
Qed.

(** ** Sorting *)

Section SortFacts.
Context {A K : Type}.
Variable ltb : K -> K -> bool.
Variable key : A -> K.

(** [le a b]: the key of [b] is not below the key of [a]. *)
Let le (a b : A) : Prop := ltb (key b) (key a) = false.

Lemma insert_perm (x : A) (l : list A) :
  Permutation (x :: l) (PySort.insert ltb key x l).
Proof.
  induction l as [|y l IH]; simpl; [reflexivity|].
  destruct (ltb (key y) (key x)); [|reflexivity].
  rewrite perm_swap. now apply perm_skip.
Qed.

Lemma sort_perm (l : list A) : Permutation l (PySort.sort ltb key l).
Proof.
  induction l as [|x l IH]; simpl; [reflexivity|].
  rewrite <- insert_perm. now apply perm_skip.
Qed.

(** An element that nothing in the list is below stays in front. *)
Lemma insert_front (x : A) (l : list A) :
  Forall (le x) l -> PySort.insert ltb key x l = x :: l.
Proof.
  intros H. destruct l as [|y l]; [reflexivity|].
  simpl. inversion H as [|? ? Hy _]; subst. unfold le in Hy. now rewrite Hy.
Qed.

Lemma sort_sorted_id (l : list A) :
  StronglySorted le l -> PySort.sort ltb key l = l.
Proof.
  induction 1 as [|x l Hs IH Hx]; simpl; [reflexivity|].
  rewrite IH. now apply insert_front.
Qed.

Hypothesis ltb_asym : forall a b, ltb a b = true -> ltb b a = false.
Hypothesis le_trans : forall a b c,
    ltb b a = false -> ltb c b = false -> ltb c a = false.

Lemma insert_sorted (x : A) (l : list A) :
  StronglySorted le l -> StronglySorted le (PySort.insert ltb key x l).
Proof.
  induction 1 as [|y l Hs IH Hy]; simpl.
  - constructor; constructor.
  - destruct (ltb (key y) (key x)) eqn:E.
    + constructor; [exact IH|].
      apply (Permutation_Forall (insert_perm x l)).
      constructor; [|exact Hy]. unfold le. now apply ltb_asym.
    + constructor; [now constructor|].
      constructor; [exact E|].
      eapply Forall_impl; [|exact Hy].
      intros z Hz. unfold le in *. eapply le_trans; eassumption.
Qed.

Lemma sort_sorted (l : list A) : StronglySorted le (PySort.sort ltb key l).
Proof.
  induction l as [|x l IH]; simpl; [constructor|]. now apply insert_sorted.
Qed.

Lemma sort_idempotent (l : list A) :
  PySort.sort ltb key (PySort.sort ltb key l) = PySort.sort ltb key l.
Proof. apply sort_sorted_id, sort_sorted. Qed.
End SortFacts.

Lemma StronglySorted_weaken {A : Type} (R Q : A -> A -> Prop) (l : list A) :
  (forall a b, R a b -> Q a b) -> StronglySorted R l -> StronglySorted Q l.
Proof.
  intros HRQ. induction 1 as [|x l Hs IH Hx]; constructor; [exact IH|].
  eapply Forall_impl; [|exact Hx]. intros y. apply HRQ.
Qed.

(** Sorting by an integer key. *)
Section SortZ.
Context {A : Type}.
Variable key : A -> Z.

Lemma sortZ_sorted (l : list A) :
  StronglySorted (fun a b => key a <= key b) (PySort.sort Z.ltb key l).
Proof.
  eapply StronglySorted_weaken; [|apply (sort_sorted Z.ltb key)].
  - intros a b H. cbv beta in H. apply Z.ltb_ge in H. exact H.
  - intros a b H. apply Z.ltb_lt in H. apply Z.ltb_ge. lia.
  - intros a b c H1 H2. apply Z.ltb_ge in H1, H2. apply Z.ltb_ge. lia.
Qed.

Lemma sortZ_idempotent (l : list A) :
  PySort.sort Z.ltb key (PySort.sort Z.ltb key l) = PySort.sort Z.ltb key l.
Proof.
  apply sort_idempotent.
  - intros a b H. apply Z.ltb_lt in H. apply Z.ltb_ge. lia.
  - intros a b c H1 H2. apply Z.ltb_ge in H1, H2. apply Z.ltb_ge. lia.
Qed.

(** A list whose keys increase strictly is what sorting any
    rearrangement of it gives. *)
Lemma sortZ_increasing_id (l : list A) :
  StronglySorted (fun a b => key a < key b) l -> PySort.sort Z.ltb key l = l.
Proof.
  intros H. apply sort_sorted_id.
  eapply StronglySorted_weaken; [|exact H].
  intros a b Hab. cbv beta in Hab. apply Z.ltb_ge. lia.
Qed.

Lemma increasing_perm_eq (l1 l2 : list A) :
  StronglySorted (fun a b => key a <= key b) l1 ->
  StronglySorted (fun a b => key a < key b) l2 ->
  Permutation l1 l2 -> l1 = l2.
Proof.
  revert l2. induction l1 as [|a l1 IH]; intros l2 H1 H2 HP.
  - apply Permutation_nil in HP. now subst.
  - destruct l2 as [|b l2].
    { symmetry in HP. apply Permutation_nil in HP. discriminate. }
    apply StronglySorted_inv in H1. destruct H1 as [H1 Ha].
    apply StronglySorted_inv in H2. destruct H2 as [H2 Hb].
    rewrite Forall_forall in Ha, Hb.
    assert (Ia : In a (b :: l2)) by (apply (Permutation_in _ HP); now left).
    assert (Ib : In b (a :: l1))
      by (apply (Permutation_in _ (Permutation_sym HP)); now left).
    assert (E : a = b).
    { destruct Ia as [->|Ia]; [reflexivity|].
      destruct Ib as [->|Ib]; [reflexivity|].
      specialize (Ha _ Ib). specialize (Hb _ Ia). cbv beta in Ha, Hb. lia. }
    subst b. f_equal. apply IH; try assumption.
    now apply Permutation_cons_inv in HP.
Qed.

Lemma sortZ_of_perm (l l' : list A) :
  StronglySorted (fun a b => key a < key b) l ->
  Permutation l l' -> PySort.sort Z.ltb key l' = l.
Proof.
  intros H HP. apply increasing_perm_eq.
  - apply sortZ_sorted.
  - exact H.
  - rewrite <- (sort_perm Z.ltb key l'). now symmetry.
Qed.
End SortZ.

(** ** The single port probe *)

Section ProbeFacts.
Context {float : Type}.
Variable w : Sock.world float.
Variables (host : string) (port : Z) (timeout : float).

Ltac run_probe :=
  unfold PortScanner.scan_port, PortScanner.scan_port_run, Sock.try_except,
    PortScanner.scan_port_try, PortScanner.scan_port_except,
    Sock.bind, Sock.do_call, Sock.modify, Sock.ret.

(** The probe in terms of the answers to its four calls. *)
Lemma scan_port_run_cases :
  PortScanner.scan_port_run w host port timeout
  = let base := {| PortScanner.port := port; PortScanner.status := "closed";
                   PortScanner.service := PortScanner.get PortScanner.COMMON_PORTS port "Unknown";
                   PortScanner.error := None |} in
    let failed (e : Sock.exn) (r : PortScanner.outcome) :=
      match e with
      | Sock.Timeout =>
          PortScanner.set_error (Some "Connection timed out")
            (PortScanner.set_status "filtered" r)
      | Sock.GaiError =>
          PortScanner.set_error (Some "Could not resolve hostname")
            (PortScanner.set_status "error" r)
      | Sock.OtherError msg =>
          PortScanner.set_error (Some msg) (PortScanner.set_status "error" r)
      end in
    match w Sock.SocketNew with
    | Sock.Exn e => (failed e base, [Sock.SocketNew])
    | Sock.Ok _ =>
        match w (Sock.SetTimeout timeout) with
        | Sock.Exn e => (failed e base, [Sock.SocketNew; Sock.SetTimeout timeout])
        | Sock.Ok _ =>
            match w (Sock.ConnectEx host port) with
            | Sock.Exn e =>
                (failed e base,
                 [Sock.SocketNew; Sock.SetTimeout timeout; Sock.ConnectEx host port])
            | Sock.Ok code =>
                let r := PortScanner.set_status
                           (if code =? 0 then "open" else "closed") base in
                (match w Sock.Close with
                 | Sock.Exn e => failed e r
                 | Sock.Ok _ => r
                 end,
                 [Sock.SocketNew; Sock.SetTimeout timeout;
                  Sock.ConnectEx host port; Sock.Close])
            end
        end
    end.
Proof.
  run_probe. cbv zeta.
  destruct (w Sock.SocketNew) as [?|[| |?]]; try reflexivity.
  destruct (w (Sock.SetTimeout timeout)) as [?|[| |?]]; try reflexivity.
  destruct (w (Sock.ConnectEx host port)) as [code|[| |?]]; try reflexivity.
  destruct (code =? 0); destruct (w Sock.Close) as [?|[| |?]]; reflexivity.
Qed.

Lemma scan_port_port :
  PortScanner.port (PortScanner.scan_port w host port timeout) = port.
Proof.
  unfold PortScanner.scan_port. rewrite scan_port_run_cases. cbv zeta.
  destruct (w Sock.SocketNew) as [?|[| |?]]; try reflexivity.
  destruct (w (Sock.SetTimeout timeout)) as [?|[| |?]]; try reflexivity.
  destruct (w (Sock.ConnectEx host port)) as [code|[| |?]]; try reflexivity.
  destruct (w Sock.Close) as [?|[| |?]]; reflexivity.
Qed.

Lemma scan_port_service :
  PortScanner.service (PortScanner.scan_port w host port timeout)
  = PortScanner.get PortScanner.COMMON_PORTS port "Unknown".
Proof.
  unfold PortScanner.scan_port. rewrite scan_port_run_cases. cbv zeta.
  destruct (w Sock.SocketNew) as [?|[| |?]]; try reflexivity.
  destruct (w (Sock.SetTimeout timeout)) as [?|[| |?]]; try reflexivity.
  destruct (w (Sock.ConnectEx host port)) as [code|[| |?]]; try reflexivity.
  destruct (w Sock.Close) as [?|[| |?]]; reflexivity.
Qed.

(** Whatever happens the status is one of the four. *)
Lemma scan_port_status_range :
  In (PortScanner.status (PortScanner.scan_port w host port timeout))
     ["open"; "closed"; "filtered"; "error"].
Proof.
  unfold PortScanner.scan_port. rewrite scan_port_run_cases. cbv zeta.
  destruct (w Sock.SocketNew) as [?|[| |?]]; simpl; auto.
  destruct (w (Sock.SetTimeout timeout)) as [?|[| |?]]; simpl; auto.
  destruct (w (Sock.ConnectEx host port)) as [code|[| |?]]; simpl; auto.
  destruct (w Sock.Close) as [?|[| |?]]; simpl; auto.
  destruct (code =? 0); auto.
Qed.

(** When every call returns, one socket is made and it is closed. *)
Lemma scan_port_closes_on_return (a b code c : Z) :
  w Sock.SocketNew = Sock.Ok a -> w (Sock.SetTimeout timeout) = Sock.Ok b ->
  w (Sock.ConnectEx host port) = Sock.Ok code -> w Sock.Close = Sock.Ok c ->
  snd (PortScanner.scan_port_run w host port timeout)
  = [Sock.SocketNew; Sock.SetTimeout timeout; Sock.ConnectEx host port; Sock.Close].
Proof.
  intros H1 H2 H3 H4. rewrite scan_port_run_cases. cbv zeta.
  now rewrite H1, H2, H3.
Qed.

(** When [connect_ex] raises, the socket made is never closed. *)
Lemma scan_port_leaks_on_raise (a b : Z) (e : Sock.exn) :
  w Sock.SocketNew = Sock.Ok a -> w (Sock.SetTimeout timeout) = Sock.Ok b ->
  w (Sock.ConnectEx host port) = Sock.Exn e ->
  snd (PortScanner.scan_port_run w host port timeout)
  = [Sock.SocketNew; Sock.SetTimeout timeout; Sock.ConnectEx host port].
Proof.
  intros H1 H2 H3. rewrite scan_port_run_cases. cbv zeta.
  now rewrite H1, H2, H3.
Qed.
End ProbeFacts.

(** The handlers of [scan_port].  With the socket made and its timeout
    set: ['open'] when [connect_ex] returns 0; ['closed'] when it returns
    another code; ['filtered'] with the message 'Connection timed out'
    when it raises [socket.timeout]; ['error'] with the message
    'Could not resolve hostname' when it raises [socket.gaierror].  In
    every execution the status is one of these four. *)
Lemma scan_port_status_mapping {float : Type} (w : Sock.world float)
    (host : string) (port : Z) (timeout : float) (a b : Z) :
  w Sock.SocketNew = Sock.Ok a ->
  w (Sock.SetTimeout timeout) = Sock.Ok b ->
  let r := PortScanner.scan_port w host port timeout in
  (forall c, w (Sock.ConnectEx host port) = Sock.Ok 0 -> w Sock.Close = Sock.Ok c ->
     PortScanner.status r = "open" /\ PortScanner.error r = None)
  /\ (forall code c, w (Sock.ConnectEx host port) = Sock.Ok code -> code <> 0 ->
        w Sock.Close = Sock.Ok c ->
        PortScanner.status r = "closed" /\ PortScanner.error r = None)
  /\ (w (Sock.ConnectEx host port) = Sock.Exn Sock.Timeout ->
        PortScanner.status r = "filtered"
        /\ PortScanner.error r = Some "Connection timed out")
  /\ (w (Sock.ConnectEx host port) = Sock.Exn Sock.GaiError ->
        PortScanner.status r = "error"
        /\ PortScanner.error r = Some "Could not resolve hostname")
  /\ In (PortScanner.status r) ["open"; "closed"; "filtered"; "error"]
  /\ PortScanner.port r = port.
Proof.
  intros H1 H2 r.
  assert (E : r = fst (PortScanner.scan_port_run w host port timeout)) by reflexivity.
  rewrite scan_port_run_cases in E. cbv zeta in E. rewrite H1, H2 in E.
  split; [|split; [|split; [|split; [|split]]]].
  - intros c Hc Hx. rewrite E, Hc, Hx. split; reflexivity.
  - intros code c Hc Hne Hx. rewrite E, Hc, Hx.
    destruct (Z.eqb_spec code 0); [contradiction|split; reflexivity].
  - intros Hc. rewrite E, Hc. split; reflexivity.
  - intros Hc. rewrite E, Hc. split; reflexivity.
  - apply scan_port_status_range.
  - apply scan_port_port.
Qed.

(** Whenever the four socket calls return, the status is ['open'] or
    ['closed']: ['filtered'] is reported only when a call raises
    [socket.timeout]. *)
Lemma scan_port_filtered_needs_raise {float : Type} (w : Sock.world float)
    (host : string) (port : Z) (timeout : float) (a b code c : Z) :
  w Sock.SocketNew = Sock.Ok a ->
  w (Sock.SetTimeout timeout) = Sock.Ok b ->
  w (Sock.ConnectEx host port) = Sock.Ok code ->
  w Sock.Close = Sock.Ok c ->
  PortScanner.scan_port w host port timeout
  = {| PortScanner.port := port;
       PortScanner.status := if code =? 0 then "open" else "closed";
       PortScanner.service := PortScanner.get PortScanner.COMMON_PORTS port "Unknown";
       PortScanner.error := None |}.
Proof.
  intros H1 H2 H3 H4. unfold PortScanner.scan_port.
  rewrite scan_port_run_cases. cbv zeta. now rewrite H1, H2, H3, H4.
Qed.

(** C7 (the code at the failing input).  When nothing answers within
    the timeout, [connect_ex] returns the error code of the attempt and
    does not raise: [scan_port] closes the socket and reports the port
    ['closed'] with no error message, not ['filtered']. *)
Theorem scan_port_timeout_reported_closed :
  PortScanner.scan_port_run (float := Z) PortScanner.silent "10.255.255.1" 80 1
  = ({| PortScanner.port := 80; PortScanner.status := "closed";
        PortScanner.service := "HTTP"; PortScanner.error := None |},
     [Sock.SocketNew; Sock.SetTimeout 1; Sock.ConnectEx "10.255.255.1" 80; Sock.Close])
  /\ PortScanner.status
       (PortScanner.scan_port (float := Z) PortScanner.silent "10.255.255.1" 80 1)
     <> "filtered".
Proof. split; [reflexivity|discriminate]. Qed.

(** C2 (the code at the failing input).  When the host name does not
    resolve, [connect_ex] raises: [scan_port] has made one socket and
    returns the ['error'] outcome without ever calling [close]. *)
Theorem scan_port_unresolved_never_closes :
  let run := PortScanner.scan_port_run (float := Z) PortScanner.unresolved
               "no-such-host.invalid" 80 1 in
  PortScanner.status (fst run) = "error"
  /\ snd run = [Sock.SocketNew; Sock.SetTimeout 1; Sock.ConnectEx "no-such-host.invalid" 80]
  /\ List.length (filter Sock.is_new (snd run)) = 1%nat
  /\ filter Sock.is_close (snd run) = [].
Proof. repeat split; reflexivity. Qed.

(** ** Collecting the completions of a scan *)

Lemma range_increasing (lo hi : Z) : StronglySorted Z.lt (HostRange.range lo hi).
Proof.
  unfold HostRange.range. generalize (Z.to_nat (hi - lo)) as n.
  generalize 0%nat as a. intros a n. revert a.
  induction n as [|n IH]; intros a; simpl; constructor.
  - apply IH.
  - apply Forall_forall. intros y Hy. apply in_map_iff in Hy.
    destruct Hy as [i [<- Hi]]. apply in_seq in Hi. lia.
Qed.

Lemma increasing_sound (l : list Z) :
  Decide.increasing l = true -> StronglySorted Z.lt l.
Proof.
  induction l as [|x l IH]; simpl; intros H; constructor;
    apply andb_true_iff in H; destruct H as [Hx Hl].
  - now apply IH.
  - apply Forall_forall. intros y Hy. rewrite forallb_forall in Hx.
    apply Z.ltb_lt. now apply Hx.
Qed.

Lemma increasing_map {A : Type} (key : A -> Z) (f : Z -> A) (l : list Z) :
  (forall p, key (f p) = p) ->
  StronglySorted Z.lt l ->
  StronglySorted (fun a b => key a < key b) (map f l).
Proof.
  intros Hk. induction 1 as [|x l Hs IH Hx]; simpl; constructor; [exact IH|].
  apply Forall_forall. intros y Hy. apply in_map_iff in Hy.
  destruct Hy as [p [<- Hp]]. rewrite !Hk.
  rewrite Forall_forall in Hx. now apply Hx.
Qed.

Section CollectFacts.
Variable callback : option PortScanner.callback_t.
Variable total : Z.
Hypothesis callback_returns : PortScanner.returns callback.

(** What a completed future leaves in the results. *)
Let entry_record (entry : completion PortScanner.outcome * Z) : PortScanner.outcome :=
  match fst entry with
  | Returned result => result
  | Raised msg => PortScanner.error_outcome (snd entry) msg
  end.

(** Every completed future adds one entry and one to the counter. *)
Lemma collect_all (entries : list (completion PortScanner.outcome * Z))
    (results : list PortScanner.outcome) (scanned : Z) :
  fold_left (PortScanner.collect callback total) entries (results, scanned)
  = ((results ++ map entry_record entries)%list,
     scanned + Z.of_nat (List.length entries)).
Proof.
  revert results scanned.
  induction entries as [|[future port] entries IH]; intros results scanned.
  - simpl. rewrite app_nil_r. f_equal. lia.
  - cbn [fold_left]. 
    assert (E : PortScanner.collect callback total (results, scanned) (future, port)
                = ((results ++ [entry_record (future, port)])%list, scanned + 1)).
    { unfold PortScanner.collect, entry_record. cbn [fst snd].
      destruct future as [result|msg]; [|reflexivity].
      destruct callback as [cb|]; [|reflexivity].
      destruct (callback_returns (scanned + 1) total result) as [u ->].
      reflexivity. }
    rewrite E, IH. rewrite <- app_assoc. cbn [map List.length app]. f_equal. lia.
Qed.

(** The scan on a pool that can be made, under any fair scheduler:
    the sorted rearrangement of one entry per port, and the counter
    at the number of ports. *)
Lemma run_scan_fair (as_completed : Pool.scheduler)
    (probe : Z -> completion PortScanner.outcome) (ports : list Z) (max_workers : Z) :
  Pool.fair as_completed -> 0 < max_workers ->
  exists collected,
    Permutation (map (PortScanner.record_of probe) ports) collected
    /\ PortScanner.run_scan as_completed probe ports total callback max_workers
       = Returned (PySort.sort Z.ltb PortScanner.port collected,
                   Z.of_nat (List.length ports)).
Proof.
  intros Hfair Hmax. unfold PortScanner.run_scan, Pool.ThreadPoolExecutor.
  destruct (Z.leb_spec max_workers 0) as [Hle|_]; [lia|].
  set (futures := map (fun port => (probe port, port)) ports).
  exists (map entry_record (as_completed _ futures)). split.
  - replace (map (PortScanner.record_of probe) ports) with (map entry_record futures).
    + apply Permutation_map, Hfair.
    + unfold futures. rewrite map_map. reflexivity.
  - rewrite collect_all. cbn [app]. do 2 f_equal.
    rewrite <- (Permutation_length (Hfair _ futures)).
    unfold futures. now rewrite length_map.
Qed.

(** When every entry carries its own port, the outcome of the scan is
    one entry per port in the order of the ports. *)
Lemma run_scan_ascending (as_completed : Pool.scheduler)
    (probe : Z -> completion PortScanner.outcome) (ports : list Z) (max_workers : Z) :
  Pool.fair as_completed -> 0 < max_workers ->
  (forall p, PortScanner.port (PortScanner.record_of probe p) = p) ->
  StronglySorted Z.lt ports ->
  PortScanner.run_scan as_completed probe ports total callback max_workers
  = Returned (map (PortScanner.record_of probe) ports, Z.of_nat (List.length ports)).
Proof.
  intros Hfair Hmax Hport Hinc.
  destruct (run_scan_fair as_completed probe ports max_workers Hfair Hmax)
    as [collected [HP ->]].
  do 2 f_equal. apply sortZ_of_perm; [|exact HP].
  now apply increasing_map.
Qed.
End CollectFacts.

(** ** Port-range scan *)

(** C5.  For every host and [1 <= start_port <= end_port <= 65535], in
    every world, under every fair completion order, with a pool that
    can be made and a callback that is absent or returns,
    [scan_port_range] returns the outcome of [scan_port] for each port
    of the range in ascending order: [end_port - start_port + 1]
    outcomes, with pairwise distinct port keys that cover exactly the
    range, and the counter [scanned] ends at that total. *)
Theorem scan_port_range_complete {float : Type} (as_completed : Pool.scheduler)
    (net : Z -> Sock.world float) (host : string) (start_port end_port : Z)
    (callback : option PortScanner.callback_t) (timeout : float) (max_threads : Z) :
  Pool.fair as_completed ->
  0 < max_threads ->
  PortScanner.returns callback ->
  1 <= start_port <= end_port /\ end_port <= 65535 ->
  exists results,
    PortScanner.scan_port_range as_completed net host start_port end_port
                                callback timeout max_threads = Returned results
    /\ PortScanner.scan_port_range_run as_completed net host start_port end_port
                                       callback timeout max_threads
       = Returned (results, end_port - start_port + 1)
    /\ results = map (fun p => PortScanner.scan_port (net p) host p timeout)
                     (HostRange.range start_port (end_port + 1))
    /\ Z.of_nat (List.length results) = end_port - start_port + 1
    /\ NoDup (map PortScanner.port results)
    /\ (forall p, In p (map PortScanner.port results) <-> start_port <= p <= end_port)
    /\ StronglySorted Z.lt (map PortScanner.port results).
Proof.
  intros Hfair Hmax Hcb Hrange.
  set (probe := fun p => Returned (PortScanner.scan_port (net p) host p timeout)).
  set (ports := HostRange.range start_port (end_port + 1)).
  assert (Hrec : forall p, PortScanner.record_of probe p
                           = PortScanner.scan_port (net p) host p timeout)
    by reflexivity.
  assert (Hrun : PortScanner.scan_port_range_run as_completed net host start_port
                   end_port callback timeout max_threads
                 = Returned (map (PortScanner.record_of probe) ports,
                             end_port - start_port + 1)).
  { unfold PortScanner.scan_port_range_run, PortScanner.scan_port_range_with.
    fold probe. fold ports.
    rewrite (run_scan_ascending callback _ Hcb as_completed probe ports max_threads
               Hfair Hmax).
    - do 2 f_equal. unfold ports. rewrite range_length. lia.
    - intros p. rewrite Hrec. apply scan_port_port.
    - apply range_increasing. }
  assert (Hports : map PortScanner.port (map (PortScanner.record_of probe) ports) = ports).
  { rewrite map_map. rewrite <- (map_id ports) at 2. apply map_ext.
    intros p. rewrite Hrec. apply scan_port_port. }
  exists (map (PortScanner.record_of probe) ports).
  split; [unfold PortScanner.scan_port_range; now rewrite Hrun|].
  split; [exact Hrun|].
  split; [reflexivity|].
  split; [rewrite length_map; unfold ports; rewrite range_length; lia|].
  rewrite Hports.
  assert (Hinc : StronglySorted Z.lt ports) by apply range_increasing.
  split; [|split; [|exact Hinc]].
  - clear -Hinc. induction Hinc as [|x l Hs IH Hx]; constructor; [|exact IH].
    intros Hin. rewrite Forall_forall in Hx. specialize (Hx _ Hin). lia.
  - intros p. unfold ports. split.
    + intros Hin. apply range_In_inv in Hin. lia.
    + intros Hp. apply range_In. lia.
Qed.

(** Ports 20 to 25 of a host that refuses, completions in reverse
    order, default pool size, no callback. *)
Lemma scan_port_range_complete_witness :
  (Pool.fair Pool.lifo /\ 0 < 100 /\ PortScanner.returns None
   /\ (1 <= 20 <= 25 /\ 25 <= 65535))
  /\ exists results,
       PortScanner.scan_port_range (float := Z) Pool.lifo (fun _ => PortScanner.refusing)
         "127.0.0.1" 20 25 None 1 100 = Returned results
       /\ Z.of_nat (List.length results) = 25 - 20 + 1.
Proof.
  assert (Hfair : Pool.fair Pool.lifo)
    by (intros A l; apply Permutation_rev).
  split; [repeat split; [exact Hfair|lia..]|].
  destruct (scan_port_range_complete (float := Z) Pool.lifo (fun _ => PortScanner.refusing)
              "127.0.0.1" 20 25 None 1 100 Hfair ltac:(lia) I ltac:(lia))
    as [results [H1 [_ [_ [H4 _]]]]].
  exists results. split; [exact H1|exact H4].
Defined.

(** C5 as written fails.  Its statement gives no condition on the
    callback or on the pool.  With a callback that raises, ports 80 and
    81 give four entries, each port twice, and the counter ends at 4
    for a total of 2; with [max_threads = 0] the pool cannot be made and
    nothing is returned. *)
Lemma scan_port_range_claim_fails :
  (exists results scanned,
     PortScanner.scan_port_range_run (float := Z) Pool.fifo
       (fun _ => PortScanner.refusing) "127.0.0.1" 80 81
       (Some (fun _ _ _ => Raised "callback failed")) 1 100
     = Returned (results, scanned)
     /\ map PortScanner.port results = [80; 80; 81; 81]
     /\ map PortScanner.status results = ["closed"; "error"; "closed"; "error"]
     /\ Z.of_nat (List.length results) <> 81 - 80 + 1
     /\ ~ NoDup (map PortScanner.port results)
     /\ scanned <> 81 - 80 + 1)
  /\ PortScanner.scan_port_range (float := Z) Pool.fifo
       (fun _ => PortScanner.refusing) "127.0.0.1" 80 81 None 1 0
     = Raised "max_workers must be greater than 0".
Proof.
  split; [|reflexivity].
  eexists. eexists. split; [reflexivity|].
  split; [reflexivity|]. split; [reflexivity|].
  split; [discriminate|]. split; [|discriminate].
  intros H. inversion H as [|x l Hx _]. apply Hx. now left.
Qed.

Lemma filter_key_absent {A : Type} (key : A -> Z) (f : Z -> A) (q : Z) (l : list Z) :
  (forall p, key (f p) = p) -> ~ In q l ->
  filter (fun r => key r =? q) (map f l) = [].
Proof.
  intros Hk. induction l as [|x l IH]; simpl; intros Hq; [reflexivity|].
  rewrite Hk. destruct (Z.eqb_spec x q) as [->|_]; [exfalso; apply Hq; now left|].
  apply IH. intros Hin. apply Hq. now right.
Qed.

Lemma filter_key_once {A : Type} (key : A -> Z) (f : Z -> A) (q : Z) (l : list Z) :
  (forall p, key (f p) = p) -> NoDup l -> In q l ->
  filter (fun r => key r =? q) (map f l) = [f q].
Proof.
  intros Hk. induction 1 as [|x l Hx Hnd IH]; simpl; intros Hq; [contradiction|].
  rewrite Hk. destruct (Z.eqb_spec x q) as [->|Hne].
  - f_equal. now apply filter_key_absent.
  - destruct Hq as [Hq|Hq]; [contradiction|]. now apply IH.
Qed.

Lemma increasing_NoDup (l : list Z) : StronglySorted Z.lt l -> NoDup l.
Proof.
  induction 1 as [|x l Hs IH Hx]; constructor; [|exact IH].
  intros Hin. rewrite Forall_forall in Hx. specialize (Hx _ Hin). lia.
Qed.

(** C6.  In a batch where the probe of exactly one port [q] of the range
    raises and every other probe returns, under every fair completion
    order, with a pool that can be made and a callback that is absent
    or returns: the results are a rearrangement of one entry per port,
    the entry of [q] being the error dict with status ['error'] and the
    entry of every other port being what its probe returned; the counter
    ends at the total.  When each returned outcome carries its own port,
    exactly one entry has the port [q]. *)
Theorem scan_port_range_isolates_fault {float : Type} (as_completed : Pool.scheduler)
    (probe : string -> Z -> float -> completion PortScanner.outcome)
    (host : string) (start_port end_port : Z)
    (callback : option PortScanner.callback_t) (timeout : float) (max_threads : Z)
    (q : Z) (msg : string) :
  Pool.fair as_completed ->
  0 < max_threads ->
  PortScanner.returns callback ->
  start_port <= q <= end_port ->
  probe host q timeout = Raised msg ->
  (forall p, start_port <= p <= end_port -> p <> q ->
             exists r, probe host p timeout = Returned r) ->
  let entry := PortScanner.record_of (fun p => probe host p timeout) in
  exists results,
    PortScanner.scan_port_range_with as_completed probe host start_port end_port
                                     callback timeout max_threads
    = Returned (results, end_port - start_port + 1)
    /\ Permutation (map entry (HostRange.range start_port (end_port + 1))) results
    /\ entry q = PortScanner.error_outcome q msg
    /\ PortScanner.status (entry q) = "error"
    /\ In (entry q) results
    /\ (forall p, start_port <= p <= end_port -> p <> q ->
          probe host p timeout = Returned (entry p) /\ In (entry p) results)
    /\ Z.of_nat (List.length results) = end_port - start_port + 1
    /\ ((forall p r, probe host p timeout = Returned r -> PortScanner.port r = p) ->
        results = map entry (HostRange.range start_port (end_port + 1))
        /\ filter (fun r => PortScanner.port r =? q) results
           = [PortScanner.error_outcome q msg]).
Proof.
  intros Hfair Hmax Hcb Hq Hraise Hothers entry.
  set (ports := HostRange.range start_port (end_port + 1)).
  destruct (run_scan_fair callback (end_port - start_port + 1) Hcb as_completed
              (fun p => probe host p timeout) ports max_threads Hfair Hmax)
    as [collected [HP Hrun]].
  fold entry in HP.
  assert (Hlen : Z.of_nat (List.length ports) = end_port - start_port + 1)
    by (unfold ports; rewrite range_length; lia).
  assert (HPs : Permutation (map entry ports)
                            (PySort.sort Z.ltb PortScanner.port collected)).
  { rewrite HP. apply sort_perm. }
  assert (Eq : entry q = PortScanner.error_outcome q msg).
  { unfold entry, PortScanner.record_of. now rewrite Hraise. }
  assert (Hin : forall p, start_port <= p <= end_port ->
                  In (entry p) (PySort.sort Z.ltb PortScanner.port collected)).
  { intros p Hp. apply (Permutation_in _ HPs). apply in_map.
    apply range_In. lia. }
  exists (PySort.sort Z.ltb PortScanner.port collected).
  split.
  { unfold PortScanner.scan_port_range_with. fold ports. rewrite Hrun.
    now rewrite Hlen. }
  split; [exact HPs|]. split; [exact Eq|].
  split; [now rewrite Eq|]. split; [now apply Hin|].
  split.
  { intros p Hp Hne. split; [|now apply Hin].
    destruct (Hothers p Hp Hne) as [r Hr].
    unfold entry, PortScanner.record_of. now rewrite Hr. }
  split.
  { rewrite <- (Permutation_length HPs), length_map. exact Hlen. }
  intros Hkeys.
  assert (Hport : forall p, PortScanner.port (entry p) = p).
  { intros p. unfold entry, PortScanner.record_of.
    destruct (probe host p timeout) as [r|m] eqn:E; [now apply Hkeys|reflexivity]. }
  assert (Hinc : StronglySorted Z.lt ports) by apply range_increasing.
  assert (Hres : PySort.sort Z.ltb PortScanner.port collected = map entry ports).
  { apply sortZ_of_perm; [|exact HP]. now apply increasing_map. }
  split; [exact Hres|].
  rewrite Hres, <- Eq. apply filter_key_once.
  - exact Hport.
  - now apply increasing_NoDup.
  - apply range_In. lia.
Qed.

(** Ports 20 to 25 with the probe of port 22 raising. *)
Lemma scan_port_range_isolates_fault_witness :
  (Pool.fair Pool.lifo /\ 0 < 100 /\ PortScanner.returns None /\ 20 <= 22 <= 25
   /\ faulty_probe 22 "simulated fault" "127.0.0.1" 22 1 = Raised "simulated fault")
  /\ exists results,
       PortScanner.scan_port_range_with Pool.lifo (faulty_probe 22 "simulated fault")
         "127.0.0.1" 20 25 None 1 100 = Returned (results, 25 - 20 + 1)
       /\ In (PortScanner.error_outcome 22 "simulated fault") results.
Proof.
  assert (Hfair : Pool.fair Pool.lifo)
    by (intros A l; apply Permutation_rev).
  assert (Hothers : forall p, 20 <= p <= 25 -> p <> 22 ->
            exists r, faulty_probe 22 "simulated fault" "127.0.0.1" p 1 = Returned r).
  { intros p _ Hne. unfold faulty_probe.
    destruct (Z.eqb_spec p 22); [contradiction|]. eexists. reflexivity. }
  split; [repeat split; [exact Hfair|lia..]|].
  destruct (scan_port_range_isolates_fault Pool.lifo (faulty_probe 22 "simulated fault")
              "127.0.0.1" 20 25 None 1 100 22 "simulated fault"
              Hfair ltac:(lia) I ltac:(lia) eq_refl Hothers)
    as [results [H1 [_ [E [_ [H5 _]]]]]].
  exists results. split; [exact H1|]. rewrite <- E. exact H5.
Defined.

(** C6 as written fails.  Its statement gives no condition on the
    callback or on the pool.  With the probe of port 22 raising and a
    callback that raises, ports 20 to 25 give eleven entries: every
    port whose probe returned is recorded a second time as an error,
    and the counter ends at 11 for a total of 6; with [max_threads = 0]
    the pool cannot be made and the batch returns nothing. *)
Lemma scan_port_range_fault_claim_fails :
  (exists results scanned,
     PortScanner.scan_port_range_with Pool.fifo (faulty_probe 22 "simulated fault")
       "127.0.0.1" 20 25 (Some (fun _ _ _ => Raised "callback failed")) 1 100
     = Returned (results, scanned)
     /\ map PortScanner.port results = [20; 20; 21; 21; 22; 23; 23; 24; 24; 25; 25]
     /\ List.length (filter (fun r => PortScanner.status r =? "error")%string results) = 6%nat
     /\ Z.of_nat (List.length results) <> 25 - 20 + 1
     /\ scanned <> 25 - 20 + 1)
  /\ PortScanner.scan_port_range_with Pool.fifo (faulty_probe 22 "simulated fault")
       "127.0.0.1" 20 25 None 1 0
     = Raised "max_workers must be greater than 0".
Proof.
  split; [|reflexivity].
  eexists. eexists. split; [reflexivity|].
  split; [reflexivity|]. split; [reflexivity|].
  split; discriminate.
Qed.

(** ** Common-port scan *)

Lemma common_ports_increasing : StronglySorted Z.lt (map fst PortScanner.COMMON_PORTS).
Proof. apply increasing_sound. vm_compute. reflexivity. Qed.

Lemma common_ports_service (ps : Z * string) :
  In ps PortScanner.COMMON_PORTS ->
  PortScanner.get PortScanner.COMMON_PORTS (fst ps) "Unknown" = snd ps.
Proof.
  intros H. simpl in H.
  repeat (destruct H as [<-|H]; [reflexivity|]). contradiction.
Qed.

(** C4 (as amended).  Under every fair completion order and with a
    callback that is absent or returns, [scan_common_ports] returns one
    outcome per entry of [COMMON_PORTS], in ascending order of port,
    each with the port and the service name of its entry, and the
    counter ends at 21.  The table is the twenty entries the
    specification lists with the entry 20 'FTP-Data' in front. *)
Theorem scan_common_ports_table {float : Type} (as_completed : Pool.scheduler)
    (net : Z -> Sock.world float) (host : string)
    (callback : option PortScanner.callback_t) (timeout : float) :
  Pool.fair as_completed ->
  PortScanner.returns callback ->
  exists results,
    PortScanner.scan_common_ports as_completed net host callback timeout
    = Returned results
    /\ PortScanner.scan_common_ports_run as_completed net host callback timeout
       = Returned (results, 21)
    /\ results = map (fun p => PortScanner.scan_port (net p) host p timeout)
                     (map fst PortScanner.COMMON_PORTS)
    /\ map (fun r => (PortScanner.port r, PortScanner.service r)) results
       = PortScanner.COMMON_PORTS
    /\ PortScanner.COMMON_PORTS = (20, "FTP-Data") :: PortScanner.spec_common_ports.
Proof.
  intros Hfair Hcb.
  set (probe := fun p => Returned (PortScanner.scan_port (net p) host p timeout)).
  set (ports := map fst PortScanner.COMMON_PORTS).
  assert (Hrun : PortScanner.scan_common_ports_run as_completed net host callback timeout
                 = Returned (map (PortScanner.record_of probe) ports, 21)).
  { unfold PortScanner.scan_common_ports_run. fold probe. fold ports.
    rewrite (run_scan_ascending callback _ Hcb as_completed probe ports 50 Hfair).
    - reflexivity.
    - lia.
    - intros p. apply scan_port_port.
    - apply common_ports_increasing. }
  exists (map (PortScanner.record_of probe) ports).
  split; [unfold PortScanner.scan_common_ports; now rewrite Hrun|].
  split; [exact Hrun|]. split; [reflexivity|]. split; [|reflexivity].
  unfold ports. rewrite !map_map.
  rewrite <- (map_id PortScanner.COMMON_PORTS) at 2.
  apply map_ext_in. intros ps Hps. unfold PortScanner.record_of, probe.
  rewrite scan_port_port, scan_port_service, (common_ports_service ps Hps).
  now destruct ps.
Qed.

(** A host that refuses everywhere, completions in reverse order. *)
Lemma scan_common_ports_table_witness :
  (Pool.fair Pool.lifo /\ PortScanner.returns None)
  /\ exists results,
       PortScanner.scan_common_ports (float := Z) Pool.lifo (fun _ => PortScanner.refusing)
         "127.0.0.1" None 1 = Returned results
       /\ map (fun r => (PortScanner.port r, PortScanner.service r)) results
          = PortScanner.COMMON_PORTS.
Proof.
  assert (Hfair : Pool.fair Pool.lifo)
    by (intros A l; apply Permutation_rev).
  split; [split; [exact Hfair|exact I]|].
  destruct (scan_common_ports_table (float := Z) Pool.lifo (fun _ => PortScanner.refusing)
              "127.0.0.1" None 1 Hfair I)
    as [results [H1 [_ [_ [H4 _]]]]].
  exists results. split; [exact H1|exact H4].
Defined.

(** C4 as written fails: port 20, which the listed table does not have,
    is probed and labelled 'FTP-Data'. *)
Lemma scan_common_ports_probes_port_20 :
  exists results,
    PortScanner.scan_common_ports (float := Z) Pool.fifo (fun _ => PortScanner.refusing)
      "127.0.0.1" None 1 = Returned results
    /\ ~ (forall r, In r results ->
            In (PortScanner.port r, PortScanner.service r) PortScanner.spec_common_ports).
Proof.
  eexists. split; [reflexivity|].
  intros H.
  specialize (H {| PortScanner.port := 20; PortScanner.status := "closed";
                   PortScanner.service := "FTP-Data"; PortScanner.error := None |}).
  assert (Hin : In (20, "FTP-Data") PortScanner.spec_common_ports).
  { apply H. left. reflexivity. }
  simpl in Hin.
  repeat (destruct Hin as [Hin|Hin]; [discriminate Hin|]). contradiction.
Qed.

(** With a callback that raises, every port of the table is still
    probed once, but each is recorded twice and the counter ends at 42:
    the condition on the callback is needed for the list returned. *)
Example common_ports_raising_callback :
  exists results,
    PortScanner.scan_common_ports_run (float := Z) Pool.fifo
      (fun _ => PortScanner.refusing) "127.0.0.1"
      (Some (fun _ _ _ => Raised "callback failed")) 1
    = Returned (results, 42)
    /\ List.length results = 42%nat
    /\ map PortScanner.port (filter (fun r => PortScanner.status r =? "closed")%string results)
       = map fst PortScanner.COMMON_PORTS.
Proof. eexists. split; [reflexivity|]. split; reflexivity. Qed.

(** ** Liveness probe: the TCP fallback *)

Lemma ports_tried_app {float : Type} (a b : list (Sock.call float)) :
  NetworkUtils.ports_tried (a ++ b)
  = (NetworkUtils.ports_tried a ++ NetworkUtils.ports_tried b)%list.
Proof.
  induction a as [|c a IH]; [reflexivity|].
  destruct c; simpl; rewrite IH; reflexivity.
Qed.

Section FallbackFacts.
Context {float time : Type}.
Variable elapsed_ms : time -> time -> float.
Variable fmt_2f : float -> string.
Variable clock : Z -> time * time.
Variable net : Z -> Sock.world float.
Variables (ip : string) (timeout : float).

Let latency (port : Z) : float := elapsed_ms (fst (clock port)) (snd (clock port)).
Let ok (port : Z) : bool := NetworkUtils.succeeds (net port) ip port timeout.

(** One turn of the loop: it returns from [tcp_ping] exactly when the
    attempt succeeds, and calls [connect_ex] when it gets that far. *)
Lemma tcp_attempt_turn (port : Z) :
  exists calls message,
    Sock.try_except
      (NetworkUtils.tcp_attempt elapsed_ms fmt_2f clock (net port) ip port timeout)
      (fun _ => Sock.ret None) tt
    = (Sock.Ok (if ok port then Some (true, Some (latency port), message) else None),
       tt, calls)
    /\ NetworkUtils.ports_tried calls
       = if NetworkUtils.connects (net port) timeout then [port] else [].
Proof.
  unfold ok, latency, NetworkUtils.succeeds, NetworkUtils.connects,
    Sock.try_except, NetworkUtils.tcp_attempt, NetworkUtils.now,
    Sock.bind, Sock.do_call, Sock.ret.
  set (message := ("Reply dari " ++ ip ++ " (TCP port " ++ PyStr.str port ++ "): time="
                   ++ fmt_2f (elapsed_ms (fst (clock port)) (snd (clock port)))
                   ++ "ms")%string).
  destruct (net port Sock.SocketNew) as [?|e1];
    [|eexists; exists message; split; reflexivity].
  destruct (net port (Sock.SetTimeout timeout)) as [?|e2];
    [|eexists; exists message; split; reflexivity].
  destruct (net port (Sock.ConnectEx ip port)) as [code|e3];
    [|eexists; exists message; split; reflexivity].
  destruct (net port Sock.Close) as [?|e4];
    destruct code as [|c|c]; eexists; exists message; split; reflexivity.
Qed.

(** The loop ends normally; it answers with the first port of the
    list that succeeds, and has tried no port after it. *)
Lemma tcp_ping_loop_first_success (ports : list Z) :
  exists answer calls,
    NetworkUtils.tcp_ping_loop elapsed_ms fmt_2f clock net ip timeout ports tt
    = (Sock.Ok answer, tt, calls)
    /\ NetworkUtils.ports_tried calls
       = filter (fun p => NetworkUtils.connects (net p) timeout)
                (NetworkUtils.attempted net ip timeout ports)
    /\ match find ok ports with
       | Some port => fst answer = (true, Some (latency port))
       | None => fst answer = (false, None)
       end.
Proof.
  induction ports as [|port rest IH].
  - do 2 eexists. repeat split; reflexivity.
  - destruct (tcp_attempt_turn port) as [calls1 [message [Hturn Htried]]].
    cbn [NetworkUtils.tcp_ping_loop NetworkUtils.attempted find].
    unfold Sock.bind at 1. rewrite Hturn. fold (ok port).
    destruct (ok port) eqn:Eok.
    + do 2 eexists. split; [reflexivity|]. split; [|reflexivity].
      rewrite app_nil_r, Htried. cbn [filter].
      destruct (NetworkUtils.connects (net port) timeout); reflexivity.
    + destruct IH as [answer [calls2 [Hrest [Htried2 Hfind]]]].
      rewrite Hrest. do 2 eexists. split; [reflexivity|].
      split; [|exact Hfind].
      rewrite ports_tried_app, Htried, Htried2. cbn [filter].
      destruct (NetworkUtils.connects (net port) timeout); reflexivity.
Qed.
End FallbackFacts.

(** C8.  When [ping] raises [PermissionError], [ping_host] is
    [tcp_ping]: it tries the ports 80, 443, 22 in that order, answers
    [True] with the latency measured on the first port whose attempt
    succeeds and tries no port after it, and answers [False] with no
    latency exactly when the attempt succeeds on none of the three. *)
Theorem ping_host_falls_back {float time : Type}
    (elapsed_ms : time -> time -> float) (times_1000 : float -> float)
    (fmt_2f : float -> string)
    (icmp : string -> float -> NetworkUtils.ping3)
    (clock : Z -> time * time) (net : Z -> Sock.world float)
    (ip : string) (timeout : float) :
  icmp ip timeout = NetworkUtils.PingPermissionError ->
  let ok := fun p => NetworkUtils.succeeds (net p) ip p timeout in
  let run := NetworkUtils.ping_host_run elapsed_ms times_1000 fmt_2f icmp clock net
               ip timeout in
  NetworkUtils.ports_to_try = [80; 443; 22]
  /\ run = NetworkUtils.tcp_ping_run elapsed_ms fmt_2f clock net ip timeout
  /\ exists success latency message calls,
       run = (Sock.Ok (success, latency, message), calls)
       /\ NetworkUtils.ports_tried calls
          = filter (fun p => NetworkUtils.connects (net p) timeout)
                   (NetworkUtils.attempted net ip timeout [80; 443; 22])
       /\ match find ok [80; 443; 22] with
          | Some port =>
              success = true
              /\ latency = Some (elapsed_ms (fst (clock port)) (snd (clock port)))
          | None => success = false /\ latency = None
          end
       /\ (success = false <-> ok 80 = false /\ ok 443 = false /\ ok 22 = false)
       /\ (ok 80 = true -> NetworkUtils.ports_tried calls = [80])
       /\ (ok 80 = false -> ok 443 = true ->
           ~ In 22 (NetworkUtils.ports_tried calls)).
Proof.
  intros Hperm ok run.
  assert (Hrun : run = NetworkUtils.tcp_ping_run elapsed_ms fmt_2f clock net ip timeout).
  { unfold run, NetworkUtils.ping_host_run. now rewrite Hperm. }
  split; [reflexivity|]. split; [exact Hrun|].
  destruct (tcp_ping_loop_first_success elapsed_ms fmt_2f clock net ip timeout
              [80; 443; 22]) as [[[success latency] message] [calls [Hloop [Htried Hfind]]]].
  exists success, latency, message, calls.
  split.
  { rewrite Hrun. unfold NetworkUtils.tcp_ping_run.
    change NetworkUtils.ports_to_try with [80; 443; 22]. now rewrite Hloop. }
  split; [exact Htried|].
  fold ok in Hfind. cbn [fst] in Hfind.
  assert (Hcon : forall p, ok p = true -> NetworkUtils.connects (net p) timeout = true).
  { intros p. unfold ok, NetworkUtils.succeeds, NetworkUtils.connects.
    destruct (net p Sock.SocketNew); [|discriminate].
    destruct (net p (Sock.SetTimeout timeout)); [reflexivity|discriminate]. }
  split; [|split; [|split]].
  - destruct (find ok [80; 443; 22]); injection Hfind as -> ->; split; reflexivity.
  - cbn [find] in Hfind.
    destruct (ok 80); [injection Hfind as -> _; split; [discriminate|intros [? _]; discriminate]|].
    destruct (ok 443); [injection Hfind as -> _; split; [discriminate|intros [_ [? _]]; discriminate]|].
    destruct (ok 22); [injection Hfind as -> _; split; [discriminate|intros [_ [_ ?]]; discriminate]|].
    injection Hfind as -> _. split; auto.
  - intros H80. rewrite Htried. cbn [NetworkUtils.attempted]. fold (ok 80).
    rewrite H80. cbn [filter]. now rewrite (Hcon 80 H80).
  - intros H80 H443. rewrite Htried. cbn [NetworkUtils.attempted].
    fold (ok 80). fold (ok 443). rewrite H80, H443. cbn [filter].
    destruct (NetworkUtils.connects (net 80) timeout);
      destruct (NetworkUtils.connects (net 443) timeout); simpl;
      intros H; repeat (destruct H as [H|H]; [discriminate H|]); exact H.
Qed.

(** Port 80 refuses and port 443 accepts: the answer carries the
    latency of port 443. *)
Lemma ping_host_falls_back_witness :
  unprivileged_ping "10.0.0.1" 2 = NetworkUtils.PingPermissionError
  /\ exists message calls,
       NetworkUtils.ping_host_run (fun a b : Z => b - a) (fun x => 1000 * x)
         PyStr.str unprivileged_ping (fun port => (port, port + 5)) web_host "10.0.0.1" 2
       = (Sock.Ok (true, Some 5, message), calls)
       /\ NetworkUtils.ports_tried calls = [80; 443].
Proof.
  split; [reflexivity|].
  destruct (ping_host_falls_back (fun a b : Z => b - a) (fun x => 1000 * x)
              PyStr.str unprivileged_ping (fun port => (port, port + 5)) web_host
              "10.0.0.1" 2 eq_refl)
    as [_ [_ [success [latency [message [calls [Hrun [Htried [Hfind _]]]]]]]]].
  exists message, calls. cbn in Hfind. destruct Hfind as [-> ->].
  split; [exact Hrun|exact Htried].
Defined.

(** A callback that raises is caught by the branch meant for a failed
    probe: the port is recorded a second time and counted twice. *)
Example raising_callback_recorded_twice :
  PortScanner.scan_port_range_run (float := Z) Pool.fifo (fun _ => PortScanner.accepting)
    "127.0.0.1" 80 80 (Some (fun _ _ _ => Raised "callback failed")) 1 100
  = Returned ([ {| PortScanner.port := 80; PortScanner.status := "open";
                   PortScanner.service := "HTTP"; PortScanner.error := None |};
                {| PortScanner.port := 80; PortScanner.status := "error";
                   PortScanner.service := "HTTP";
                   PortScanner.error := Some "callback failed" |} ], 2).
Proof. reflexivity. Qed.

(** ** Ranking *)

Lemma list_lt_asym (a b : list Z) :
  PySort.list_lt a b = true -> PySort.list_lt b a = false.
Proof.
  revert b. induction a as [|x a IH]; intros [|y b]; simpl; try congruence.
  destruct (Z.eqb_spec x y) as [->|Hne].
  - rewrite Z.eqb_refl. apply IH.
  - destruct (Z.eqb_spec y x) as [->|_]; [contradiction|].
    intros H. apply Z.ltb_lt in H. apply Z.ltb_ge. lia.
Qed.

Lemma list_lt_le_trans (a b c : list Z) :
  PySort.list_lt b a = false -> PySort.list_lt c b = false ->
  PySort.list_lt c a = false.
Proof.
  revert b c. induction a as [|x a IH]; intros [|y b] [|z c]; simpl;
    try congruence.
  destruct (Z.eqb_spec y x) as [->|Hyx].
  - destruct (Z.eqb_spec z x) as [->|Hzx]; [apply IH|tauto].
  - intros H1. apply Z.ltb_ge in H1.
    destruct (Z.eqb_spec z y) as [->|Hzy].
    + intros _. destruct (Z.eqb_spec y x); [contradiction|]. apply Z.ltb_ge. lia.
    + intros H2. apply Z.ltb_ge in H2.
      destruct (Z.eqb_spec z x) as [->|_]; [lia|]. apply Z.ltb_ge. lia.
Qed.

(** On 32-bit values the order of the octet lists is the order of the
    values. *)
Lemma octets_lt (x y : Z) :
  0 <= x < 2 ^ 32 -> 0 <= y < 2 ^ 32 ->
  PySort.list_lt (Quad.octets x) (Quad.octets y) = (x <? y).
Proof.
  intros Hx Hy.
  pose proof (octets_sum x) as Sx. pose proof (octets_sum y) as Sy.
  rewrite Z.mod_small in Sx, Sy by assumption.
  rewrite !octets_value.
  pose proof (Z.mod_pos_bound (x / 2 ^ 24) 256 ltac:(lia)).
  pose proof (Z.mod_pos_bound (x / 2 ^ 16) 256 ltac:(lia)).
  pose proof (Z.mod_pos_bound (x / 2 ^ 8) 256 ltac:(lia)).
  pose proof (Z.mod_pos_bound x 256 ltac:(lia)).
  pose proof (Z.mod_pos_bound (y / 2 ^ 24) 256 ltac:(lia)).
  pose proof (Z.mod_pos_bound (y / 2 ^ 16) 256 ltac:(lia)).
  pose proof (Z.mod_pos_bound (y / 2 ^ 8) 256 ltac:(lia)).
  pose proof (Z.mod_pos_bound y 256 ltac:(lia)).
  revert Sx Sy.
  generalize dependent ((x / 2 ^ 24) mod 256). intros a3 ?.
  generalize dependent ((x / 2 ^ 16) mod 256). intros a2 ?.
  generalize dependent ((x / 2 ^ 8) mod 256). intros a1 ?.
  generalize dependent (x mod 256). intros a0 ?.
  generalize dependent ((y / 2 ^ 24) mod 256). intros b3 ?.
  generalize dependent ((y / 2 ^ 16) mod 256). intros b2 ?.
  generalize dependent ((y / 2 ^ 8) mod 256). intros b1 ?.
  generalize dependent (y mod 256). intros b0 ?.
  change (2 ^ 24) with 16777216. change (2 ^ 16) with 65536. change (2 ^ 8) with 256.
  intros Sx Sy. simpl.
  destruct (Z.eqb_spec a3 b3); [|destruct (Z.ltb_spec a3 b3), (Z.ltb_spec x y); lia].
  destruct (Z.eqb_spec a2 b2); [|destruct (Z.ltb_spec a2 b2), (Z.ltb_spec x y); lia].
  destruct (Z.eqb_spec a1 b1); [|destruct (Z.ltb_spec a1 b1), (Z.ltb_spec x y); lia].
  destruct (Z.eqb_spec a0 b0); [|destruct (Z.ltb_spec a0 b0), (Z.ltb_spec x y); lia].
  destruct (Z.ltb_spec x y); lia.
Qed.

Lemma StronglySorted_map_in {A B : Type} (R : A -> A -> Prop) (Q : B -> B -> Prop)
    (f : A -> B) (l : list A) :
  (forall a b, In a l -> In b l -> R a b -> Q (f a) (f b)) ->
  StronglySorted R l -> StronglySorted Q (map f l).
Proof.
  intros H Hs. induction Hs as [|x l Hs IH Hx]; simpl; constructor.
  - apply IH. intros a b Ha Hb. apply H; now right.
  - apply Forall_forall. intros y Hy. apply in_map_iff in Hy.
    destruct Hy as [b [<- Hb]]. rewrite Forall_forall in Hx.
    apply H; [now left|now right|now apply Hx].
Qed.
Lemma octet_mod (x k : Z) :
  0 <= k <= 24 ->
  Z.land (Z.shiftr (x mod 2 ^ 32) k) 255 = Z.land (Z.shiftr x k) 255.
Proof.
  intros Hk. apply Z.bits_inj'. intros n Hn.
  rewrite !Z.land_spec, !Z.shiftr_spec by lia.
  change 255 with (Z.ones 8).
  destruct (Z.ltb_spec n 8) as [Hlow|Hhigh].
  - rewrite Z.mod_pow2_bits_low by lia. reflexivity.
  - rewrite Z.ones_spec_high by lia. now rewrite !andb_false_r.
Qed.

Lemma format_ip_mod (x : Z) :
  HostRange.format_ip (x mod 2 ^ 32) = HostRange.format_ip x.
Proof.
  unfold HostRange.format_ip.
  rewrite (octet_mod x 24), (octet_mod x 16), (octet_mod x 8) by lia.
  pose proof (octet_mod x 0 ltac:(lia)) as E0. rewrite !Z.shiftr_0_r in E0.
  now rewrite E0.
Qed.
Section HostRanking.
Variable value : HostDiscovery.host_info -> Z.

(** The entries whose address is the dotted quad of their 32-bit value. *)
Let valid (h : HostDiscovery.host_info) : Prop :=
  0 <= value h < 2 ^ 32 /\ HostDiscovery.ip h = HostRange.format_ip (value h).

Let pair (h : HostDiscovery.host_info) : list Z * HostDiscovery.host_info :=
  (Quad.octets (value h), h).

Lemma keyed_valid (hs : list HostDiscovery.host_info) :
  (forall h, In h hs -> valid h) ->
  PySort.keyed HostDiscovery.ip_key hs = Returned (map pair hs).
Proof.
  induction hs as [|h hs IH]; intros Hv; [reflexivity|].
  cbn [PySort.keyed map].
  destruct (Hv h (or_introl eq_refl)) as [_ Hip].
  unfold HostDiscovery.ip_key at 1. rewrite Hip, format_ip_ints.
  rewrite IH by (intros h' Hh'; apply Hv; now right). reflexivity.
Qed.

(** Sorting valid entries: a rearrangement in ascending order of the
    32-bit values, which sorting again leaves as it is. *)
Lemma sort_hosts_valid (hs : list HostDiscovery.host_info) :
  (forall h, In h hs -> valid h) ->
  exists ranked,
    PySort.sort_try PySort.list_lt HostDiscovery.ip_key hs = Returned ranked
    /\ Permutation hs ranked
    /\ StronglySorted (fun a b => value a <= value b) ranked
    /\ PySort.sort_try PySort.list_lt HostDiscovery.ip_key ranked = Returned ranked.
Proof.
  intros Hv.
  set (sorted := PySort.sort PySort.list_lt fst (map pair hs)).
  assert (HP : Permutation (map pair hs) sorted) by apply sort_perm.
  assert (Hs : StronglySorted
                 (fun a b => PySort.list_lt (fst b) (fst a) = false) sorted).
  { apply (sort_sorted PySort.list_lt fst).
    - apply list_lt_asym.
    - apply list_lt_le_trans. }
  assert (Hel : forall p, In p sorted -> In (snd p) hs /\ p = pair (snd p)).
  { intros p Hp. apply (Permutation_in _ (Permutation_sym HP)) in Hp.
    apply in_map_iff in Hp. destruct Hp as [h [<- Hh]]. now split. }
  assert (Hperm : Permutation hs (map snd sorted)).
  { rewrite <- HP, map_map. cbn [pair snd]. now rewrite map_id. }
  assert (Hv' : forall h, In h (map snd sorted) -> valid h).
  { intros h Hh. apply Hv. now apply (Permutation_in _ (Permutation_sym Hperm)). }
  exists (map snd sorted). unfold PySort.sort_try.
  split; [now rewrite (keyed_valid hs Hv)|].
  split; [exact Hperm|]. split.
  - apply (StronglySorted_map_in
             (fun a b => PySort.list_lt (fst b) (fst a) = false)
             (fun a b => value a <= value b) snd sorted); [|exact Hs].
    intros p q Hp Hq Hle.
    destruct (Hel p Hp) as [Hp1 Hp2]. destruct (Hel q Hq) as [Hq1 Hq2].
    rewrite Hp2, Hq2 in Hle. cbn [pair fst] in Hle.
    destruct (Hv _ Hp1) as [Rp _]. destruct (Hv _ Hq1) as [Rq _].
    rewrite octets_lt in Hle by assumption. apply Z.ltb_ge in Hle. exact Hle.
  - rewrite (keyed_valid _ Hv').
    assert (E : map pair (map snd sorted) = sorted).
    { rewrite map_map. rewrite <- (map_id sorted) at 2.
      apply map_ext_in. intros p Hp. symmetry. now apply Hel. }
    rewrite E. unfold sorted. now rewrite sort_idempotent
      by (try apply list_lt_asym; apply list_lt_le_trans).
Qed.
End HostRanking.
Lemma ip_value_format (h : HostDiscovery.host_info) (x : Z) :
  0 <= x < 2 ^ 32 -> HostDiscovery.ip h = HostRange.format_ip x ->
  HostDiscovery.ip_value h = x.
Proof.
  intros Hx Hip. unfold HostDiscovery.ip_value, HostDiscovery.ip_key.
  rewrite Hip, format_ip_ints, octets_value. unfold HostRange.base_of.
  rewrite !Z.shiftl_mul_pow2 by lia.
  rewrite <- (Z.mod_small x (2 ^ 32)) at 5 by assumption.
  now rewrite octets_sum.
Qed.

(** Every address the partitioner lists is the dotted quad of a 32-bit
    value. *)
Lemma cidr_addresses_formatted (cidr ip : string) :
  In ip (HostRange.get_ip_range_from_cidr cidr) ->
  exists x, 0 <= x < 2 ^ 32 /\ ip = HostRange.format_ip x.
Proof.
  unfold HostRange.get_ip_range_from_cidr, HostRange.get_ip_range_from_cidr_try.
  destruct (HostRange.unpack2 _) as [np|]; cbn [bind]; [|contradiction].
  destruct (HostRange.int _) as [prefix|]; cbn [bind]; [|contradiction].
  destruct (HostRange.ints _) as [parts|]; cbn [bind]; [|contradiction].
  destruct (HostRange.item parts 0) as [p0|]; cbn [bind]; [|contradiction].
  destruct (HostRange.item parts 1) as [p1|]; cbn [bind]; [|contradiction].
  destruct (HostRange.item parts 2) as [p2|]; cbn [bind]; [|contradiction].
  destruct (HostRange.item parts 3) as [p3|]; cbn [bind]; [|contradiction].
  destruct (HostRange.lshift 1 _) as [one|]; cbn [bind]; [|contradiction].
  intros Hin. apply in_map_iff in Hin. destruct Hin as [i [<- _]].
  eexists. split; [|symmetry; apply format_ip_mod].
  apply Z.mod_pos_bound. lia.
Qed.
(** ** Host discovery *)

Section DiscoverFacts.
Variable env : HostDiscovery.collaborators.
Variable callback : option HostDiscovery.callback_t.
Variable total : Z.

(** The collecting loop appends entries with status ['up'] for
    addresses of completed futures, counts each of them, and touches
    nothing else of the dict. *)
Lemma collect_invariant (entries : list (completion bool * string))
    (result : HostDiscovery.discovery) (scanned : Z) :
  let result' := fst (fold_left (HostDiscovery.collect env callback total) entries
                                (result, scanned)) in
  HostDiscovery.total_found result' - Z.of_nat (List.length (HostDiscovery.hosts result'))
  = HostDiscovery.total_found result - Z.of_nat (List.length (HostDiscovery.hosts result))
  /\ (forall h, In h (HostDiscovery.hosts result') ->
        In h (HostDiscovery.hosts result)
        \/ (HostDiscovery.status h = "up" /\ In (HostDiscovery.ip h) (map snd entries)))
  /\ HostDiscovery.total_scanned result' = HostDiscovery.total_scanned result
  /\ HostDiscovery.error result' = HostDiscovery.error result
  /\ HostDiscovery.network result' = HostDiscovery.network result.
Proof.
  revert result scanned.
  induction entries as [|[future ip] entries IH]; intros result scanned.
  - cbn. repeat split; auto.
  - cbn [fold_left].
    destruct (HostDiscovery.collect env callback total (result, scanned) (future, ip))
      as [result1 scanned1] eqn:Estep.
    assert (Hstep :
      HostDiscovery.total_found result1
        - Z.of_nat (List.length (HostDiscovery.hosts result1))
      = HostDiscovery.total_found result
        - Z.of_nat (List.length (HostDiscovery.hosts result))
      /\ (forall h, In h (HostDiscovery.hosts result1) ->
            In h (HostDiscovery.hosts result)
            \/ (HostDiscovery.status h = "up" /\ HostDiscovery.ip h = ip))
      /\ HostDiscovery.total_scanned result1 = HostDiscovery.total_scanned result
      /\ HostDiscovery.error result1 = HostDiscovery.error result
      /\ HostDiscovery.network result1 = HostDiscovery.network result).
    { unfold HostDiscovery.collect in Estep.
      destruct future as [is_up|msg].
      - assert (E : result1 =
                  if is_up then
                    HostDiscovery.set_total_found (HostDiscovery.total_found result + 1)
                      (HostDiscovery.set_hosts
                         (HostDiscovery.hosts result ++
                          [{| HostDiscovery.ip := ip;
                              HostDiscovery.hostname := HostDiscovery.get_hostname_for_ip env ip;
                              HostDiscovery.mac := HostDiscovery.get_mac_from_arp env ip;
                              HostDiscovery.status := "up" |}])%list result)
                  else result).
        { destruct callback as [cb|];
            [destruct (cb (scanned + 1) total (ip, is_up))|]; congruence. }
        rewrite E. destruct is_up; cbn.
        + rewrite length_app. cbn. repeat split; try lia; auto.
          intros h Hh. apply in_app_or in Hh. destruct Hh as [Hh|[<-|[]]]; auto.
        + repeat split; auto.
      - injection Estep as <- _. repeat split; auto. }
    specialize (IH result1 scanned1). cbv zeta in IH |- *.
    destruct IH as [I1 [I2 [I3 [I4 I5]]]].
    destruct Hstep as [S1 [S2 [S3 [S4 S5]]]].
    split; [lia|]. split; [|repeat split; congruence].
    intros h Hh. destruct (I2 h Hh) as [Hin|[Hup Hin]].
    + destruct (S2 h Hin) as [Hin'|[Hup <-]]; [now left|].
      right. split; [exact Hup|now left].
    + right. split; [exact Hup|now right].
Qed.
End DiscoverFacts.

Lemma sort_try_perm {A K : Type} (ltb : K -> K -> bool) (key : A -> completion K)
    (l sorted : list A) :
  PySort.sort_try ltb key l = Returned sorted -> Permutation l sorted.
Proof.
  unfold PySort.sort_try.
  destruct (PySort.keyed key l) as [ks|] eqn:E; [|discriminate].
  intros H. injection H as <-.
  assert (Hl : l = map snd ks).
  { revert ks E. induction l as [|x l IH]; intros ks E; cbn in E.
    - now injection E as <-.
    - destruct (key x); [|discriminate].
      destruct (PySort.keyed key l) as [ks'|]; [|discriminate].
      injection E as <-. cbn. f_equal. now apply IH. }
  rewrite Hl. apply Permutation_map, sort_perm.
Qed.
(** Whatever way the [try] block of [discover_hosts] ends, it leaves a
    dict whose counter is the number of its entries, all of them 'up'. *)
Lemma discover_try_invariant (as_completed : Pool.scheduler)
    (env : HostDiscovery.collaborators) (network_range : option string)
    (callback : option HostDiscovery.callback_t) (max_threads : Z)
    (result : HostDiscovery.discovery) :
  HostDiscovery.hosts result = [] -> HostDiscovery.total_found result = 0 ->
  let result' := snd (HostDiscovery.discover_hosts_try as_completed env network_range
                        callback max_threads result) in
  HostDiscovery.total_found result' = Z.of_nat (List.length (HostDiscovery.hosts result'))
  /\ Forall (fun h => HostDiscovery.status h = "up") (HostDiscovery.hosts result').
Proof.
  intros Hh Hf. unfold HostDiscovery.discover_hosts_try.
  destruct (match network_range with
            | Some n => Some n
            | None => HostDiscovery.get_local_network_range env
            end) as [range|].
  2:{ cbn. rewrite Hh, Hf. split; [reflexivity|constructor]. }
  destruct (HostRange.get_ip_range_from_cidr range) as [|ip0 ips].
  { cbn. rewrite Hh, Hf. split; [reflexivity|constructor]. }
  destruct (Pool.ThreadPoolExecutor max_threads).
  2:{ cbn. rewrite Hh, Hf. split; [reflexivity|constructor]. }
  match goal with
  | |- context [fold_left ?f ?l (?r0, ?s0)] =>
      pose proof (collect_invariant env callback
                    (Z.of_nat (List.length (ip0 :: ips))) l r0 s0) as Hinv;
      destruct (fold_left f l (r0, s0)) as [result1 scanned1]
  end.
  cbv zeta in Hinv. cbn [fst] in Hinv. destruct Hinv as [I1 [I2 _]].
  cbn [HostDiscovery.set_total_scanned HostDiscovery.set_network
       HostDiscovery.hosts HostDiscovery.total_found] in I1, I2.
  rewrite Hh, Hf in I1. cbn in I1.
  assert (Hup : Forall (fun h => HostDiscovery.status h = "up")
                       (HostDiscovery.hosts result1)).
  { apply Forall_forall. intros h Hin. destruct (I2 h Hin) as [Hin'|[Hup _]].
    - rewrite Hh in Hin'. contradiction.
    - exact Hup. }
  destruct (PySort.sort_try PySort.list_lt HostDiscovery.ip_key
              (HostDiscovery.hosts result1)) as [sorted|msg] eqn:Esort.
  - apply sort_try_perm in Esort. cbn.
    rewrite <- (Permutation_length Esort). split; [lia|].
    now apply (Permutation_Forall Esort).
  - cbn. split; [lia|exact Hup].
Qed.

(** C10.  [discover_hosts] always returns its dict: an exception of the
    [try] block becomes the ['error'] entry [str(e)].  In the dict
    returned, ['total_found'] is the number of entries of ['hosts'] and
    every entry has the status ['up']. *)
Theorem discover_hosts_returns_consistent (as_completed : Pool.scheduler)
    (env : HostDiscovery.collaborators) (network_range : option string)
    (callback : option HostDiscovery.callback_t) (max_threads : Z) :
  let initial :=
    {| HostDiscovery.network := network_range; HostDiscovery.hosts := [];
       HostDiscovery.total_scanned := 0; HostDiscovery.total_found := 0;
       HostDiscovery.error := None |} in
  exists r,
    HostDiscovery.discover_hosts as_completed env network_range callback max_threads
    = Returned r
    /\ HostDiscovery.total_found r = Z.of_nat (List.length (HostDiscovery.hosts r))
    /\ Forall (fun h => HostDiscovery.status h = "up") (HostDiscovery.hosts r)
    /\ (forall msg,
          fst (HostDiscovery.discover_hosts_try as_completed env network_range
                 callback max_threads initial) = Raised msg ->
          HostDiscovery.error r = Some msg).
Proof.
  intros initial.
  pose proof (discover_try_invariant as_completed env network_range callback
                max_threads initial eq_refl eq_refl) as Hinv.
  unfold HostDiscovery.discover_hosts. fold initial.
  destruct (HostDiscovery.discover_hosts_try as_completed env network_range callback
              max_threads initial) as [[u|msg] result].
  - exists result. cbn [snd] in Hinv. destruct Hinv as [H1 H2].
    repeat split; try assumption. intros m Hm. discriminate Hm.
  - exists (HostDiscovery.set_error (Some msg) result).
    cbn [snd] in Hinv. destruct Hinv as [H1 H2].
    repeat split; try assumption. intros m Hm. cbn in Hm. injection Hm as ->.
    reflexivity.
Qed.

(** A pool without workers: the [ValueError] of the executor comes back
    as the ['error'] entry. *)
Example discover_hosts_no_workers :
  HostDiscovery.discover_hosts Pool.fifo (HostDiscovery.quiet_network [])
    (Some "10.0.0.0/30") None 0
  = Returned {| HostDiscovery.network := Some "10.0.0.0/30"; HostDiscovery.hosts := [];
                HostDiscovery.total_scanned := 2; HostDiscovery.total_found := 0;
                HostDiscovery.error := Some "max_workers must be greater than 0" |}.
Proof. reflexivity. Qed.
(** Under a fair scheduler every entry of a discovery that ended without
    error has an address the partitioner listed, and the entries are in
    ascending order of the 32-bit values of their addresses. *)
Lemma discover_hosts_ranked (as_completed : Pool.scheduler)
    (env : HostDiscovery.collaborators) (network_range : option string)
    (callback : option HostDiscovery.callback_t) (max_threads : Z)
    (r : HostDiscovery.discovery) :
  Pool.fair as_completed ->
  HostDiscovery.discover_hosts as_completed env network_range callback max_threads
  = Returned r ->
  HostDiscovery.error r = None ->
  StronglySorted (fun a b => HostDiscovery.ip_value a <= HostDiscovery.ip_value b)
                 (HostDiscovery.hosts r).
Proof.
  intros Hfair. unfold HostDiscovery.discover_hosts, HostDiscovery.discover_hosts_try.
  destruct (match network_range with
            | Some n => Some n
            | None => HostDiscovery.get_local_network_range env
            end) as [range|].
  2:{ intros H. injection H as <-. discriminate. }
  destruct (HostRange.get_ip_range_from_cidr range) as [|ip0 ips] eqn:Eips.
  { intros H. injection H as <-. discriminate. }
  destruct (Pool.ThreadPoolExecutor max_threads).
  2:{ intros H. injection H as <-. discriminate. }
  match goal with
  | |- context [fold_left ?f ?l (?r0, ?s0)] =>
      pose proof (collect_invariant env callback
                    (Z.of_nat (List.length (ip0 :: ips))) l r0 s0) as Hinv;
      destruct (fold_left f l (r0, s0)) as [result1 scanned1]
  end.
  cbv zeta in Hinv. cbn [fst] in Hinv. destruct Hinv as [_ [I2 _]].
  cbn [HostDiscovery.set_total_scanned HostDiscovery.set_network
       HostDiscovery.hosts] in I2.
  assert (Hvalid : forall h, In h (HostDiscovery.hosts result1) ->
            0 <= HostDiscovery.ip_value h < 2 ^ 32
            /\ HostDiscovery.ip h = HostRange.format_ip (HostDiscovery.ip_value h)).
  { intros h Hin. destruct (I2 h Hin) as [[]|[_ Hip]].
    assert (Hl : In (HostDiscovery.ip h) (ip0 :: ips)).
    { apply in_map_iff in Hip. destruct Hip as [entry [Hsnd Hentry]].
      apply (Permutation_in _ (Permutation_sym (Hfair _ _))) in Hentry.
      apply in_map_iff in Hentry. destruct Hentry as [ip [<- Hip']].
      cbn [snd] in Hsnd. now subst. }
    rewrite <- Eips in Hl.
    destruct (cidr_addresses_formatted _ _ Hl) as [x [Hx Hf]].
    rewrite (ip_value_format h x Hx Hf). now split. }
  destruct (sort_hosts_valid HostDiscovery.ip_value _ Hvalid)
    as [ranked [Hsort [_ [Hsorted _]]]].
  rewrite Hsort. intros H. injection H as <-. intros _. exact Hsorted.
Qed.

(** C9.  Port results are ranked by port number ascending and host
    entries by the 32-bit value of their dotted-quad address ascending
    (so "10.0.0.2" comes before "10.0.0.10", which the order of the
    strings would put first); ranking a ranked list changes nothing.
    The list [scan_port_range] returns is so ranked, and so are the
    hosts of a discovery that ended without error. *)
Theorem ranking_by_numeric_key :
  (forall results : list PortScanner.outcome,
     let ranked := PySort.sort Z.ltb PortScanner.port results in
     Permutation results ranked
     /\ StronglySorted (fun a b => PortScanner.port a <= PortScanner.port b) ranked
     /\ PySort.sort Z.ltb PortScanner.port ranked = ranked)
  /\ (forall hs : list HostDiscovery.host_info,
        (forall h, In h hs ->
           exists x, 0 <= x < 2 ^ 32 /\ HostDiscovery.ip h = HostRange.format_ip x) ->
        exists ranked,
          PySort.sort_try PySort.list_lt HostDiscovery.ip_key hs = Returned ranked
          /\ Permutation hs ranked
          /\ StronglySorted
               (fun a b => HostDiscovery.ip_value a <= HostDiscovery.ip_value b) ranked
          /\ PySort.sort_try PySort.list_lt HostDiscovery.ip_key ranked = Returned ranked)
  /\ (PySort.sort_try PySort.list_lt HostDiscovery.ip_key
        [host_at "10.0.0.10"; host_at "10.0.0.2"]
      = Returned [host_at "10.0.0.2"; host_at "10.0.0.10"]
      /\ ("10.0.0.10" <? "10.0.0.2")%string = true)
  /\ (forall (float : Type) (as_completed : Pool.scheduler)
        (probe : string -> Z -> float -> completion PortScanner.outcome)
        (host : string) (start_port end_port : Z)
        (callback : option PortScanner.callback_t) (timeout : float) (max_threads : Z)
        (results : list PortScanner.outcome) (scanned : Z),
        PortScanner.scan_port_range_with as_completed probe host start_port end_port
                                         callback timeout max_threads
        = Returned (results, scanned) ->
        StronglySorted (fun a b => PortScanner.port a <= PortScanner.port b) results)
  /\ (forall (as_completed : Pool.scheduler) (env : HostDiscovery.collaborators)
        (network_range : option string) (callback : option HostDiscovery.callback_t)
        (max_threads : Z) (r : HostDiscovery.discovery),
        Pool.fair as_completed ->
        HostDiscovery.discover_hosts as_completed env network_range callback max_threads
        = Returned r ->
        HostDiscovery.error r = None ->
        StronglySorted
          (fun a b => HostDiscovery.ip_value a <= HostDiscovery.ip_value b)
          (HostDiscovery.hosts r)).
Proof.
  split; [|split; [|split; [|split]]].
  - intros results ranked. split; [apply sort_perm|].
    split; [apply sortZ_sorted|apply sortZ_idempotent].
  - intros hs Hhs. apply sort_hosts_valid. intros h Hin.
    destruct (Hhs h Hin) as [x [Hx Hf]].
    rewrite (ip_value_format h x Hx Hf). now split.
  - split; reflexivity.
  - intros float as_completed probe host start_port end_port callback timeout
      max_threads results scanned.
    unfold PortScanner.scan_port_range_with, PortScanner.run_scan.
    destruct (Pool.ThreadPoolExecutor max_threads); [|discriminate].
    destruct (fold_left _ _ _) as [collected n].
    intros H. injection H as <- _. apply sortZ_sorted.
  - intros. eapply discover_hosts_ranked; eassumption.
Qed.

(** The two addresses of the claim. *)
Lemma ranking_by_numeric_key_witness :
  (forall h, In h [host_at "10.0.0.10"; host_at "10.0.0.2"] ->
     exists x, 0 <= x < 2 ^ 32 /\ HostDiscovery.ip h = HostRange.format_ip x)
  /\ exists ranked,
       PySort.sort_try PySort.list_lt HostDiscovery.ip_key
         [host_at "10.0.0.10"; host_at "10.0.0.2"] = Returned ranked
       /\ StronglySorted
            (fun a b => HostDiscovery.ip_value a <= HostDiscovery.ip_value b) ranked.
Proof.
  assert (Hv : forall h, In h [host_at "10.0.0.10"; host_at "10.0.0.2"] ->
             exists x, 0 <= x < 2 ^ 32 /\ HostDiscovery.ip h = HostRange.format_ip x).
  { intros h [<-|[<-|[]]].
    - exists 167772170. split; [lia|reflexivity].
    - exists 167772162. split; [lia|reflexivity]. }
  split; [exact Hv|].
  destruct (proj1 (proj2 ranking_by_numeric_key) _ Hv) as [ranked [H1 [_ [H3 _]]]].
  exists ranked. split; [exact H1|exact H3].
Defined.

(** An empty address list ends the discovery before any probe: nothing
    is scanned and the error is 'Invalid network range'. *)
Lemma invalid_range_not_probed (as_completed : Pool.scheduler)
    (env : HostDiscovery.collaborators) (cidr : string)
    (callback : option HostDiscovery.callback_t) (max_threads : Z) :
  HostRange.get_ip_range_from_cidr cidr = [] ->
  HostDiscovery.discover_hosts as_completed env (Some cidr) callback max_threads
  = Returned {| HostDiscovery.network := Some cidr; HostDiscovery.hosts := [];
                HostDiscovery.total_scanned := 0; HostDiscovery.total_found := 0;
                HostDiscovery.error := Some "Invalid network range" |}.
Proof.
  intros H. unfold HostDiscovery.discover_hosts, HostDiscovery.discover_hosts_try.
  rewrite H. reflexivity.
Qed.

(** C3 (the code at the failing input).  The prefix -1 is outside
    [0,32], yet the partitioner lists 254 addresses for it and the
    discovery probes them all and reports no error. *)
Theorem negative_prefix_is_scanned :
  List.length (HostRange.get_ip_range_from_cidr "10.0.0.0/-1") = 254%nat
  /\ hd_error (HostRange.get_ip_range_from_cidr "10.0.0.0/-1") = Some "10.0.0.1"
  /\ HostDiscovery.discover_hosts Pool.fifo (HostDiscovery.quiet_network ["10.0.0.7"])
       (Some "10.0.0.0/-1") None 50
     = Returned {| HostDiscovery.network := Some "10.0.0.0/-1";
                   HostDiscovery.hosts := [host_at "10.0.0.7"];
                   HostDiscovery.total_scanned := 254;
                   HostDiscovery.total_found := 1;
                   HostDiscovery.error := None |}.
Proof. repeat split; vm_compute; reflexivity. Qed.
(** ** Open ports of a scan *)

Lemma scan_port_open_iff {float : Type} (w : Sock.world float)
    (host : string) (port : Z) (timeout : float) :
  String.eqb (PortScanner.status (PortScanner.scan_port w host port timeout)) "open"
  = PortReport.accepts w host port timeout.
Proof.
  unfold PortScanner.scan_port, PortReport.accepts. rewrite scan_port_run_cases.
  cbv zeta.
  destruct (w Sock.SocketNew) as [?|[| |?]]; try reflexivity.
  destruct (w (Sock.SetTimeout timeout)) as [?|[| |?]]; try reflexivity.
  destruct (w (Sock.ConnectEx host port)) as [code|[| |?]]; try reflexivity.
  destruct (w Sock.Close) as [?|[| |?]]; destruct (code =? 0); reflexivity.
Qed.

(** X1.  [get_open_ports] of what [scan_port_range] returns is the
    ['open'] outcome of exactly the ports of the range that accept the
    connection, in ascending order. *)
Theorem open_ports_of_range {float : Type} (as_completed : Pool.scheduler)
    (net : Z -> Sock.world float) (host : string) (start_port end_port : Z)
    (callback : option PortScanner.callback_t) (timeout : float) (max_threads : Z) :
  Pool.fair as_completed ->
  0 < max_threads ->
  PortScanner.returns callback ->
  1 <= start_port <= end_port /\ end_port <= 65535 ->
  exists results,
    PortScanner.scan_port_range as_completed net host start_port end_port
                                callback timeout max_threads = Returned results
    /\ map PortScanner.port (PortReport.get_open_ports results)
       = filter (fun p => PortReport.accepts (net p) host p timeout)
                (HostRange.range start_port (end_port + 1))
    /\ Forall (fun r => PortScanner.status r = "open" /\ PortScanner.error r = None
                        /\ PortScanner.service r
                           = PortScanner.get PortScanner.COMMON_PORTS (PortScanner.port r)
                                             "Unknown")
              (PortReport.get_open_ports results).
Proof.
  intros Hfair Hmax Hcb Hrange.
  exists (map (fun p => PortScanner.scan_port (net p) host p timeout)
              (HostRange.range start_port (end_port + 1))).
  set (ports := HostRange.range start_port (end_port + 1)).
  assert (Hrun : PortScanner.scan_port_range as_completed net host start_port end_port
                   callback timeout max_threads
                 = Returned (map (fun p => PortScanner.scan_port (net p) host p timeout) ports)).
  { unfold PortScanner.scan_port_range, PortScanner.scan_port_range_run,
      PortScanner.scan_port_range_with. fold ports.
    rewrite (run_scan_ascending callback _ Hcb as_completed
               (fun p => Returned (PortScanner.scan_port (net p) host p timeout))
               ports max_threads Hfair Hmax).
    - reflexivity.
    - intros p. apply scan_port_port.
    - apply range_increasing. }
  split; [exact Hrun|]. split.
  - unfold PortReport.get_open_ports. clear Hrun.
    induction ports as [|p ports IH]; [reflexivity|].
    cbn [map filter]. rewrite scan_port_open_iff.
    destruct (PortReport.accepts (net p) host p timeout); cbn [map];
      rewrite IH; [rewrite scan_port_port|]; reflexivity.
  - apply Forall_forall. intros r Hr. unfold PortReport.get_open_ports in Hr.
    apply filter_In in Hr. destruct Hr as [Hin Hopen].
    apply in_map_iff in Hin. destruct Hin as [p [<- _]].
    split; [now apply String.eqb_eq|]. split; [|rewrite scan_port_port; apply scan_port_service].
    rewrite scan_port_open_iff in Hopen.
    unfold PortReport.accepts in Hopen.
    unfold PortScanner.scan_port. rewrite scan_port_run_cases. cbv zeta.
    destruct (net p Sock.SocketNew); [|discriminate].
    destruct (net p (Sock.SetTimeout timeout)); [|discriminate].
    destruct (net p (Sock.ConnectEx host p)); [|discriminate].
    destruct (net p Sock.Close); [|discriminate]. reflexivity.
Qed.
(** Ports 20 to 25 of a host where only port 22 accepts. *)
Lemma open_ports_of_range_witness :
  (Pool.fair Pool.lifo /\ 0 < 100 /\ PortScanner.returns None
   /\ (1 <= 20 <= 25 /\ 25 <= 65535))
  /\ exists results,
       PortScanner.scan_port_range Pool.lifo Samples.ssh_host "127.0.0.1" 20 25 None 1 100
       = Returned results
       /\ map PortScanner.port (PortReport.get_open_ports results) = [22].
Proof.
  assert (Hfair : Pool.fair Pool.lifo) by (intros A l; apply Permutation_rev).
  split; [repeat split; [exact Hfair|lia..]|].
  destruct (open_ports_of_range Pool.lifo Samples.ssh_host "127.0.0.1" 20 25 None 1 100
              Hfair ltac:(lia) I ltac:(lia)) as [results [H1 [H2 _]]].
  exists results. split; [exact H1|exact H2].
Defined.

(** ** The partitioner on arbitrary text *)

(** Whatever the text, the addresses listed are the dotted quads of at
    most 254 consecutive integers. *)
Lemma cidr_range_shape (cidr : string) :
  exists base n,
    0 <= n <= 254
    /\ HostRange.get_ip_range_from_cidr cidr
       = map (fun i => HostRange.format_ip (base + i)) (HostRange.range 1 (n + 1)).
Proof.
  unfold HostRange.get_ip_range_from_cidr, HostRange.get_ip_range_from_cidr_try.
  assert (Hnil : exists base n : Z, 0 <= n <= 254 /\
            @nil string = map (fun i => HostRange.format_ip (base + i))
                              (HostRange.range 1 (n + 1))).
  { exists 0, 0. split; [lia|reflexivity]. }
  destruct (HostRange.unpack2 _) as [np|]; cbn [bind]; [|exact Hnil].
  destruct (HostRange.int _) as [prefix|]; cbn [bind]; [|exact Hnil].
  destruct (HostRange.ints _) as [parts|]; cbn [bind]; [|exact Hnil].
  destruct (HostRange.item parts 0) as [p0|]; cbn [bind]; [|exact Hnil].
  destruct (HostRange.item parts 1) as [p1|]; cbn [bind]; [|exact Hnil].
  destruct (HostRange.item parts 2) as [p2|]; cbn [bind]; [|exact Hnil].
  destruct (HostRange.item parts 3) as [p3|]; cbn [bind]; [|exact Hnil].
  destruct (HostRange.lshift 1 _) as [one|]; cbn [bind]; [|exact Hnil].
  set (base := Z.shiftl p0 24 + Z.shiftl p1 16 + Z.shiftl p2 8 + p3).
  destruct (Z.gtb_spec (one - 2) 254) as [Hbig|Hsmall].
  - exists base, 254. split; [lia|reflexivity].
  - destruct (Z.le_gt_cases 0 (one - 2)) as [Hpos|Hneg].
    + exists base, (one - 2). split; [lia|reflexivity].
    + exists base, 0. split; [lia|]. now rewrite !range_nil by lia.
Qed.

(** X2.  For every input text, [get_ip_range_from_cidr] lists at most
    254 addresses and no address twice. *)
Theorem cidr_range_bounded_distinct (cidr : string) :
  (List.length (HostRange.get_ip_range_from_cidr cidr) <= 254)%nat
  /\ NoDup (HostRange.get_ip_range_from_cidr cidr).
Proof.
  destruct (cidr_range_shape cidr) as [base [n [Hn ->]]]. split.
  - rewrite length_map, range_length. lia.
  - assert (Hinc : NoDup (HostRange.range 1 (n + 1)))
      by (apply increasing_NoDup, range_increasing).
    assert (Hr : forall i, In i (HostRange.range 1 (n + 1)) -> 1 <= i <= 254).
    { intros i Hi. apply range_In_inv in Hi. lia. }
    revert Hinc Hr. generalize (HostRange.range 1 (n + 1)) as l.
    induction l as [|i l IH]; intros Hnd Hr; cbn [map]; constructor.
    + intros Hin. apply in_map_iff in Hin. destruct Hin as [j [Hf Hj]].
      apply format_ip_inj in Hf.
      assert (Hi : 1 <= i <= 254) by (apply Hr; now left).
      assert (Hj' : 1 <= j <= 254) by (apply Hr; now right).
      assert (i = j).
      { change (2 ^ 32) with 4294967296 in Hf. revert Hf.
        Z.div_mod_to_equations. lia. }
      subst j. now inversion Hnd.
    + apply IH; [now inversion Hnd|]. intros j Hj. apply Hr. now right.
Qed.
Lemma split_length (sep : ascii) (s : string) :
  List.length (PyStr.split sep s) = S (Samples.count sep s).
Proof.
  induction s as [|c s IH]; [reflexivity|].
  cbn [PyStr.split Samples.count].
  destruct (Ascii.eqb c sep).
  - cbn [List.length]. now rewrite IH.
  - destruct (PyStr.split sep s) as [|w ws] eqn:E; [discriminate IH|].
    cbn [List.length] in *. lia.
Qed.

(** A prefix of 31 or more leaves no host to list. *)
Lemma cidr_large_prefix_empty (network prefix_text : string) (p : Z) :
  PyStr.mem "/" network = false -> PyStr.mem "/" prefix_text = false ->
  PyStr.int prefix_text = Some p -> 31 <= p ->
  HostRange.get_ip_range_from_cidr (network ++ "/" ++ prefix_text) = [].
Proof.
  intros Hn Hp Hint Hge.
  unfold HostRange.get_ip_range_from_cidr, HostRange.get_ip_range_from_cidr_try.
  change ("/" ++ prefix_text)%string with (String "/" prefix_text).
  rewrite (split_append "/" _ _ Hn), (split_whole "/" _ Hp).
  cbn [HostRange.unpack2 bind fst snd]. unfold HostRange.int at 1. rewrite Hint.
  cbn [bind].
  destruct (HostRange.ints _) as [parts|]; cbn [bind]; [|reflexivity].
  destruct (HostRange.item parts 0) as [p0|]; cbn [bind]; [|reflexivity].
  destruct (HostRange.item parts 1) as [p1|]; cbn [bind]; [|reflexivity].
  destruct (HostRange.item parts 2) as [p2|]; cbn [bind]; [|reflexivity].
  destruct (HostRange.item parts 3) as [p3|]; cbn [bind]; [|reflexivity].
  unfold HostRange.lshift. destruct (Z.ltb_spec (32 - p) 0); [reflexivity|].
  destruct (Z.leb_spec (2 ^ 63) (32 - p)); [reflexivity|].
  cbn [bind]. rewrite Z.shiftl_1_l.
  assert (Hpow : 2 ^ (32 - p) <= 2).
  { change 2 with (2 ^ 1) at 2. apply Z.pow_le_mono_r; lia. }
  destruct (Z.gtb_spec (2 ^ (32 - p) - 2) 254); [lia|].
  now rewrite range_nil by lia.
Qed.

(** X3.  A text in which the number of slashes is not one, and a text
    [network/prefix] whose prefix reads as an integer of 31 or more,
    yield no address; and whenever the partitioner yields no address,
    [discover_hosts] scans nothing and reports 'Invalid network range'. *)
Theorem cidr_rejections (cidr : string) :
  (Samples.count "/" cidr <> 1%nat -> HostRange.get_ip_range_from_cidr cidr = [])
  /\ (forall network prefix_text p,
        cidr = (network ++ "/" ++ prefix_text)%string ->
        PyStr.mem "/" network = false -> PyStr.mem "/" prefix_text = false ->
        PyStr.int prefix_text = Some p -> 31 <= p ->
        HostRange.get_ip_range_from_cidr cidr = [])
  /\ (HostRange.get_ip_range_from_cidr cidr = [] ->
      forall as_completed env callback max_threads,
        HostDiscovery.discover_hosts as_completed env (Some cidr) callback max_threads
        = Returned {| HostDiscovery.network := Some cidr; HostDiscovery.hosts := [];
                      HostDiscovery.total_scanned := 0; HostDiscovery.total_found := 0;
                      HostDiscovery.error := Some "Invalid network range" |}).
Proof.
  split; [|split].
  - intros Hcount.
    unfold HostRange.get_ip_range_from_cidr, HostRange.get_ip_range_from_cidr_try.
    pose proof (split_length "/" cidr) as Hlen.
    destruct (PyStr.split "/" cidr) as [|a [|b [|c l]]]; try reflexivity.
    cbn [List.length] in Hlen. exfalso. apply Hcount. lia.
  - intros network prefix_text p -> Hn Hp Hint Hge.
    now apply (cidr_large_prefix_empty network prefix_text p).
  - intros Hnil as_completed env callback max_threads.
    now apply invalid_range_not_probed.
Qed.

(** A text without slash, and the prefix 40. *)
Lemma cidr_rejections_witness :
  (Samples.count "/" "10.0.0.0" <> 1%nat
   /\ PyStr.int "40" = Some 40 /\ 31 <= 40)
  /\ HostRange.get_ip_range_from_cidr "10.0.0.0" = []
  /\ HostDiscovery.discover_hosts Pool.fifo (HostDiscovery.quiet_network ["10.0.0.1"])
       (Some "10.0.0.0/40") None 50
     = Returned {| HostDiscovery.network := Some "10.0.0.0/40"; HostDiscovery.hosts := [];
                   HostDiscovery.total_scanned := 0; HostDiscovery.total_found := 0;
                   HostDiscovery.error := Some "Invalid network range" |}.
Proof.
  split; [repeat split; [discriminate|lia]|]. split.
  - exact (proj1 (cidr_rejections "10.0.0.0") ltac:(discriminate)).
  - apply (proj2 (proj2 (cidr_rejections "10.0.0.0/40"))).
    exact (proj1 (proj2 (cidr_rejections "10.0.0.0/40")) "10.0.0.0" "40" 40
             eq_refl eq_refl eq_refl eq_refl ltac:(lia)).
Defined.
(** ** More on the single port probe *)

(** X4.  In every execution the outcome of [scan_port] carries an error
    message exactly when its status is neither ['open'] nor ['closed'];
    a ['filtered'] outcome carries 'Connection timed out'; and the
    service label is the table's name of the port, or 'Unknown' for a
    port the table does not have, whatever the network does. *)
Theorem scan_port_error_field {float : Type} (w : Sock.world float)
    (host : string) (port : Z) (timeout : float) :
  let r := PortScanner.scan_port w host port timeout in
  (PortScanner.error r = None
   <-> PortScanner.status r = "open" \/ PortScanner.status r = "closed")
  /\ (PortScanner.status r = "filtered"
      -> PortScanner.error r = Some "Connection timed out")
  /\ PortScanner.service r = PortScanner.get PortScanner.COMMON_PORTS port "Unknown"
  /\ (~ In port (map fst PortScanner.COMMON_PORTS) -> PortScanner.service r = "Unknown").
Proof.
  intros r. split; [|split; [|split]].
  - subst r. unfold PortScanner.scan_port. rewrite scan_port_run_cases. cbv zeta.
    destruct (w Sock.SocketNew) as [?|[| |?]];
      try (cbn; split; [discriminate|intros [H|H]; discriminate H]).
    destruct (w (Sock.SetTimeout timeout)) as [?|[| |?]];
      try (cbn; split; [discriminate|intros [H|H]; discriminate H]).
    destruct (w (Sock.ConnectEx host port)) as [code|[| |?]];
      try (cbn; split; [discriminate|intros [H|H]; discriminate H]).
    destruct (w Sock.Close) as [?|[| |?]];
      try (cbn; split; [discriminate|intros [H|H]; discriminate H]).
    cbn. destruct (code =? 0); split; auto.
  - subst r. unfold PortScanner.scan_port. rewrite scan_port_run_cases. cbv zeta.
    destruct (w Sock.SocketNew) as [?|[| |?]]; cbn; try discriminate; auto.
    destruct (w (Sock.SetTimeout timeout)) as [?|[| |?]]; cbn; try discriminate; auto.
    destruct (w (Sock.ConnectEx host port)) as [code|[| |?]]; cbn; try discriminate; auto.
    destruct (w Sock.Close) as [?|[| |?]]; cbn; try discriminate; auto.
    destruct (code =? 0); discriminate.
  - apply scan_port_service.
  - intros Hout. subst r. rewrite scan_port_service.
    clear -Hout. induction PortScanner.COMMON_PORTS as [|[k v] l IH]; [reflexivity|].
    cbn [PortScanner.get]. destruct (Z.eqb_spec k port) as [->|_].
    + exfalso. apply Hout. now left.
    + apply IH. intros Hin. apply Hout. now right.
Qed.

(** Port 9999 of a host that refuses. *)
Lemma scan_port_error_field_witness :
  ~ In 9999 (map fst PortScanner.COMMON_PORTS)
  /\ PortScanner.service (PortScanner.scan_port (float := Z) PortScanner.refusing
                            "example.org" 9999 1) = "Unknown"
  /\ PortScanner.error (PortScanner.scan_port (float := Z) PortScanner.refusing
                          "example.org" 9999 1) = None.
Proof.
  assert (Hout : ~ In 9999 (map fst PortScanner.COMMON_PORTS)).
  { cbn. intros H. repeat (destruct H as [H|H]; [discriminate H|]). exact H. }
  split; [exact Hout|].
  pose proof (scan_port_error_field (float := Z) PortScanner.refusing "example.org" 9999 1)
    as [H1 [_ [_ H4]]].
  split; [exact (H4 Hout)|]. apply H1. right. reflexivity.
Defined.

(** ** Detecting the local range *)

Lemma octets_of_base (a b c d : Z) :
  0 <= a <= 255 -> 0 <= b <= 255 -> 0 <= c <= 255 -> 0 <= d <= 255 ->
  Quad.octets (HostRange.base_of a b c d) = [a; b; c; d].
Proof.
  intros Ha Hb Hc Hd. rewrite octets_value. unfold HostRange.base_of.
  rewrite !Z.shiftl_mul_pow2 by lia.
  change (2 ^ 24) with 16777216. change (2 ^ 16) with 65536. change (2 ^ 8) with 256.
  set (x := a * 16777216 + b * 65536 + c * 256 + d).
  assert (E3 : x / 16777216 = a) by (symmetry; apply (Z.div_unique x 16777216 a (b * 65536 + c * 256 + d)); unfold x; lia).
  assert (E2 : x / 65536 = a * 256 + b) by (symmetry; apply (Z.div_unique x 65536 (a * 256 + b) (c * 256 + d)); unfold x; lia).
  assert (E1 : x / 256 = a * 65536 + b * 256 + c) by (symmetry; apply (Z.div_unique x 256 (a * 65536 + b * 256 + c) d); unfold x; lia).
  rewrite E3, E2, E1.
  f_equal; [|f_equal; [|f_equal; [|f_equal]]].
  - apply Z.mod_small. lia.
  - symmetry. apply (Z.mod_unique (a * 256 + b) 256 a b); lia.
  - symmetry. apply (Z.mod_unique (a * 65536 + b * 256 + c) 256 (a * 256 + b) c); lia.
  - symmetry. apply (Z.mod_unique x 256 (a * 65536 + b * 256 + c) d); unfold x; lia.
Qed.

Lemma format_ip_base (a b c d : Z) :
  0 <= a <= 255 -> 0 <= b <= 255 -> 0 <= c <= 255 -> 0 <= d <= 255 ->
  HostRange.format_ip (HostRange.base_of a b c d) = Quad.dotted a b c d.
Proof.
  intros Ha Hb Hc Hd.
  pose proof (octets_of_base a b c d Ha Hb Hc Hd) as E. unfold Quad.octets in E.
  assert (E1 : Z.land (Z.shiftr (HostRange.base_of a b c d) 24) 255 = a)
    by exact (f_equal (fun l => nth 0 l 0) E).
  assert (E2 : Z.land (Z.shiftr (HostRange.base_of a b c d) 16) 255 = b)
    by exact (f_equal (fun l => nth 1 l 0) E).
  assert (E3 : Z.land (Z.shiftr (HostRange.base_of a b c d) 8) 255 = c)
    by exact (f_equal (fun l => nth 2 l 0) E).
  assert (E4 : Z.land (HostRange.base_of a b c d) 255 = d)
    by exact (f_equal (fun l => nth 3 l 0) E).
  unfold HostRange.format_ip, Quad.dotted. rewrite E1, E2, E3, E4. reflexivity.
Qed.

(** X6.  When the machine's own address is [a.b.c.d],
    [get_local_network_range] gives ["a.b.c.0/24"], and the partitioner
    turns that into the 254 addresses [a.b.c.1] to [a.b.c.254]; the
    machine's own address is among them unless [d] is 0 or 255.  When
    the socket calls raise, or the address has fewer than three dotted
    fields, the result is [None]. *)
Theorem local_range_is_slash24 (a b c d : Z) :
  0 <= a <= 255 -> 0 <= b <= 255 -> 0 <= c <= 255 -> 0 <= d <= 255 ->
  LocalRange.get_local_network_range (Returned (Quad.dotted a b c d))
  = Some (HostRange.cidr_text a b c 0 24)
  /\ HostRange.get_ip_range_from_cidr (HostRange.cidr_text a b c 0 24)
     = map (fun i => Quad.dotted a b c i) (HostRange.range 1 255)
  /\ (1 <= d <= 254 ->
      In (Quad.dotted a b c d)
         (HostRange.get_ip_range_from_cidr (HostRange.cidr_text a b c 0 24)))
  /\ (forall msg, LocalRange.get_local_network_range (Raised msg) = None)
  /\ (forall s, (Samples.count "." s < 2)%nat ->
                LocalRange.get_local_network_range (Returned s) = None).
Proof.
  intros Ha Hb Hc Hd.
  assert (Hlist : HostRange.get_ip_range_from_cidr (HostRange.cidr_text a b c 0 24)
                  = map (fun i => Quad.dotted a b c i) (HostRange.range 1 255)).
  { unfold HostRange.get_ip_range_from_cidr.
    rewrite (cidr_text_try a b c 0 24) by lia.
    change (Z.min (2 ^ (32 - 24) - 2) 254 + 1) with 255.
    apply map_ext_in. intros i Hi. apply range_In_inv in Hi.
    replace (HostRange.base_of a b c 0 + i) with (HostRange.base_of a b c i)
      by (unfold HostRange.base_of; lia).
    apply format_ip_base; lia. }
  split; [|split; [exact Hlist|split; [|split]]].
  - unfold LocalRange.get_local_network_range, LocalRange.get_local_network_range_try.
    cbn [bind]. rewrite (dotted_split a b c d Ha Hb Hc Hd).
    cbn [LocalRange.item nth_error bind].
    unfold HostRange.cidr_text, Quad.dotted. f_equal.
    change (PyStr.str 0) with "0"%string. change (PyStr.str 24) with "24"%string.
    repeat rewrite string_append_assoc. reflexivity.
  - intros Hd'. rewrite Hlist. apply in_map_iff. exists d. split; [reflexivity|].
    apply range_In. lia.
  - reflexivity.
  - intros s Hs.
    unfold LocalRange.get_local_network_range, LocalRange.get_local_network_range_try.
    cbn [bind]. pose proof (split_length "." s) as Hlen.
    destruct (PyStr.split "." s) as [|p0 [|p1 [|p2 l]]]; try reflexivity.
    cbn [List.length] in Hlen. lia.
Qed.

(** The address 192.168.1.37. *)
Lemma local_range_is_slash24_witness :
  (0 <= 192 <= 255 /\ 0 <= 168 <= 255 /\ 0 <= 1 <= 255 /\ 0 <= 37 <= 255)
  /\ LocalRange.get_local_network_range (Returned "192.168.1.37")
     = Some "192.168.1.0/24".
Proof.
  split; [lia|].
  exact (proj1 (local_range_is_slash24 192 168 1 37
                  ltac:(lia) ltac:(lia) ltac:(lia) ltac:(lia))).
Defined.
(** ** What a discovery reports *)

Lemma Permutation_filter' {A : Type} (f : A -> bool) (l l' : list A) :
  Permutation l l' -> Permutation (filter f l) (filter f l').
Proof.
  induction 1 as [|x l l' HP IH|x y l|l l' l'' H1 IH1 H2 IH2]; cbn [filter].
  - constructor.
  - destruct (f x); [now constructor|exact IH].
  - destruct (f x), (f y); try reflexivity. apply perm_swap.
  - now transitivity (filter f l').
Qed.

Section DiscoverReport.
Variable env : HostDiscovery.collaborators.
Variable callback : option HostDiscovery.callback_t.
Variable total : Z.

Let up (entry : completion bool * string) : bool :=
  match fst entry with
  | Returned true => true
  | _ => false
  end.

(** The loop adds one entry per completed future whose ping answered,
    in completion order. *)
Lemma collect_hosts (entries : list (completion bool * string))
    (result : HostDiscovery.discovery) (scanned : Z) :
  let result' := fst (fold_left (HostDiscovery.collect env callback total) entries
                                (result, scanned)) in
  HostDiscovery.hosts result'
  = (HostDiscovery.hosts result
     ++ map (fun entry => LocalRange.host_of env (snd entry)) (filter up entries))%list.
Proof.
  revert result scanned.
  induction entries as [|[future ip] entries IH]; intros result scanned.
  - cbn. now rewrite app_nil_r.
  - cbn [fold_left].
    destruct (HostDiscovery.collect env callback total (result, scanned) (future, ip))
      as [result1 scanned1] eqn:Estep.
    specialize (IH result1 scanned1). cbv zeta in IH |- *. rewrite IH.
    assert (E : HostDiscovery.hosts result1
                = (HostDiscovery.hosts result
                   ++ (if up (future, ip) then [LocalRange.host_of env ip] else []))%list).
    { unfold HostDiscovery.collect in Estep. unfold up. cbn [fst].
      destruct future as [[|]|msg].
      - destruct callback as [cb|];
          [destruct (cb (scanned + 1) total (ip, true))|];
          injection Estep as <- _; reflexivity.
      - destruct callback as [cb|];
          [destruct (cb (scanned + 1) total (ip, false))|];
          injection Estep as <- _; cbn; now rewrite app_nil_r.
      - injection Estep as <- _. now rewrite app_nil_r. }
    rewrite E. cbn [filter]. destruct (up (future, ip)); cbn [map snd].
    + now rewrite <- app_assoc.
    + now rewrite app_nil_r.
Qed.
End DiscoverReport.

Lemma answering_entries (env : HostDiscovery.collaborators) (ips : list string) :
  map (fun entry : completion bool * string => LocalRange.host_of env (snd entry))
      (filter (fun entry => match fst entry with Returned true => true | _ => false end)
              (map (fun ip => (HostDiscovery.ping_host_quick env ip, ip)) ips))
  = map (LocalRange.host_of env) (LocalRange.answering env ips).
Proof.
  unfold LocalRange.answering.
  induction ips as [|ip ips IH]; [reflexivity|].
  cbn [map filter fst snd].
  destruct (HostDiscovery.ping_host_quick env ip) as [[|]|msg]; cbn [map snd];
    now rewrite IH.
Qed.

(** The discovery on a text the partitioner accepts, with a pool that
    can be made. *)
Lemma discover_hosts_accepted (as_completed : Pool.scheduler)
    (env : HostDiscovery.collaborators) (cidr : string)
    (callback : option HostDiscovery.callback_t) (max_threads : Z) :
  Pool.fair as_completed ->
  0 < max_threads ->
  HostRange.get_ip_range_from_cidr cidr <> [] ->
  let ip_list := HostRange.get_ip_range_from_cidr cidr in
  exists r,
    HostDiscovery.discover_hosts as_completed env (Some cidr) callback max_threads
    = Returned r
    /\ HostDiscovery.error r = None
    /\ HostDiscovery.network r = Some cidr
    /\ HostDiscovery.total_scanned r = Z.of_nat (List.length ip_list)
    /\ Permutation (map (LocalRange.host_of env) (LocalRange.answering env ip_list))
                   (HostDiscovery.hosts r).
Proof.
  intros Hfair Hmax Hne ip_list.
  unfold HostDiscovery.discover_hosts, HostDiscovery.discover_hosts_try.
  fold ip_list.
  assert (Hmem : forall ip, In ip ip_list ->
            In ip (HostRange.get_ip_range_from_cidr cidr)) by (intros ip H; exact H).
  assert (Hne' : ip_list <> []) by exact Hne.
  clearbody ip_list.
  destruct ip_list as [|ip0 ips]; [contradiction|].
  unfold Pool.ThreadPoolExecutor.
  destruct (Z.leb_spec max_threads 0) as [Hle|_]; [lia|].
  set (futures := map (fun ip => (HostDiscovery.ping_host_quick env ip, ip)) (ip0 :: ips)).
  set (total := Z.of_nat (List.length (ip0 :: ips))).
  set (start := HostDiscovery.set_total_scanned total
                  (HostDiscovery.set_network (Some cidr)
                     {| HostDiscovery.network := Some cidr; HostDiscovery.hosts := [];
                        HostDiscovery.total_scanned := 0; HostDiscovery.total_found := 0;
                        HostDiscovery.error := None |})).
  pose proof (collect_invariant env callback total (as_completed _ futures) start 0) as Hinv.
  pose proof (collect_hosts env callback total (as_completed _ futures) start 0) as Hhosts.
  destruct (fold_left (HostDiscovery.collect env callback total)
                      (as_completed _ futures) (start, 0)) as [result1 scanned1].
  cbv zeta in Hinv, Hhosts. cbn [fst] in Hinv, Hhosts.
  destruct Hinv as [_ [_ [I3 [I4 I5]]]].
  change (HostDiscovery.hosts start) with (@nil HostDiscovery.host_info) in Hhosts.
  change (HostDiscovery.total_scanned start) with total in I3.
  change (HostDiscovery.error start) with (@None string) in I4.
  change (HostDiscovery.network start) with (Some cidr) in I5.
  cbn [app] in Hhosts.
  assert (Hperm : Permutation
                    (map (LocalRange.host_of env) (LocalRange.answering env (ip0 :: ips)))
                    (HostDiscovery.hosts result1)).
  { rewrite Hhosts, <- answering_entries. fold futures.
    apply Permutation_map, Permutation_filter', Hfair. }
  assert (Hvalid : forall h, In h (HostDiscovery.hosts result1) ->
            0 <= HostDiscovery.ip_value h < 2 ^ 32
            /\ HostDiscovery.ip h = HostRange.format_ip (HostDiscovery.ip_value h)).
  { intros h Hin. apply (Permutation_in _ (Permutation_sym Hperm)) in Hin.
    apply in_map_iff in Hin. destruct Hin as [ip [<- Hip]].
    unfold LocalRange.answering in Hip. apply filter_In in Hip.
    destruct Hip as [Hip _].
    destruct (cidr_addresses_formatted _ _ (Hmem _ Hip)) as [x [Hx Hf]].
    rewrite (ip_value_format (LocalRange.host_of env ip) x Hx Hf). now split. }
  destruct (sort_hosts_valid HostDiscovery.ip_value _ Hvalid)
    as [ranked [Hsort [Hranked _]]].
  rewrite Hsort.
  exists (HostDiscovery.set_hosts ranked result1).
  cbn [HostDiscovery.set_hosts HostDiscovery.error HostDiscovery.network
       HostDiscovery.total_scanned HostDiscovery.hosts].
  split; [reflexivity|]. split; [exact I4|]. split; [exact I5|].
  split; [exact I3|]. now rewrite Hperm.
Qed.

Lemma discover_hosts_counts (as_completed : Pool.scheduler)
    (env : HostDiscovery.collaborators) (network_range : option string)
    (callback : option HostDiscovery.callback_t) (max_threads : Z)
    (r : HostDiscovery.discovery) :
  HostDiscovery.discover_hosts as_completed env network_range callback max_threads
  = Returned r ->
  HostDiscovery.total_found r = Z.of_nat (List.length (HostDiscovery.hosts r)).
Proof.
  pose proof (discover_try_invariant as_completed env network_range callback max_threads
                {| HostDiscovery.network := network_range; HostDiscovery.hosts := [];
                   HostDiscovery.total_scanned := 0; HostDiscovery.total_found := 0;
                   HostDiscovery.error := None |} eq_refl eq_refl) as [Hinv _].
  unfold HostDiscovery.discover_hosts.
  destruct (HostDiscovery.discover_hosts_try _ _ _ _ _ _) as [[u|msg] result];
    cbn [snd] in Hinv; intros H; injection H as <-; exact Hinv.
Qed.

(** X7.  For a text the partitioner accepts, under every fair
    completion order and with a pool that can be made, [discover_hosts]
    ends without error, has scanned as many addresses as the
    partitioner lists, and reports exactly the addresses whose ping
    answered, each once, with the name and hardware address looked up
    for it, in ascending order of address; ['total_found'] is their
    number.  [quick_discover] returns those addresses. *)
Theorem discover_hosts_reports_answering (as_completed : Pool.scheduler)
    (env : HostDiscovery.collaborators) (cidr : string)
    (callback : option HostDiscovery.callback_t) (max_threads : Z) :
  Pool.fair as_completed ->
  0 < max_threads ->
  HostRange.get_ip_range_from_cidr cidr <> [] ->
  let ip_list := HostRange.get_ip_range_from_cidr cidr in
  (exists r,
     HostDiscovery.discover_hosts as_completed env (Some cidr) callback max_threads
     = Returned r
     /\ HostDiscovery.error r = None
     /\ HostDiscovery.network r = Some cidr
     /\ HostDiscovery.total_scanned r = Z.of_nat (List.length ip_list)
     /\ Permutation (map (LocalRange.host_of env) (LocalRange.answering env ip_list))
                    (HostDiscovery.hosts r)
     /\ StronglySorted
          (fun a b => HostDiscovery.ip_value a <= HostDiscovery.ip_value b)
          (HostDiscovery.hosts r)
     /\ HostDiscovery.total_found r
        = Z.of_nat (List.length (LocalRange.answering env ip_list)))
  /\ exists ips,
       LocalRange.quick_discover as_completed env (Some cidr) = Returned ips
       /\ Permutation (LocalRange.answering env ip_list) ips.
Proof.
  intros Hfair Hmax Hne ip_list. split.
  - destruct (discover_hosts_accepted as_completed env cidr callback max_threads
                Hfair Hmax Hne) as [r [H1 [H2 [H3 [H4 H5]]]]].
    exists r. repeat split; try assumption.
    + exact (discover_hosts_ranked as_completed env (Some cidr) callback max_threads r
               Hfair H1 H2).
    + rewrite (discover_hosts_counts _ _ _ _ _ _ H1).
      rewrite <- (Permutation_length H5). now rewrite length_map.
  - destruct (discover_hosts_accepted as_completed env cidr None 50
                Hfair ltac:(lia) Hne) as [r [H1 [_ [_ [_ H5]]]]].
    exists (map HostDiscovery.ip (HostDiscovery.hosts r)).
    unfold LocalRange.quick_discover. rewrite H1. split; [reflexivity|].
    rewrite <- H5, map_map. cbn [LocalRange.host_of HostDiscovery.ip].
    now rewrite map_id.
Qed.

(** The block 10.0.0.0/30 with only 10.0.0.2 answering. *)
Lemma discover_hosts_reports_answering_witness :
  (Pool.fair Pool.lifo /\ 0 < 50
   /\ HostRange.get_ip_range_from_cidr "10.0.0.0/30" <> [])
  /\ exists ips,
       LocalRange.quick_discover Pool.lifo (HostDiscovery.quiet_network ["10.0.0.2"])
         (Some "10.0.0.0/30") = Returned ips
       /\ Permutation
            (LocalRange.answering (HostDiscovery.quiet_network ["10.0.0.2"])
               (HostRange.get_ip_range_from_cidr "10.0.0.0/30")) ips.
Proof.
  assert (Hfair : Pool.fair Pool.lifo) by (intros A l; apply Permutation_rev).
  assert (Hne : HostRange.get_ip_range_from_cidr "10.0.0.0/30" <> []) by discriminate.
  split; [split; [exact Hfair|split; [lia|exact Hne]]|].
  exact (proj2 (discover_hosts_reports_answering Pool.lifo
                  (HostDiscovery.quiet_network ["10.0.0.2"]) "10.0.0.0/30" None 50
                  Hfair ltac:(lia) Hne)).
Defined.

(** X8.  Called without a range, [discover_hosts] behaves exactly as if
    it were called with the range its detection gives; when the
    detection gives nothing it scans nothing and reports 'Could not
    detect local network'. *)
Theorem discover_hosts_auto_detect (as_completed : Pool.scheduler)
    (env : HostDiscovery.collaborators)
    (callback : option HostDiscovery.callback_t) (max_threads : Z) :
  (forall network, HostDiscovery.get_local_network_range env = Some network ->
     HostDiscovery.discover_hosts as_completed env None callback max_threads
     = HostDiscovery.discover_hosts as_completed env (Some network) callback max_threads)
  /\ (HostDiscovery.get_local_network_range env = None ->
      HostDiscovery.discover_hosts as_completed env None callback max_threads
      = Returned {| HostDiscovery.network := None; HostDiscovery.hosts := [];
                    HostDiscovery.total_scanned := 0; HostDiscovery.total_found := 0;
                    HostDiscovery.error := Some "Could not detect local network" |}).
Proof.
  split.
  - intros network Hdet.
    unfold HostDiscovery.discover_hosts, HostDiscovery.discover_hosts_try.
    rewrite Hdet. reflexivity.
  - intros Hdet.
    unfold HostDiscovery.discover_hosts, HostDiscovery.discover_hosts_try.
    rewrite Hdet. reflexivity.
Qed.

(** A machine that cannot tell its own address. *)
Lemma discover_hosts_auto_detect_witness :
  HostDiscovery.get_local_network_range (HostDiscovery.quiet_network []) = None
  /\ HostDiscovery.discover_hosts Pool.fifo (HostDiscovery.quiet_network []) None None 50
     = Returned {| HostDiscovery.network := None; HostDiscovery.hosts := [];
                   HostDiscovery.total_scanned := 0; HostDiscovery.total_found := 0;
                   HostDiscovery.error := Some "Could not detect local network" |}.
Proof.
  split; [reflexivity|].
  exact (proj2 (discover_hosts_auto_detect Pool.fifo (HostDiscovery.quiet_network [])
                  None 50) eq_refl).
Defined.
(** ** The probes of [network_utils.py] *)

Section LegacyFacts.
Context {float : Type}.
Variable w : Sock.world float.
Variables (ip : string) (port : Z) (timeout : float).

(** The probe in terms of the answers to its four calls. *)
Lemma legacy_scan_port_cases :
  LegacyScan.scan_port w ip port timeout
  = if PortReport.accepts w ip port timeout
    then (port, true, PortScanner.get LegacyScan.COMMON_PORTS port "Unknown")
    else match w Sock.SocketNew, w (Sock.SetTimeout timeout),
               w (Sock.ConnectEx ip port), w Sock.Close with
         | Sock.Ok _, Sock.Ok _, Sock.Ok _, Sock.Ok _ =>
             (port, false, PortScanner.get LegacyScan.COMMON_PORTS port "Unknown")
         | _, _, _, _ => (port, false, "Error")
         end.
Proof.
  unfold LegacyScan.scan_port, LegacyScan.scan_port_run, Sock.try_except,
    LegacyScan.scan_port_try, PortReport.accepts, Sock.bind, Sock.do_call, Sock.ret.
  destruct (w Sock.SocketNew) as [?|?]; [|reflexivity].
  destruct (w (Sock.SetTimeout timeout)) as [?|?]; [|reflexivity].
  destruct (w (Sock.ConnectEx ip port)) as [code|?]; [|reflexivity].
  destruct (w Sock.Close) as [?|?]; [|destruct (code =? 0); reflexivity].
  cbn. destruct (code =? 0); reflexivity.
Qed.
End LegacyFacts.

(** X9.  The probe of [network_utils.py], in every world, answers
    exactly this triple: the port it was given; [is_open = True] when
    every socket call returned and [connect_ex] returned 0, [False]
    otherwise; and as service the name of its own table (or 'Unknown')
    when every socket call returned, whatever [connect_ex] returned,
    and 'Error' when a socket call raised.  It agrees with the probe of
    [port_scanner.py] on whether a port is open: [is_open] is [True]
    exactly when that probe answers the status ['open']. *)
Theorem probes_agree_on_open {float : Type} (w : Sock.world float)
    (ip : string) (port : Z) (timeout : float) :
  LegacyScan.scan_port w ip port timeout
  = (port, PortReport.accepts w ip port timeout,
     if all_return w ip port timeout
     then PortScanner.get LegacyScan.COMMON_PORTS port "Unknown"
     else "Error")
  /\ (PortReport.accepts w ip port timeout = true
      <-> PortScanner.status (PortScanner.scan_port w ip port timeout) = "open")
  /\ (PortReport.accepts w ip port timeout = true -> all_return w ip port timeout = true).
Proof.
  rewrite legacy_scan_port_cases.
  pose proof (scan_port_open_iff w ip port timeout) as Hopen.
  unfold all_return, PortReport.accepts in *.
  destruct (w Sock.SocketNew), (w (Sock.SetTimeout timeout)),
    (w (Sock.ConnectEx ip port)) as [code|?], (w Sock.Close);
    try (apply String.eqb_neq in Hopen;
         repeat split; auto; try discriminate; intros H; contradiction).
  destruct (code =? 0).
  - apply String.eqb_eq in Hopen. repeat split; auto.
  - apply String.eqb_neq in Hopen.
    repeat split; auto; try discriminate; intros H; contradiction.
Qed.

(** The answers of the two probes side by side: a host that accepts,
    one that refuses, and one whose name does not resolve. *)
Example legacy_scan_port_answers :
  LegacyScan.scan_port (float := Z) PortScanner.accepting "10.0.0.1" 22 1 = (22, true, "SSH")
  /\ LegacyScan.scan_port (float := Z) PortScanner.refusing "10.0.0.1" 22 1
     = (22, false, "SSH")
  /\ LegacyScan.scan_port (float := Z) PortScanner.unresolved "no-such-host" 22 1
     = (22, false, "Error").
Proof. repeat split. Qed.

Lemma StronglySorted_filter {A : Type} (R : A -> A -> Prop) (f : A -> bool) (l : list A) :
  StronglySorted R l -> StronglySorted R (filter f l).
Proof.
  induction 1 as [|x l Hs IH Hx]; cbn [filter]; [constructor|].
  destruct (f x); [|exact IH]. constructor; [exact IH|].
  apply Forall_forall. intros y Hy. apply filter_In in Hy.
  rewrite Forall_forall in Hx. now apply Hx.
Qed.

Section LegacyRange.
Context {float : Type}.
Variable net : Z -> Sock.world float.
Variable ip : string.
Variable default_timeout : float.
Variable callback : option LegacyScan.callback_t.
Variable total : Z.

Let open (p : Z) : bool := PortReport.accepts (net p) ip p default_timeout.
Let entry (p : Z) : Z * string := (p, PortScanner.get LegacyScan.COMMON_PORTS p "Unknown").

(** The workers, one after the other under the lock: each adds one to
    the counter, the open ports are appended in that order, and the
    callback, when there is one, is called once per port with the
    counter as it then stands. *)
Lemma scan_workers (ports : list Z) (st : LegacyScan.shared) :
  let st' := fold_left (LegacyScan.scan_worker net ip default_timeout callback total)
                       ports st in
  LegacyScan.scanned_count st' = LegacyScan.scanned_count st + Z.of_nat (List.length ports)
  /\ LegacyScan.open_ports st'
     = (LegacyScan.open_ports st ++ map entry (filter open ports))%list
  /\ map (fun n => (fst (fst (fst n)), snd (fst (fst n)))) (LegacyScan.notified st')
     = (map (fun n => (fst (fst (fst n)), snd (fst (fst n)))) (LegacyScan.notified st)
        ++ match callback with
           | Some _ =>
               map (fun i => (i, total))
                   (HostRange.range (LegacyScan.scanned_count st + 1)
                      (LegacyScan.scanned_count st + Z.of_nat (List.length ports) + 1))
           | None => []
           end)%list.
Proof.
  revert st. induction ports as [|p ports IH]; intros st.
  - cbn [fold_left List.length filter map]. split; [lia|].
    split; [now rewrite app_nil_r|].
    destruct callback; [rewrite range_nil by lia|]; cbn [map]; now rewrite app_nil_r.
  - cbn [fold_left].
    set (st1 := LegacyScan.scan_worker net ip default_timeout callback total st p).
    assert (Hstep :
      LegacyScan.scanned_count st1 = LegacyScan.scanned_count st + 1
      /\ LegacyScan.open_ports st1
         = (LegacyScan.open_ports st ++ if open p then [entry p] else [])%list
      /\ LegacyScan.notified st1
         = (LegacyScan.notified st
            ++ match callback with
               | Some _ => [(LegacyScan.scanned_count st + 1, total, open p,
                             if open p then snd (entry p) else ""%string)]
               | None => []
               end)%list).
    { unfold st1, LegacyScan.scan_worker. rewrite legacy_scan_port_cases. fold (open p).
      destruct (open p).
      - destruct callback as [cb|]; [destruct (cb _ _ _ _)|]; cbn;
          rewrite ?app_nil_r; auto.
      - assert (E : exists service,
                  match net p Sock.SocketNew, net p (Sock.SetTimeout default_timeout),
                        net p (Sock.ConnectEx ip p), net p Sock.Close with
                  | Sock.Ok _, Sock.Ok _, Sock.Ok _, Sock.Ok _ =>
                      (p, false, PortScanner.get LegacyScan.COMMON_PORTS p "Unknown")
                  | _, _, _, _ => (p, false, "Error"%string)
                  end = (p, false, service)).
        { destruct (net p Sock.SocketNew), (net p (Sock.SetTimeout default_timeout)),
            (net p (Sock.ConnectEx ip p)), (net p Sock.Close); eexists; reflexivity. }
        destruct E as [service ->].
        destruct callback as [cb|]; [destruct (cb _ _ _ _)|]; cbn;
          rewrite ?app_nil_r; auto. }
    destruct Hstep as [S1 [S2 S3]].
    specialize (IH st1). cbv zeta in IH |- *. destruct IH as [I1 [I2 I3]].
    split; [rewrite I1, S1; cbn [List.length]; lia|]. split.
    + rewrite I2, S2. cbn [filter]. destruct (open p); cbn [map].
      * now rewrite <- app_assoc.
      * now rewrite app_nil_r.
    + rewrite I3, S3, S1. rewrite map_app, <- app_assoc. f_equal.
      destruct callback as [cb|]; [|reflexivity].
      cbn [map fst snd app List.length].
      unfold HostRange.range.
      replace (Z.to_nat (LegacyScan.scanned_count st
                         + Z.of_nat (S (List.length ports)) + 1
                         - (LegacyScan.scanned_count st + 1)))
        with (S (List.length ports)) by lia.
      replace (Z.to_nat (LegacyScan.scanned_count st + 1
                         + Z.of_nat (List.length ports) + 1
                         - (LegacyScan.scanned_count st + 1 + 1)))
        with (List.length ports) by lia.
      cbn [seq map]. f_equal; [f_equal; lia|].
      rewrite <- seq_shift, !map_map. apply map_ext. intros i. f_equal. lia.
Qed.
End LegacyRange.

(** X10.  When the threads already alive do not exceed [max_threads],
    the threaded [scan_port_range] of [network_utils.py] returns, for
    every order in which the workers take the lock and whatever the
    callback does, the ports of the range that accept the connection,
    in ascending order, each with the service name of the table (or
    'Unknown'); the shared counter ends at the number of ports, and a
    callback is called once per port with the counts 1, 2, ..., total. *)
Theorem legacy_scan_port_range_open_ports {float : Type} (in_turn : Pool.scheduler)
    (net : Z -> Sock.world float) (others : Z) (default_timeout : float)
    (ip : string) (start_port end_port : Z)
    (callback : option LegacyScan.callback_t) (max_threads : Z) :
  Pool.fair in_turn ->
  others <= max_threads ->
  start_port <= end_port ->
  let total := end_port - start_port + 1 in
  exists st,
    LegacyScan.scan_port_range_run in_turn net others default_timeout ip
      start_port end_port callback max_threads
    = Some (map (fun p => (p, PortScanner.get LegacyScan.COMMON_PORTS p "Unknown"))
                (filter (fun p => PortReport.accepts (net p) ip p default_timeout)
                        (HostRange.range start_port (end_port + 1))),
            st)
    /\ LegacyScan.scanned_count st = total
    /\ (callback <> None ->
        map (fun n => (fst (fst (fst n)), snd (fst (fst n)))) (LegacyScan.notified st)
        = map (fun i => (i, total)) (HostRange.range 1 (total + 1))).
Proof.
  intros Hfair Hothers Hrange total.
  unfold LegacyScan.scan_port_range_run.
  set (ports := HostRange.range start_port (end_port + 1)).
  assert (Hlen : Z.of_nat (List.length ports) = total)
    by (unfold ports, total; rewrite range_length; lia).
  assert (Hinc : StronglySorted Z.lt ports) by apply range_increasing.
  destruct ports as [|p0 rest] eqn:Eports.
  { cbn [List.length] in Hlen. unfold total in Hlen. lia. }
  rewrite <- Eports in *. clear Eports.
  destruct (Z.gtb_spec others max_threads) as [Hgt|_]; [lia|].
  pose proof (scan_workers net ip default_timeout callback total (in_turn _ ports)
                {| LegacyScan.open_ports := []; LegacyScan.scanned_count := 0;
                   LegacyScan.notified := [] |}) as Hw.
  fold total.
  set (st := fold_left _ _ _) in *. cbv zeta in Hw.
  cbn [LegacyScan.scanned_count LegacyScan.open_ports LegacyScan.notified app map] in Hw.
  destruct Hw as [W1 [W2 W3]].
  rewrite <- (Permutation_length (Hfair _ ports)) in W1, W3.
  exists st. split; [|split].
  - f_equal. f_equal. rewrite W2.
    apply (sortZ_of_perm fst).
    + apply (increasing_map fst
               (fun p => (p, PortScanner.get LegacyScan.COMMON_PORTS p "Unknown"))).
      * reflexivity.
      * now apply StronglySorted_filter.
    + apply Permutation_map, Permutation_filter', Hfair.
  - rewrite W1. lia.
  - intros Hcb. rewrite W3. destruct callback as [cb|]; [|contradiction].
    now rewrite Hlen.
Qed.

(** Ports 20 to 25 of a host where only port 22 accepts, workers taking
    the lock in reverse order. *)
Lemma legacy_scan_port_range_open_ports_witness :
  (Pool.fair Pool.lifo /\ 1 <= 100 /\ 20 <= 25)
  /\ LegacyScan.scan_port_range Pool.lifo Samples.ssh_host 1 1 "127.0.0.1" 20 25 None 100
     = Some [(22, "SSH")].
Proof.
  assert (Hfair : Pool.fair Pool.lifo) by (intros A l; apply Permutation_rev).
  split; [split; [exact Hfair|lia]|].
  destruct (legacy_scan_port_range_open_ports Pool.lifo Samples.ssh_host 1 1 "127.0.0.1"
              20 25 None 100 Hfair ltac:(lia) ltac:(lia)) as [st [H _]].
  unfold LegacyScan.scan_port_range. rewrite H. reflexivity.
Defined.
(** ** More on the liveness probe *)

(** X11.  When [ping] does not raise [PermissionError], [ping_host]
    makes no socket call at all; it answers [True] exactly when [ping]
    returned a delay, with that delay times 1000 as latency, and
    [False] with no latency otherwise. *)
Theorem ping_host_without_fallback {float time : Type}
    (elapsed_ms : time -> time -> float) (times_1000 : float -> float)
    (fmt_2f : float -> string)
    (icmp : string -> float -> NetworkUtils.ping3)
    (clock : Z -> time * time) (net : Z -> Sock.world float)
    (ip : string) (timeout : float) :
  icmp ip timeout <> NetworkUtils.PingPermissionError ->
  exists success latency message,
    NetworkUtils.ping_host_run elapsed_ms times_1000 fmt_2f icmp clock net ip timeout
    = (Sock.Ok (success, latency, message), [])
    /\ (success = true <-> exists s, icmp ip timeout = NetworkUtils.PingSeconds s)
    /\ (forall s, icmp ip timeout = NetworkUtils.PingSeconds s ->
                  latency = Some (times_1000 s))
    /\ (success = false -> latency = None).
Proof.
  intros Hperm. unfold NetworkUtils.ping_host_run.
  destruct (icmp ip timeout) as [| |s| |msg]; try contradiction;
    do 3 eexists; (split; [reflexivity|]).
  - repeat split; try discriminate. intros [s H]; discriminate H.
  - repeat split; try discriminate. intros [s H]; discriminate H.
  - repeat split; try discriminate.
    + intros _. now exists s.
    + intros s' H. now injection H as <-.
  - repeat split; try discriminate. intros [s H]; discriminate H.
Qed.

(** A [ping] that answers. *)
Lemma ping_host_without_fallback_witness :
  privileged_ping "10.0.0.1" 2 <> NetworkUtils.PingPermissionError
  /\ exists message,
       NetworkUtils.ping_host_run (fun a b : Z => b - a) (fun x => 1000 * x)
         PyStr.str privileged_ping (fun port => (port, port + 5)) web_host "10.0.0.1" 2
       = (Sock.Ok (true, Some 3000, message), []).
Proof.
  assert (Hne : privileged_ping "10.0.0.1" 2 <> NetworkUtils.PingPermissionError)
    by discriminate.
  split; [exact Hne|].
  destruct (ping_host_without_fallback (fun a b : Z => b - a) (fun x => 1000 * x)
              PyStr.str privileged_ping (fun port => (port, port + 5)) web_host
              "10.0.0.1" 2 Hne)
    as [success [latency [message [Hrun [Hs [Hl _]]]]]].
  exists message. rewrite Hrun.
  rewrite (Hl 3 eq_refl).
  replace success with true; [reflexivity|].
  symmetry. apply Hs. now exists 3.
Defined.

Section FallbackCalls.
Context {float time : Type}.
Variable elapsed_ms : time -> time -> float.
Variable fmt_2f : float -> string.
Variable clock : Z -> time * time.
Variable net : Z -> Sock.world float.
Variables (ip : string) (timeout : float).

(** No socket call raises, on any port. *)
Hypothesis quiet : forall port call, exists v, net port call = Sock.Ok v.

Lemma tcp_attempt_quiet (port : Z) :
  exists r,
    Sock.try_except
      (NetworkUtils.tcp_attempt elapsed_ms fmt_2f clock (net port) ip port timeout)
      (fun _ => Sock.ret None) tt
    = (Sock.Ok r, tt, attempt_calls ip timeout port)
    /\ (r = None <-> NetworkUtils.succeeds (net port) ip port timeout = false).
Proof.
  unfold NetworkUtils.succeeds, Sock.try_except, NetworkUtils.tcp_attempt,
    NetworkUtils.now, Sock.bind, Sock.do_call, Sock.ret, attempt_calls.
  destruct (quiet port Sock.SocketNew) as [v1 ->].
  destruct (quiet port (Sock.SetTimeout timeout)) as [v2 ->].
  destruct (quiet port (Sock.ConnectEx ip port)) as [code ->].
  destruct (quiet port Sock.Close) as [v4 ->].
  destruct code as [|c|c]; eexists; (split; [reflexivity|]);
    split; try discriminate; reflexivity.
Qed.

(** With no call raising, the loop makes the four calls of an attempt
    for each port up to and including the first that succeeds. *)
Lemma tcp_ping_loop_quiet (ports : list Z) :
  exists answer,
    NetworkUtils.tcp_ping_loop elapsed_ms fmt_2f clock net ip timeout ports tt
    = (Sock.Ok answer, tt,
       flat_map (attempt_calls ip timeout) (NetworkUtils.attempted net ip timeout ports)).
Proof.
  induction ports as [|port rest IH].
  - eexists. reflexivity.
  - destruct (tcp_attempt_quiet port) as [r [Hturn Hr]].
    cbn [NetworkUtils.tcp_ping_loop NetworkUtils.attempted].
    unfold Sock.bind at 1. rewrite Hturn.
    destruct r as [answer|].
    + assert (E : NetworkUtils.succeeds (net port) ip port timeout = true).
      { destruct (NetworkUtils.succeeds (net port) ip port timeout); [reflexivity|].
        destruct Hr as [_ Hr]. discriminate (Hr eq_refl). }
      rewrite E. eexists. cbn [flat_map Sock.ret]. rewrite !app_nil_r. reflexivity.
    + rewrite (proj1 Hr eq_refl). destruct IH as [answer ->].
      eexists. cbn [flat_map]. reflexivity.
Qed.
End FallbackCalls.

(** X12.  [tcp_ping] never raises and tries at most three ports.  In a
    world where no socket call raises, its calls are exactly create,
    set timeout, connect, close for each port up to and including the
    first that succeeds: every socket it creates is closed, also after
    a connection that failed. *)
Theorem tcp_ping_closes_sockets {float time : Type}
    (elapsed_ms : time -> time -> float) (fmt_2f : float -> string)
    (clock : Z -> time * time) (net : Z -> Sock.world float)
    (ip : string) (timeout : float) :
  let run := NetworkUtils.tcp_ping_run elapsed_ms fmt_2f clock net ip timeout in
  (exists answer, fst run = Sock.Ok answer)
  /\ (List.length (NetworkUtils.ports_tried (snd run)) <= 3)%nat
  /\ ((forall port call, exists v, net port call = Sock.Ok v) ->
      snd run = flat_map (attempt_calls ip timeout)
                         (NetworkUtils.attempted net ip timeout [80; 443; 22])
      /\ List.length (filter Sock.is_close (snd run))
         = List.length (filter Sock.is_new (snd run))).
Proof.
  intros run.
  destruct (tcp_ping_loop_first_success elapsed_ms fmt_2f clock net ip timeout
              [80; 443; 22]) as [answer [calls [Hloop [Htried _]]]].
  assert (Hrun : run = (Sock.Ok answer, calls)).
  { unfold run, NetworkUtils.tcp_ping_run.
    change NetworkUtils.ports_to_try with [80; 443; 22]. now rewrite Hloop. }
  split; [exists answer; now rewrite Hrun|]. split.
  - rewrite Hrun. cbn [snd]. rewrite Htried.
    etransitivity; [apply filter_length_le|].
    cbn [NetworkUtils.attempted].
    destruct (NetworkUtils.succeeds (net 80) ip 80 timeout); [cbn; lia|].
    destruct (NetworkUtils.succeeds (net 443) ip 443 timeout); [cbn; lia|].
    destruct (NetworkUtils.succeeds (net 22) ip 22 timeout); cbn; lia.
  - intros Hquiet.
    destruct (tcp_ping_loop_quiet elapsed_ms fmt_2f clock net ip timeout Hquiet
                [80; 443; 22]) as [answer' Hloop'].
    assert (Hcalls : snd run = flat_map (attempt_calls ip timeout)
                                 (NetworkUtils.attempted net ip timeout [80; 443; 22])).
    { unfold run, NetworkUtils.tcp_ping_run.
      change NetworkUtils.ports_to_try with [80; 443; 22]. now rewrite Hloop'. }
    split; [exact Hcalls|]. rewrite Hcalls.
    generalize (NetworkUtils.attempted net ip timeout [80; 443; 22]) as l.
    induction l as [|p l IH]; [reflexivity|].
    cbn [flat_map attempt_calls app filter Sock.is_close Sock.is_new List.length].
    now rewrite IH.
Qed.

(** The host that refuses on 80 and accepts on 443. *)
Lemma tcp_ping_closes_sockets_witness :
  (forall port call, exists v, web_host port call = Sock.Ok v)
  /\ snd (NetworkUtils.tcp_ping_run (fun a b : Z => b - a) PyStr.str
            (fun port => (port, port + 5)) web_host "10.0.0.1" 2)
     = (attempt_calls "10.0.0.1" 2 80 ++ attempt_calls "10.0.0.1" 2 443)%list.
Proof.
  assert (Hquiet : forall port call, exists v, web_host port call = Sock.Ok v).
  { intros port call. unfold web_host, PortScanner.refusing, PortScanner.accepting.
    destruct (port =? 80); [destruct call|]; eexists; reflexivity. }
  split; [exact Hquiet|].
  exact (proj1 (proj2 (proj2 (tcp_ping_closes_sockets (fun a b : Z => b - a) PyStr.str
                                (fun port => (port, port + 5)) web_host "10.0.0.1" 2))
                 Hquiet)).
Defined.
(** ** Validating a target *)

Lemma lstrip_all_space (s : string) :
  PyStr.all_space s = true -> PyStr.lstrip s = EmptyString.
Proof.
  induction s as [|c s IH]; cbn; [reflexivity|].
  destruct (PyStr.is_space c); [exact IH|discriminate].
Qed.

Lemma lstrip_head (s : string) :
  PyStr.all_space s = false ->
  exists c t, PyStr.lstrip s = String c t /\ PyStr.is_space c = false.
Proof.
  induction s as [|c s IH]; cbn; [discriminate|].
  destruct (PyStr.is_space c) eqn:E; [exact IH|].
  intros _. now exists c, s.
Qed.

Lemma rstrip_head (c : ascii) (t : string) :
  PyStr.is_space c = false -> LegacyScan.rstrip (String c t) <> EmptyString.
Proof.
  intros Hc. cbn. destruct (LegacyScan.rstrip t); [rewrite Hc|]; discriminate.
Qed.

Lemma strip_empty_iff (s : string) :
  String.eqb (LegacyScan.strip s) "" = PyStr.all_space s.
Proof.
  unfold LegacyScan.strip. destruct (PyStr.all_space s) eqn:E.
  - now rewrite (lstrip_all_space s E).
  - destruct (lstrip_head s E) as [c [t [-> Hc]]].
    apply String.eqb_neq. now apply rstrip_head.
Qed.

(** X13.  [validate_ip] rejects an empty or all-blank text without
    asking the resolver.  For any other text it asks the resolver once,
    with the text as given, and answers [True] exactly when the name
    resolves and [False] when the resolver raises [socket.error]; an
    exception of another class is not caught. *)
Theorem validate_ip_blank_or_resolved (gethostbyname : string -> LegacyScan.lookup)
    (ip : string) :
  (PyStr.all_space ip = true ->
   LegacyScan.validate_ip_run gethostbyname ip = (Returned false, []))
  /\ (PyStr.all_space ip = false ->
      snd (LegacyScan.validate_ip_run gethostbyname ip) = [ip]
      /\ (LegacyScan.validate_ip gethostbyname ip = Returned true
          <-> exists a, gethostbyname ip = LegacyScan.Address a)
      /\ (LegacyScan.validate_ip gethostbyname ip = Returned false
          <-> exists msg, gethostbyname ip = LegacyScan.SocketError msg)
      /\ (forall msg, LegacyScan.validate_ip gethostbyname ip = Raised msg
                      <-> gethostbyname ip = LegacyScan.OtherException msg)).
Proof.
  unfold LegacyScan.validate_ip, LegacyScan.validate_ip_run.
  rewrite strip_empty_iff. split; intros Hs; rewrite Hs.
  - now rewrite orb_true_r.
  - assert (E : String.eqb ip "" = false).
    { destruct ip; [discriminate Hs|reflexivity]. }
    rewrite E. cbn [orb].
    destruct (gethostbyname ip) as [a|msg|msg]; cbn [fst snd];
      (split; [reflexivity|]); repeat split;
      try discriminate; try (intros [x H]; discriminate H); eauto;
      try (intros H; injection H as <-; reflexivity).
Qed.

(** A text of blanks. *)
Lemma validate_ip_blank_or_resolved_witness :
  PyStr.all_space "   " = true
  /\ LegacyScan.validate_ip_run (fun _ => LegacyScan.Address "127.0.0.1") "   "
     = (Returned false, []).
Proof.
  split; [reflexivity|].
  exact (proj1 (validate_ip_blank_or_resolved (fun _ => LegacyScan.Address "127.0.0.1") "   ")
           eq_refl).
Defined.
(** ** The range the interface asks for *)

(** X14.  Whenever [_run_port_scan] starts a scan, the target is not
    empty and the range satisfies [1 <= start <= end <= 65535], the
    fields being read as integers after stripping, with 1 and 1024 for
    a blank field; and every input with a non-blank target and such
    fields does start the scan. *)
Theorem gui_scan_range_valid (scan_target port_start port_end : string) :
  (forall target start_port end_port,
     Gui.run_port_scan scan_target port_start port_end
     = Gui.Scan target start_port end_port ->
     target = LegacyScan.strip scan_target /\ target <> ""%string
     /\ PyStr.int (Gui.or_default (LegacyScan.strip port_start) "1") = Some start_port
     /\ PyStr.int (Gui.or_default (LegacyScan.strip port_end) "1024") = Some end_port
     /\ (1 <= start_port <= end_port /\ end_port <= 65535))
  /\ (forall start_port end_port,
        PyStr.all_space scan_target = false ->
        PyStr.int (Gui.or_default (LegacyScan.strip port_start) "1") = Some start_port ->
        PyStr.int (Gui.or_default (LegacyScan.strip port_end) "1024") = Some end_port ->
        1 <= start_port <= end_port /\ end_port <= 65535 ->
        Gui.run_port_scan scan_target port_start port_end
        = Gui.Scan (LegacyScan.strip scan_target) start_port end_port)
  /\ (PyStr.all_space port_start = true -> PyStr.all_space port_end = true ->
      PyStr.all_space scan_target = false ->
      Gui.run_port_scan scan_target port_start port_end
      = Gui.Scan (LegacyScan.strip scan_target) 1 1024).
Proof.
  assert (Hfwd : forall start_port end_port,
            PyStr.all_space scan_target = false ->
            PyStr.int (Gui.or_default (LegacyScan.strip port_start) "1") = Some start_port ->
            PyStr.int (Gui.or_default (LegacyScan.strip port_end) "1024") = Some end_port ->
            1 <= start_port <= end_port /\ end_port <= 65535 ->
            Gui.run_port_scan scan_target port_start port_end
            = Gui.Scan (LegacyScan.strip scan_target) start_port end_port).
  { intros start_port end_port Ht Hs He Hr. unfold Gui.run_port_scan.
    rewrite strip_empty_iff, Ht, Hs, He.
    destruct (Z.gtb_spec start_port end_port); [lia|].
    destruct (Z.ltb_spec start_port 1); [lia|].
    destruct (Z.gtb_spec end_port 65535); [lia|]. reflexivity. }
  split; [|split; [exact Hfwd|]].
  - intros target start_port end_port. unfold Gui.run_port_scan.
    destruct (String.eqb_spec (LegacyScan.strip scan_target) "") as [|Hne];
      [discriminate|].
    destruct (PyStr.int (Gui.or_default (LegacyScan.strip port_start) "1"))
      as [s|]; [|discriminate].
    destruct (PyStr.int (Gui.or_default (LegacyScan.strip port_end) "1024"))
      as [e|]; [|discriminate].
    destruct (Z.gtb_spec s e); [discriminate|].
    destruct (Z.ltb_spec s 1); [discriminate|].
    destruct (Z.gtb_spec e 65535); [discriminate|].
    cbn [orb]. intros Hscan. injection Hscan as <- <- <-.
    repeat split; auto; lia.
  - intros Hs He Ht. apply Hfwd; [exact Ht| | |lia].
    + pose proof (strip_empty_iff port_start) as E. rewrite Hs in E.
      apply String.eqb_eq in E. now rewrite E.
    + pose proof (strip_empty_iff port_end) as E. rewrite He in E.
      apply String.eqb_eq in E. now rewrite E.
Qed.

(** The target " 10.0.0.1 " with the fields " 20 " and blank. *)
Lemma gui_scan_range_valid_witness :
  (PyStr.all_space " 10.0.0.1 " = false
   /\ PyStr.int (Gui.or_default (LegacyScan.strip " 20 ") "1") = Some 20
   /\ PyStr.int (Gui.or_default (LegacyScan.strip "") "1024") = Some 1024
   /\ (1 <= 20 <= 1024 /\ 1024 <= 65535))
  /\ Gui.run_port_scan " 10.0.0.1 " " 20 " "" = Gui.Scan "10.0.0.1" 20 1024.
Proof.
  split; [repeat split; lia|].
  exact (proj1 (proj2 (gui_scan_range_valid " 10.0.0.1 " " 20 " "")) 20 1024
           eq_refl eq_refl eq_refl ltac:(lia)).
Defined.
(** ** Edges of the range scan *)

(** X15.  [scan_port_range] raises the [ValueError] of the executor for
    a pool size of zero or less, whatever the range; and for a range
    with [end_port < start_port] it probes nothing and returns the
    empty list, with the counter at 0. *)
Theorem scan_port_range_edges {float : Type} (as_completed : Pool.scheduler)
    (net : Z -> Sock.world float) (host : string) (start_port end_port : Z)
    (callback : option PortScanner.callback_t) (timeout : float) (max_threads : Z) :
  (max_threads <= 0 ->
   PortScanner.scan_port_range as_completed net host start_port end_port
                               callback timeout max_threads
   = Raised "max_workers must be greater than 0")
  /\ (Pool.fair as_completed -> 0 < max_threads -> end_port < start_port ->
      PortScanner.scan_port_range_run as_completed net host start_port end_port
                                      callback timeout max_threads
      = Returned ([], 0)
      /\ PortScanner.scan_port_range as_completed net host start_port end_port
                                     callback timeout max_threads
         = Returned []).
Proof.
  split.
  - intros Hmax. unfold PortScanner.scan_port_range, PortScanner.scan_port_range_run,
      PortScanner.scan_port_range_with, PortScanner.run_scan, Pool.ThreadPoolExecutor.
    destruct (Z.leb_spec max_threads 0); [reflexivity|lia].
  - intros Hfair Hmax Hempty.
    assert (Hrun : PortScanner.scan_port_range_run as_completed net host start_port
                     end_port callback timeout max_threads = Returned ([], 0)).
    { unfold PortScanner.scan_port_range_run, PortScanner.scan_port_range_with,
        PortScanner.run_scan, Pool.ThreadPoolExecutor.
      destruct (Z.leb_spec max_threads 0); [lia|].
      rewrite range_nil by lia. cbn [map].
      pose proof (Hfair _ (@nil (completion PortScanner.outcome * Z))) as HP.
      apply Permutation_nil in HP. rewrite HP. reflexivity. }
    split; [exact Hrun|]. unfold PortScanner.scan_port_range. now rewrite Hrun.
Qed.

(** A pool of no worker, and the range from 25 down to 20. *)
Lemma scan_port_range_edges_witness :
  (0 <= 0 /\ Pool.fair Pool.lifo /\ 0 < 100 /\ 20 < 25)
  /\ PortScanner.scan_port_range (float := Z) Pool.lifo (fun _ => PortScanner.accepting)
       "127.0.0.1" 20 25 None 1 0
     = Raised "max_workers must be greater than 0"
  /\ PortScanner.scan_port_range (float := Z) Pool.lifo (fun _ => PortScanner.accepting)
       "127.0.0.1" 25 20 None 1 100
     = Returned [].
Proof.
  assert (Hfair : Pool.fair Pool.lifo) by (intros A l; apply Permutation_rev).
  split; [split; [lia|split; [exact Hfair|lia]]|]. split.
  - exact (proj1 (scan_port_range_edges (float := Z) Pool.lifo
                    (fun _ => PortScanner.accepting) "127.0.0.1" 20 25 None 1 0)
             ltac:(lia)).
  - exact (proj2 (proj2 (scan_port_range_edges (float := Z) Pool.lifo
                           (fun _ => PortScanner.accepting) "127.0.0.1" 25 20 None 1 100)
                    Hfair ltac:(lia) ltac:(lia))).
Defined.
